(** * calorie_tracker: [scripts/generate_icons.py]

    A shallow embedding of the launcher-icon generator and the proofs of
    the properties its specification states.  The Python functions
    [create_png], its local [png_chunk], and [main] are transcribed as Rocq
    definitions with the same names; the library calls they make
    ([struct.pack], [zlib.crc32], [zlib.compress], [os.path.*],
    [os.makedirs], [open]/[write], [print]) are modelled next to them. *)

From Stdlib Require Import ZArith Lia.
From Stdlib.Strings Require Import Ascii String Byte.
From stdpp Require Import base tactics option list gmap strings pretty.

Local Open Scope Z_scope.

(** ** Python values, exceptions, and the error monad *)

(** The exceptions that can leave [create_png] and [main]. *)
Inductive exn : Type :=
| StructError          (* struct.error *)
| ValueError
| TypeError
| FileNotFoundError
| FileExistsError
| NotADirectoryError
| IsADirectoryError.

Inductive result (A : Type) : Type :=
| Ok (a : A)
| Err (e : exn).
Arguments Ok {A} a.
Arguments Err {A} e.

Definition rbind {A B} (k : A -> result B) (r : result A) : result B :=
  match r with
  | Ok a => k a
  | Err e => Err e
  end.

#[global] Instance result_ret : MRet result := fun A a => Ok a.
#[global] Instance result_bind : MBind result := fun A B k r => rbind k r.

(** A Python [bytes] object. *)
Abbreviation bytes := (list byte).

#[global] Instance byte_eq_dec : EqDecision byte := Byte.byte_eq_dec.

Definition byte_to_Z (b : byte) : Z := Z.of_N (Byte.to_N b).

(** The byte holding the low eight bits of [z]. *)
Definition Z_to_byte (z : Z) : byte :=
  default x00 (Byte.of_N (Z.to_N (Z.land z 0xff))).

(** A colour component as the caller passes it: Python is dynamically
    typed, so a component is an [int] of any magnitude or some object that
    is not an integer (a float, a string, [None]). *)
Inductive pyobj : Type :=
| PyInt (n : Z)
| PyNonInt.

(** One element of the list handed to [bytes([...])]: an integer in
    [range(256)] becomes a byte, any other integer raises [ValueError], a
    non-integer raises [TypeError]. *)
Definition byte_of_pyobj (o : pyobj) : result byte :=
  match o with
  | PyInt n => if (0 <=? n) && (n <? 256) then Ok (Z_to_byte n) else Err ValueError
  | PyNonInt => Err TypeError
  end.

(** [bytes(l)] for a list [l]; elements are converted left to right. *)
Fixpoint py_bytes (l : list pyobj) : result bytes :=
  match l with
  | [] => Ok []
  | o :: l' =>
      b ← byte_of_pyobj o;
      bs ← py_bytes l';
      Ok (b :: bs)
  end.

(** ** [struct.pack] *)

(** [n] bytes of [v], most significant first. *)
Fixpoint be_bytes (n : nat) (v : Z) : bytes :=
  match n with
  | O => []
  | S k => Z_to_byte (Z.shiftr v (8 * Z.of_nat k)) :: be_bytes k v
  end.

(** An unsigned field of [n] bytes: the argument must fit, else
    [struct.error]. *)
Definition pack_uint (n : nat) (v : Z) : result bytes :=
  if (0 <=? v) && (v <? 2 ^ (8 * Z.of_nat n)) then Ok (be_bytes n v)
  else Err StructError.

(** The field codes of a format, after the byte-order mark: ['I'] is an
    unsigned 4-byte integer, ['B'] an unsigned byte.  The number of
    arguments must match the number of codes. *)
Fixpoint pack_fields (codes : list ascii) (args : list Z) : result bytes :=
  match codes, args with
  | [], [] => Ok []
  | c :: codes', v :: args' =>
      if Ascii.eqb c "I" then
        b ← pack_uint 4 v; r ← pack_fields codes' args'; Ok (b ++ r)
      else if Ascii.eqb c "B" then
        b ← pack_uint 1 v; r ← pack_fields codes' args'; Ok (b ++ r)
      else Err StructError
  | _, _ => Err StructError
  end.

(** [struct.pack(fmt, *args)] for the big-endian formats the script uses. *)
Definition struct_pack (fmt : string) (args : list Z) : result bytes :=
  match fmt with
  | String ">" codes => pack_fields (list_ascii_of_string codes) args
  | _ => Err StructError
  end.

(** ** [zlib.crc32] *)

(** The reflected CRC-32 polynomial. *)
Definition crc_poly : Z := 0xEDB88320.

(** One step of the shift register. *)
Definition crc_shift (c : Z) : Z :=
  if Z.odd c then Z.lxor (Z.shiftr c 1) crc_poly else Z.shiftr c 1.

(** zlib's table of 256 entries, entry [n] being [n] shifted eight times
    (zlib's [make_crc_table]). *)
Definition crc_table : list Z :=
  Eval vm_compute in map (fun n => Nat.iter 8 crc_shift (Z.of_nat n)) (seq 0 256).

(** zlib's byte-wise update: [crc_table[(crc ^ b) & 0xff] ^ (crc >> 8)]. *)
Definition crc32_update (crc : Z) (b : byte) : Z :=
  Z.lxor (nth (Z.to_nat (Z.land (Z.lxor crc (byte_to_Z b)) 0xff)) crc_table 0)
         (Z.shiftr crc 8).

(** [zlib.crc32(data)]: the register starts at [0xffffffff] and the result
    is complemented. *)
Definition crc32 (data : bytes) : Z :=
  Z.lxor (fold_left crc32_update data 0xffffffff) 0xffffffff.

(** ** [zlib.compress] and [zlib.decompress]

    The deflate encoder is the zlib library's and its output depends on the
    library's version and settings; the script relies on nothing but its
    contract: the stream it returns is one that [zlib.decompress] turns
    back into the input. *)
Class Zlib : Type := {
  zlib_compress : bytes -> bytes;
  zlib_decompress : bytes -> option bytes;
  zlib_decompress_compress :
    forall data, zlib_decompress (zlib_compress data) = Some data
}.

(** ** Loops *)

(** [for _ in range(n): s = body(s)], where the body may raise. *)
Fixpoint repeat_body {S : Type} (n : nat) (body : S -> result S) (s : S) : result S :=
  match n with
  | O => Ok s
  | Datatypes.S k => s' ← body s; repeat_body k body s'
  end.

Definition for_range {S : Type} (n : Z) (body : S -> result S) (s : S) : result S :=
  repeat_body (Z.to_nat n) body s.

(** ** The encoder, lines 15 to 40 of the script *)

(** The local function [png_chunk]. *)
Definition png_chunk (chunk_type data : bytes) : result bytes :=
  chunk_len ← struct_pack ">I" [Z.of_nat (length data)];
  chunk_crc ← struct_pack ">I" [Z.land (crc32 (chunk_type ++ data)) 0xffffffff];
  Ok (chunk_len ++ chunk_type ++ data ++ chunk_crc).

(** [b'\x89PNG\r\n\x1a\n'] *)
Definition signature : bytes := [x89; x50; x4e; x47; x0d; x0a; x1a; x0a].

Definition ihdr_data (width height : Z) : result bytes :=
  struct_pack ">IIBBBBB" [width; height; 8; 2; 0; 0; 0].

(** The two nested loops that fill [raw_data]. *)
Definition raw_scanlines (width height : Z) (r g b : pyobj) : result bytes :=
  for_range height
    (fun raw_data =>
       let raw_data := raw_data ++ [x00] in
       for_range width
         (fun raw_data => px ← py_bytes [r; g; b]; Ok (raw_data ++ px))
         raw_data)
    [].

Definition color : Type := pyobj * pyobj * pyobj.

(** The bytes [create_png] hands to [f.write]: everything the function
    computes before it touches the file system. *)
Definition png_bytes `{Zlib} (width height : Z) (rgb_color : color) : result bytes :=
  let '(r, g, b) := rgb_color in
  ihdr_data ← ihdr_data width height;
  ihdr ← png_chunk (list_byte_of_string "IHDR") ihdr_data;
  raw_data ← raw_scanlines width height r g b;
  let compressed := zlib_compress raw_data in
  idat ← png_chunk (list_byte_of_string "IDAT") compressed;
  iend ← png_chunk (list_byte_of_string "IEND") [];
  Ok (signature ++ ihdr ++ idat ++ iend).

(** ** [os.path] (posixpath) *)

Definition is_sep (c : ascii) : bool := Ascii.eqb c "/".

(** [p.startswith('/')], which is also [os.path.isabs(p)]. *)
Definition isabs (p : string) : bool :=
  match p with
  | String c _ => is_sep c
  | EmptyString => false
  end.

(** [p.endswith('/')] *)
Fixpoint ends_with_sep (p : string) : bool :=
  match p with
  | EmptyString => false
  | String c EmptyString => is_sep c
  | String _ p' => ends_with_sep p'
  end.

(** [p == '/' * len(p)] *)
Fixpoint all_sep (p : string) : bool :=
  match p with
  | EmptyString => true
  | String c p' => is_sep c && all_sep p'
  end.

(** [p.rstrip('/')] *)
Fixpoint rstrip_sep (p : string) : string :=
  match p with
  | EmptyString => EmptyString
  | String c p' =>
      match rstrip_sep p' with
      | EmptyString => if is_sep c then EmptyString else String c EmptyString
      | r => String c r
      end
  end.

(** [(p[:i], p[i:])] for [i = p.rfind('/') + 1]. *)
Fixpoint cut_last_sep (p : string) : string * string :=
  match p with
  | EmptyString => (EmptyString, EmptyString)
  | String c p' =>
      match cut_last_sep p' with
      | (EmptyString, t) =>
          if is_sep c then (String c EmptyString, t) else (EmptyString, String c t)
      | (h, t) => (String c h, t)
      end
  end.

(** [os.path.split] *)
Definition split (p : string) : string * string :=
  let '(head, tail) := cut_last_sep p in
  (if all_sep head then head else rstrip_sep head, tail).

(** [os.path.dirname] *)
Definition dirname (p : string) : string :=
  let '(head, _) := cut_last_sep p in
  if all_sep head then head else rstrip_sep head.

(** [os.path.join(a, b)] *)
Definition join (a b : string) : string :=
  if isabs b then b
  else if bool_decide (a = EmptyString) || ends_with_sep a then a +:+ b
  else a +:+ "/" +:+ b.

(** [p.split('/')] *)
Fixpoint split_sep (p : string) : list string :=
  match p with
  | EmptyString => [EmptyString]
  | String c p' =>
      if is_sep c then EmptyString :: split_sep p'
      else match split_sep p' with
           | w :: ws => String c w :: ws
           | [] => [String c EmptyString]
           end
  end.

(** ['/'.join(comps)] *)
Fixpoint join_sep (comps : list string) : string :=
  match comps with
  | [] => EmptyString
  | [c] => c
  | c :: comps' => c +:+ "/" +:+ join_sep comps'
  end.

(** The loop body of [normpath]: [new_comps] after one more component. *)
Definition normpath_step (initial_slashes : nat) (new_comps : list string)
    (comp : string) : list string :=
  if bool_decide (comp = "" \/ comp = ".") then new_comps
  else if bool_decide (comp <> "..")
          || (bool_decide (initial_slashes = O) && bool_decide (new_comps = []))
          || bool_decide (last new_comps = Some "..")
       then new_comps ++ [comp]
       else removelast new_comps.

(** [os.path.normpath] *)
Definition normpath (path : string) : string :=
  if bool_decide (path = "") then "."
  else
    let initial_slashes :=
      match path with
      | String "/" (String "/" (String "/" _)) => 1%nat
      | String "/" (String "/" _) => 2%nat
      | String "/" _ => 1%nat
      | _ => 0%nat
      end in
    let comps := fold_left (normpath_step initial_slashes) (split_sep path) [] in
    let path := join_sep comps in
    let path := String.concat "" (replicate initial_slashes "/") +:+ path in
    if bool_decide (path = "") then "." else path.

(** ** Programs with effects

    [create_png] and [main] act on the file system and on standard output.
    A program is the tree of the requests it makes to the operating system,
    in order; an exception ends it. *)
Inductive prog (A : Type) : Type :=
| Return (a : A)
| Raise (e : exn)
| GetCwd (k : string -> prog A)                           (* os.getcwd() *)
| MakeDirs (name : string) (exist_ok : bool) (k : prog A) (* os.makedirs *)
| WriteFile (path : string) (data : bytes) (k : prog A)   (* open(path, 'wb'), write, close *)
| Print (line : string) (k : prog A).                     (* print(line) *)
Arguments Return {A} a.
Arguments Raise {A} e.
Arguments GetCwd {A} k.
Arguments MakeDirs {A} name exist_ok k.
Arguments WriteFile {A} path data k.
Arguments Print {A} line k.

Fixpoint pbind {A B : Type} (k : A -> prog B) (p : prog A) : prog B :=
  match p with
  | Return a => k a
  | Raise e => Raise e
  | GetCwd f => GetCwd (fun c => pbind k (f c))
  | MakeDirs n e p' => MakeDirs n e (pbind k p')
  | WriteFile f d p' => WriteFile f d (pbind k p')
  | Print l p' => Print l (pbind k p')
  end.

#[global] Instance prog_ret : MRet prog := fun A a => Return a.
#[global] Instance prog_bind : MBind prog := fun A B k p => pbind k p.

(** A pure computation inside a program; its exception propagates. *)
Definition lift {A : Type} (r : result A) : prog A :=
  match r with
  | Ok a => Return a
  | Err e => Raise e
  end.

Definition os_makedirs (name : string) (exist_ok : bool) : prog unit :=
  MakeDirs name exist_ok (Return tt).
Definition write_file (path : string) (data : bytes) : prog unit :=
  WriteFile path data (Return tt).
Definition print (line : string) : prog unit :=
  Print line (Return tt).

(** [for x in l: body(x)] *)
Fixpoint for_each {X : Type} (l : list X) (body : X -> prog unit) : prog unit :=
  match l with
  | [] => Return tt
  | x :: l' => _ ← body x; for_each l' body
  end.

(** [os.path.abspath] *)
Definition abspath (path : string) : prog string :=
  if isabs path then Return (normpath path)
  else GetCwd (fun cwd => Return (normpath (join cwd path))).

(** ** The script *)

Section Script.
Context `{Zlib}.

Definition create_png (width height : Z) (rgb_color : color) (filepath : string)
  : prog unit :=
  let '(r, g, b) := rgb_color in
  (* IHDR chunk *)
  ihdr_data ← lift (struct_pack ">IIBBBBB" [width; height; 8; 2; 0; 0; 0]);
  ihdr ← lift (png_chunk (list_byte_of_string "IHDR") ihdr_data);
  (* IDAT chunk (image data) *)
  raw_data ← lift (raw_scanlines width height r g b);
  let compressed := zlib_compress raw_data in
  idat ← lift (png_chunk (list_byte_of_string "IDAT") compressed);
  (* IEND chunk *)
  iend ← lift (png_chunk (list_byte_of_string "IEND") []);
  (* Ensure directory exists *)
  _ ← os_makedirs (dirname filepath) true;
  write_file filepath (signature ++ ihdr ++ idat ++ iend).

(** Teal color (matching the app theme: Colors.teal = #009688) *)
Definition teal : color := (PyInt 0, PyInt 150, PyInt 136).

(** Icon sizes for each density *)
Definition icons : list (Z * string) :=
  [ (48, "android/app/src/main/res/mipmap-mdpi/ic_launcher.png");
    (72, "android/app/src/main/res/mipmap-hdpi/ic_launcher.png");
    (96, "android/app/src/main/res/mipmap-xhdpi/ic_launcher.png");
    (144, "android/app/src/main/res/mipmap-xxhdpi/ic_launcher.png");
    (192, "android/app/src/main/res/mipmap-xxxhdpi/ic_launcher.png") ].

(** The f-string [f"  Created {relative_path} ({size}x{size})"]. *)
Definition created_line (relative_path : string) (size : Z) : string :=
  "  Created " +:+ relative_path +:+ " (" +:+ pretty size +:+ "x" +:+ pretty size +:+ ")".

Definition newline : string := String (ascii_of_nat 10) "".

(** [main]; [file] is the value of [__file__]. *)
Definition main (file : string) : prog unit :=
  (* Get the script's directory to find project root *)
  abs ← abspath file;
  let script_dir := dirname abs in
  let project_root := dirname script_dir in
  _ ← print "Generating launcher icons...";
  _ ← for_each icons (fun '(size, relative_path) =>
         let filepath := join project_root relative_path in
         _ ← create_png size size teal filepath;
         print (created_line relative_path size));
  _ ← print (newline +:+ "All icons created successfully!");
  _ ← print (newline +:+ "Note: These are placeholder icons (solid teal squares).");
  print "For a production app, replace them with proper designed icons.".

End Script.

(** ** The file system

    A tree of directories and regular files without symbolic links and
    without permissions; a node is named by the list of the components
    that lead to it from the root.  The root is always a directory.

    A request fails here only for the shape of the tree.  The operating
    system can refuse a request for other reasons (permissions, a disk
    that is full, a write that is interrupted after the file was
    truncated), and it resolves [..] against the directories that exist,
    where [locate] below resolves it on the text of the path as
    [os.path.normpath] does; the two agree on the normalised paths that
    [main] builds. *)
Inductive node : Type :=
| Dir
| File (content : bytes).

Record world : Type := World {
  cwd : string;                       (* what os.getcwd() returns *)
  nodes : gmap (list string) node;
  stdout : list string                (* one entry per print *)
}.

Definition node_at (m : gmap (list string) node) (k : list string) : option node :=
  match k with
  | [] => Some Dir
  | _ => m !! k
  end.

(** One component of a path walk: empty components and ["."] stay in
    place, [".."] goes to the parent. *)
Definition walk_step (at_ : list string) (comp : string) : list string :=
  if bool_decide (comp = "" \/ comp = ".") then at_
  else if bool_decide (comp = "..") then removelast at_
  else at_ ++ [comp].

(** The node a path names: an absolute path is walked from the root, a
    relative one from the working directory. *)
Definition locate (cwd path : string) : list string :=
  fold_left walk_step (split_sep path)
    (if isabs path then [] else fold_left walk_step (split_sep cwd) []).

(** Create the directories [todo] below [at_], one after the other; a
    directory that is there already is kept, a regular file in the way is
    an error. *)
Fixpoint mkdir_p (at_ todo : list string) (m : gmap (list string) node)
  : result (gmap (list string) node) :=
  match todo with
  | [] => Ok m
  | c :: todo' =>
      let k := at_ ++ [c] in
      match m !! k with
      | Some Dir => mkdir_p k todo' m
      | Some (File _) =>
          Err (match todo' with [] => FileExistsError | _ => NotADirectoryError end)
      | None => mkdir_p k todo' (<[k := Dir]> m)
      end
  end.

(** [os.makedirs(name, exist_ok=...)]: the empty name is no path at all
    ([FileNotFoundError]); with [exist_ok=False] an existing target is an
    error. *)
Definition do_makedirs (name : string) (exist_ok : bool) (w : world) : result world :=
  if bool_decide (name = "") then Err FileNotFoundError
  else
    let k := locate (cwd w) name in
    if negb exist_ok && bool_decide (is_Some (node_at (nodes w) k)) then Err FileExistsError
    else
      m ← mkdir_p [] k (nodes w);
      Ok (World (cwd w) m (stdout w)).

(** [with open(path, 'wb') as f: f.write(data)]: the directory of the file
    must exist; the file is created or replaced. *)
Definition do_write_file (path : string) (data : bytes) (w : world) : result world :=
  if bool_decide (path = "") then Err FileNotFoundError
  else
    let k := locate (cwd w) path in
    match k with
    | [] => Err IsADirectoryError
    | _ =>
        match node_at (nodes w) (removelast k) with
        | None => Err FileNotFoundError
        | Some (File _) => Err NotADirectoryError
        | Some Dir =>
            match nodes w !! k with
            | Some Dir => Err IsADirectoryError
            | Some (File _) =>
                if ends_with_sep path then Err NotADirectoryError
                else Ok (World (cwd w) (<[k := File data]> (nodes w)) (stdout w))
            | None =>
                if ends_with_sep path then Err IsADirectoryError
                else Ok (World (cwd w) (<[k := File data]> (nodes w)) (stdout w))
            end
        end
    end.

Definition do_print (line : string) (w : world) : world :=
  World (cwd w) (nodes w) (stdout w ++ [line]).

(** Running a program: the outcome and the world it leaves.  A request
    that fails raises, and nothing after it is run. *)
Fixpoint run {A : Type} (p : prog A) (w : world) : result A * world :=
  match p with
  | Return a => (Ok a, w)
  | Raise e => (Err e, w)
  | GetCwd k => run (k (cwd w)) w
  | MakeDirs name exist_ok k =>
      match do_makedirs name exist_ok w with
      | Ok w' => run k w'
      | Err e => (Err e, w)
      end
  | WriteFile path data k =>
      match do_write_file path data w with
      | Ok w' => run k w'
      | Err e => (Err e, w)
      end
  | Print line k => run k (do_print line w)
  end.

(** What [open(path, 'rb').read()] would return. *)
Definition read_file (w : world) (path : string) : option bytes :=
  match nodes w !! locate (cwd w) path with
  | Some (File content) => Some content
  | _ => None
  end.

Definition is_dir (w : world) (path : string) : bool :=
  bool_decide (path <> "")
  && match node_at (nodes w) (locate (cwd w) path) with
     | Some Dir => true
     | _ => false
     end.

(** ** A zlib implementation: deflate with stored blocks

    One implementation of the [Zlib] contract, following RFC 1950 and
    RFC 1951: the encoder emits stored (uncompressed) deflate blocks inside
    a zlib wrapper, the decoder reads them back and checks the Adler-32
    trailer.  [zlib.compress] at its default level produces a different,
    shorter stream for the same data; the theorems below hold for every
    implementation of the contract, and this one shows that the contract
    can be met and lets the encoder be run. *)
Module ZlibStored.

Definition adler_step (ab : Z * Z) (x : byte) : Z * Z :=
  let a := (fst ab + byte_to_Z x) mod 65521 in
  (a, (snd ab + a) mod 65521).

Definition adler32 (data : bytes) : Z :=
  let '(a, b) := fold_left adler_step data (1, 0) in
  Z.lor (Z.shiftl b 16) a.

(** A 16-bit value, least significant byte first. *)
Definition le16 (n : Z) : bytes := [Z_to_byte n; Z_to_byte (Z.shiftr n 8)].

(** Blocks of at most 65535 bytes; the last one carries BFINAL. *)
Fixpoint stored_blocks (fuel : nat) (data : bytes) : bytes :=
  match fuel with
  | O => []
  | S fuel' =>
      let n := Z.min (Z.of_nat (length data)) 65535 in
      let block := take (Z.to_nat n) data in
      let rest := drop (Z.to_nat n) data in
      match rest with
      | [] => x01 :: le16 n ++ le16 (Z.lxor n 0xffff) ++ block
      | _ => x00 :: le16 n ++ le16 (Z.lxor n 0xffff) ++ block
               ++ stored_blocks fuel' rest
      end
  end.

Definition compress (data : bytes) : bytes :=
  [x78; x01] ++ stored_blocks (S (length data)) data ++ be_bytes 4 (adler32 data).

(** The data of a sequence of stored blocks and what follows them. *)
Fixpoint inflate_stored (fuel : nat) (s : bytes) : option (bytes * bytes) :=
  match fuel with
  | O => None
  | S fuel' =>
      match s with
      | h :: l0 :: l1 :: n0 :: n1 :: s' =>
          let len := byte_to_Z l0 + 256 * byte_to_Z l1 in
          let nlen := byte_to_Z n0 + 256 * byte_to_Z n1 in
          if negb (Z.land (Z.shiftr (byte_to_Z h) 1) 3 =? 0) then None
          else if negb (Z.lxor len 0xffff =? nlen) then None
          else if Z.of_nat (length s') <? len then None
          else
            let block := take (Z.to_nat len) s' in
            let rest := drop (Z.to_nat len) s' in
            if Z.odd (byte_to_Z h) then Some (block, rest)
            else '(d, r) ← inflate_stored fuel' rest; Some (block ++ d, r)
      | _ => None
      end
  end.

Definition be32_value (bs : bytes) : Z :=
  fold_left (fun acc x => 256 * acc + byte_to_Z x) bs 0.

Definition decompress (s : bytes) : option bytes :=
  match s with
  | cmf :: flg :: s' =>
      let c := byte_to_Z cmf in
      let f := byte_to_Z flg in
      if negb (Z.land c 15 =? 8) || negb (Z.shiftr c 4 <=? 7)
         || negb ((256 * c + f) mod 31 =? 0) || negb (Z.land f 32 =? 0)
      then None
      else
        '(d, trailer) ← inflate_stored (length s') s';
        if bool_decide (length trailer = 4%nat)
           && (be32_value trailer =? adler32 d)
        then Some d else None
  | _ => None
  end.

End ZlibStored.

(** ** The CRC-32 of ISO 3309 and ITU-T V.42, bit by bit

    The definition the specification refers to: the register is seeded
    with [0xffffffff], every data byte is exclusive-ored into its low end
    and the register is shifted eight times, and the final value is
    complemented. *)
Definition crc32_bitwise_update (c : Z) (x : byte) : Z :=
  Nat.iter 8 crc_shift (Z.lxor c (byte_to_Z x)).

Definition crc32_bitwise (data : bytes) : Z :=
  Z.lxor (fold_left crc32_bitwise_update data 0xffffffff) 0xffffffff.

(** ** A reference PNG decoder

    What a conforming decoder does with a stream, following the PNG
    specification (ISO/IEC 15948) for the image type the script writes:
    truecolour, eight bits per sample, not interlaced.  It checks the
    signature, the chunk layout, every CRC and the IHDR fields, inflates
    the concatenated IDAT data, undoes the scanline filters, and applies
    the tRNS colour key, if there is one, to obtain the alpha of every
    pixel.  Images of other types are refused. *)
Module PngDecoder.

Record chunk : Type := Chunk { chunk_type : bytes; chunk_data : bytes }.

(** The value of a big-endian unsigned integer. *)
Definition be_value (bs : bytes) : Z :=
  fold_left (fun acc x => 256 * acc + byte_to_Z x) bs 0.

Definition bytes_eqb (a b : bytes) : bool := bool_decide (a = b).

(** The chunks of a stream: length, type, data, CRC, until the stream
    ends.  A length above [2^31 - 1], a short chunk or a wrong CRC
    makes the stream invalid. *)
Fixpoint parse_chunks (fuel : nat) (s : bytes) : option (list chunk) :=
  match fuel with
  | O => None
  | S fuel' =>
      match s with
      | [] => Some []
      | l3 :: l2 :: l1 :: l0 :: t3 :: t2 :: t1 :: t0 :: rest =>
          let len := be_value [l3; l2; l1; l0] in
          let ty := [t3; t2; t1; t0] in
          if (2 ^ 31 - 1 <? len) || (Z.of_nat (length rest) <? len + 4) then None
          else
            let data := take (Z.to_nat len) rest in
            let crc := take 4 (drop (Z.to_nat len) rest) in
            if be_value crc =? crc32_bitwise (ty ++ data) then
              cs ← parse_chunks fuel' (drop (Z.to_nat len + 4) rest);
              Some (Chunk ty data :: cs)
            else None
      | _ => None
      end
  end.

Record header : Type := Header { hdr_width : Z; hdr_height : Z }.

(** The IHDR fields; only truecolour at bit depth 8 without interlace is
    decoded. *)
Definition parse_ihdr (d : bytes) : option header :=
  match d with
  | [w3; w2; w1; w0; h3; h2; h1; h0; depth; ctype; comp; filt; inter] =>
      let w := be_value [w3; w2; w1; w0] in
      let h := be_value [h3; h2; h1; h0] in
      if (1 <=? w) && (w <=? 2 ^ 31 - 1) && (1 <=? h) && (h <=? 2 ^ 31 - 1)
         && (byte_to_Z depth =? 8) && (byte_to_Z ctype =? 2)
         && (byte_to_Z comp =? 0) && (byte_to_Z filt =? 0)
         && (byte_to_Z inter =? 0)
      then Some (Header w h) else None
  | _ => None
  end.

Inductive phase : Type := BeforeIDAT | InIDAT | AfterIDAT.

Definition is_ancillary (ty : bytes) : bool :=
  match ty with
  | t :: _ => Z.testbit (byte_to_Z t) 5
  | [] => false
  end.

(** The colour key of a tRNS chunk of a truecolour image: three 16-bit
    samples. *)
Definition parse_trns (d : bytes) : option (Z * Z * Z) :=
  match d with
  | [r1; r0; g1; g0; b1; b0] =>
      Some (be_value [r1; r0], be_value [g1; g0], be_value [b1; b0])
  | _ => None
  end.

(** The chunks after IHDR: the IDAT chunks are consecutive and their data
    is concatenated, IEND is empty and last, PLTE and tRNS come before the
    first IDAT, other ancillary chunks are skipped, and an unknown
    critical chunk is an error. *)
Fixpoint scan_chunks (ph : phase) (key : option (Z * Z * Z)) (idat : bytes)
    (cs : list chunk) : option (bytes * option (Z * Z * Z)) :=
  match cs with
  | [] => None
  | Chunk ty d :: cs' =>
      if bytes_eqb ty (list_byte_of_string "IEND") then
        match ph, d, cs' with
        | BeforeIDAT, _, _ => None
        | _, [], [] => Some (idat, key)
        | _, _, _ => None
        end
      else if bytes_eqb ty (list_byte_of_string "IDAT") then
        match ph with
        | AfterIDAT => None
        | _ => scan_chunks InIDAT key (idat ++ d) cs'
        end
      else if bytes_eqb ty (list_byte_of_string "IHDR") then None
      else if bytes_eqb ty (list_byte_of_string "PLTE") then
        match ph with
        | BeforeIDAT => scan_chunks BeforeIDAT key idat cs'
        | _ => None
        end
      else if bytes_eqb ty (list_byte_of_string "tRNS") then
        match ph with
        | BeforeIDAT => k ← parse_trns d; scan_chunks BeforeIDAT (Some k) idat cs'
        | _ => None
        end
      else if is_ancillary ty then
        scan_chunks (match ph with InIDAT => AfterIDAT | _ => ph end) key idat cs'
      else None
  end.

Definition paeth (a b c : Z) : Z :=
  let p := a + b - c in
  let pa := Z.abs (p - a) in
  let pb := Z.abs (p - b) in
  let pc := Z.abs (p - c) in
  if (pa <=? pb) && (pa <=? pc) then a else if pb <=? pc then b else c.

Definition sample (l : bytes) (i : Z) : Z :=
  if i <? 0 then 0 else byte_to_Z (nth (Z.to_nat i) l x00).

(** Reconstruction of one scanline of three bytes per pixel from its
    filtered bytes [line], the reconstructed previous scanline [prior] and
    the part [recon] of this scanline reconstructed so far. *)
Fixpoint reconstruct (ft : Z) (prior line recon : bytes) : bytes :=
  match line with
  | [] => recon
  | x :: line' =>
      let i := Z.of_nat (length recon) in
      let a := sample recon (i - 3) in
      let b := sample prior i in
      let c := sample prior (i - 3) in
      let predictor :=
        if ft =? 0 then 0
        else if ft =? 1 then a
        else if ft =? 2 then b
        else if ft =? 3 then (a + b) / 2
        else paeth a b c in
      reconstruct ft prior line' (recon ++ [Z_to_byte (byte_to_Z x + predictor)])
  end.

(** [h] scanlines of [rowlen] bytes, each after its filter-type byte. *)
Fixpoint unfilter (rowlen h : nat) (prior raw : bytes) : option (list bytes) :=
  match h with
  | O => match raw with [] => Some [] | _ => None end
  | S h' =>
      match raw with
      | ft :: rest =>
          if (4 <? byte_to_Z ft) || (length rest <? rowlen)%nat then None
          else
            let row := reconstruct (byte_to_Z ft) prior (take rowlen rest) [] in
            rows ← unfilter rowlen h' row (drop rowlen rest);
            Some (row :: rows)
      | [] => None
      end
  end.

(** A decoded pixel: red, green, blue, alpha. *)
Definition rgba : Type := Z * Z * Z * Z.

Fixpoint pixels_of_row (key : option (Z * Z * Z)) (row : bytes) : list rgba :=
  match row with
  | r :: g :: b :: row' =>
      let px := (byte_to_Z r, byte_to_Z g, byte_to_Z b) in
      let alpha := if bool_decide (key = Some px) then 0 else 255 in
      (px, alpha) :: pixels_of_row key row'
  | _ => []
  end.

Record image : Type := Image {
  img_width : Z;
  img_height : Z;
  img_rows : list (list rgba)
}.

Definition decode `{Zlib} (s : bytes) : option image :=
  if negb (bytes_eqb (take 8 s) signature) then None
  else
    chunks ← parse_chunks (length s) (drop 8 s);
    match chunks with
    | Chunk ty d :: rest =>
        if negb (bytes_eqb ty (list_byte_of_string "IHDR")) then None
        else
          hdr ← parse_ihdr d;
          '(idat, key) ← scan_chunks BeforeIDAT None [] rest;
          raw ← zlib_decompress idat;
          let rowlen := Z.to_nat (3 * hdr_width hdr) in
          rows ← unfilter rowlen (Z.to_nat (hdr_height hdr)) (replicate rowlen x00) raw;
          Some (Image (hdr_width hdr) (hdr_height hdr) (map (pixels_of_row key) rows))
    | [] => None
    end.

End PngDecoder.

(** ** The output as the specification words it *)

(** The layout of a chunk as the specification words it: the length of
    the payload, the type, the payload, and the CRC-32 of type and
    payload. *)
Definition chunk_layout (chunk_type data : bytes) : bytes :=
  be_bytes 4 (Z.of_nat (length data)) ++ chunk_type ++ data
  ++ be_bytes 4 (crc32_bitwise (chunk_type ++ data)).

(** One pixel of a colour whose components are bytes. *)
Definition pixel (r g b : Z) : bytes := [Z_to_byte r; Z_to_byte g; Z_to_byte b].

(** A scanline as the specification words it: the filter-type byte 0 and
    [w] pixels. *)
Definition scanline (w : Z) (r g b : Z) : bytes :=
  x00 :: concat (replicate (Z.to_nat w) (pixel r g b)).

Definition scanlines (w h : Z) (r g b : Z) : bytes :=
  concat (replicate (Z.to_nat h) (scanline w r g b)).

(** The payload of IHDR: width, height, bit depth 8, colour type 2,
    compression 0, filter 0, interlace 0. *)
Definition ihdr_payload (w h : Z) : bytes :=
  be_bytes 4 w ++ be_bytes 4 h ++ [x08; x02; x00; x00; x00].

(** The stream as the specification words it: the signature and the
    three chunks. *)
Definition png_stream `{Zlib} (w h r g b : Z) : bytes :=
  signature
  ++ chunk_layout (list_byte_of_string "IHDR") (ihdr_payload w h)
  ++ chunk_layout (list_byte_of_string "IDAT") (zlib_compress (scanlines w h r g b))
  ++ chunk_layout (list_byte_of_string "IEND") [].

(** ** Notions used to state the properties of programs *)

(** Programs run one after the other; the first exception ends the run. *)
Fixpoint run_seq (ps : list (prog unit)) (w : world) : result unit * world :=
  match ps with
  | [] => (Ok tt, w)
  | p :: ps' =>
      match run p w with
      | (Ok _, w') => run_seq ps' w'
      | (Err e, w') => (Err e, w')
      end
  end.

(** The nodes a program asks to write as files, when run in the working
    directory [c]. *)
Fixpoint writes {A : Type} (p : prog A) (c : string) : list (list string) :=
  match p with
  | Return _ | Raise _ => []
  | GetCwd k => writes (k c) c
  | MakeDirs _ _ k => writes k c
  | WriteFile path _ k => locate c path :: writes k c
  | Print _ k => writes k c
  end.

(** Every [os.makedirs] of the program passes [exist_ok=True]. *)
Fixpoint exist_ok_everywhere {A : Type} (p : prog A) : Prop :=
  match p with
  | Return _ | Raise _ => True
  | GetCwd k => forall c, exist_ok_everywhere (k c)
  | MakeDirs _ exist_ok k => exist_ok = true /\ exist_ok_everywhere k
  | WriteFile _ _ k => exist_ok_everywhere k
  | Print _ k => exist_ok_everywhere k
  end.

(** The program makes no request to the file system. *)
Fixpoint no_fs_request {A : Type} (p : prog A) : Prop :=
  match p with
  | Return _ | Raise _ => True
  | GetCwd k => forall c, no_fs_request (k c)
  | MakeDirs _ _ _ | WriteFile _ _ _ => False
  | Print _ k => no_fs_request k
  end.

(** Two entries of the file system are of the same kind: both absent,
    both directories, or both regular files. *)
Definition same_kind (a b : option node) : Prop :=
  match a, b with
  | None, None => True
  | Some Dir, Some Dir => True
  | Some (File _), Some (File _) => True
  | _, _ => False
  end.

(** The value of [os.path.abspath(file)] in the working directory [c]. *)
Definition script_abspath (c file : string) : string :=
  if isabs file then normpath file else normpath (join c file).

(** A colour whose three components are integers in [0, 255]. *)
Definition valid_component (o : pyobj) : bool :=
  match o with
  | PyInt n => (0 <=? n) && (n <=? 255)
  | PyNonInt => false
  end.

Definition valid_color (c : color) : bool :=
  let '(r, g, b) := c in
  valid_component r && valid_component g && valid_component b.

(** A path component: a string without a separator. *)
Fixpoint has_sep (p : string) : bool :=
  match p with
  | EmptyString => false
  | String c p' => is_sep c || has_sep p'
  end.

(** The requests of [main], one after the other. *)
Definition main_sequence `{Zlib} (root : string) : list (prog unit) :=
  [ print "Generating launcher icons...";
    create_png 48 48 (PyInt 0, PyInt 150, PyInt 136)
      (join root "android/app/src/main/res/mipmap-mdpi/ic_launcher.png");
    print "  Created android/app/src/main/res/mipmap-mdpi/ic_launcher.png (48x48)";
    create_png 72 72 (PyInt 0, PyInt 150, PyInt 136)
      (join root "android/app/src/main/res/mipmap-hdpi/ic_launcher.png");
    print "  Created android/app/src/main/res/mipmap-hdpi/ic_launcher.png (72x72)";
    create_png 96 96 (PyInt 0, PyInt 150, PyInt 136)
      (join root "android/app/src/main/res/mipmap-xhdpi/ic_launcher.png");
    print "  Created android/app/src/main/res/mipmap-xhdpi/ic_launcher.png (96x96)";
    create_png 144 144 (PyInt 0, PyInt 150, PyInt 136)
      (join root "android/app/src/main/res/mipmap-xxhdpi/ic_launcher.png");
    print "  Created android/app/src/main/res/mipmap-xxhdpi/ic_launcher.png (144x144)";
    create_png 192 192 (PyInt 0, PyInt 150, PyInt 136)
      (join root "android/app/src/main/res/mipmap-xxxhdpi/ic_launcher.png");
    print "  Created android/app/src/main/res/mipmap-xxxhdpi/ic_launcher.png (192x192)";
    print (newline +:+ "All icons created successfully!");
    print (newline +:+ "Note: These are placeholder icons (solid teal squares).");
    print "For a production app, replace them with proper designed icons." ].

(** The world of the examples: an empty file system, the working
    directory at the root. *)
Definition empty_world : world := World "/" ∅ [].

(** ** Paths, output and file-system states of a run *)

(** A plain component: not empty, not ["."], not [".."], no separator. *)
Definition plain_component (f : string) : Prop :=
  has_sep f = false /\ f <> "" /\ f <> "." /\ f <> "..".

(** [p] followed by the components [comps], one directory level each. *)
Fixpoint path_below (p : string) (comps : list string) : string :=
  match comps with
  | [] => p
  | c :: comps' => path_below (p +:+ "/" +:+ c) comps'
  end.

(** The components from the project root to the resource directory. *)
Definition res_components : list string := ["android"; "app"; "src"; "main"; "res"].


(** From [w] to [w'] the working directory is the same, no directory has
    gone, and away from the nodes [T] every entry is still there and no
    regular file has appeared or changed. *)
Definition keeps_others (T : list (list string)) (w w' : world) : Prop :=
  cwd w' = cwd w
  /\ (forall k, nodes w !! k = Some Dir -> nodes w' !! k = Some Dir)
  /\ (forall k, k ∉ T ->
        (forall v, nodes w !! k = Some v -> nodes w' !! k = Some v)
        /\ (forall d, nodes w' !! k = Some (File d) -> nodes w !! k = Some (File d))).

(** The program raises nothing of its own: an exception can only come
    from a request to the operating system that fails. *)
Fixpoint never_raises {A : Type} (p : prog A) : Prop :=
  match p with
  | Return _ => True
  | Raise _ => False
  | GetCwd k => forall c, never_raises (k c)
  | MakeDirs _ _ k => never_raises k
  | WriteFile _ _ k => never_raises k
  | Print _ k => never_raises k
  end.

(** ** The exception of a colour

    What [bytes([r, g, b])] raises, component by component: [TypeError]
    for an object that is not an integer, [ValueError] for an integer
    outside [0, 255], nothing for an integer inside. *)
Definition component_error (o : pyobj) : option exn :=
  match o with
  | PyInt n => if (0 <=? n) && (n <=? 255) then None else Some ValueError
  | PyNonInt => Some TypeError
  end.

(** The exception of the first offending component, in the order r, g, b. *)
Definition color_error (c : color) : option exn :=
  let '(r, g, b) := c in
  match component_error r with
  | Some e => Some e
  | None =>
      match component_error g with
      | Some e => Some e
      | None => component_error b
      end
  end.

(** * Proofs *)

(** ** The model on known values *)

Example crc32_check_value :
  crc32 (list_byte_of_string "123456789") = 0xCBF43926.
Proof. vm_compute. reflexivity. Qed.

Example normpath_examples :
  normpath "/home/dev/../dev//app/./scripts/gen.py" = "/home/dev/app/scripts/gen.py"
  /\ normpath "//a/b/" = "//a/b" /\ normpath "///a/../.." = "/"
  /\ normpath "a/../.." = ".." /\ normpath "./" = ".".
Proof. vm_compute. repeat split; reflexivity. Qed.

Example dirname_examples :
  dirname "/home/dev/app/scripts/gen.py" = "/home/dev/app/scripts"
  /\ dirname "/gen.py" = "/" /\ dirname "icon.png" = ""
  /\ dirname "a//b" = "a" /\ dirname "//b" = "//" /\ dirname "a/b/" = "a/b".
Proof. vm_compute. repeat split; reflexivity. Qed.

Example join_examples :
  join "/root" "a/b.png" = "/root/a/b.png" /\ join "/" "a" = "/a"
  /\ join "" "a" = "a" /\ join "x" "/a" = "/a".
Proof. vm_compute. repeat split; reflexivity. Qed.


(** ** Bytes and big-endian integers *)

Lemma byte_to_Z_range (b : byte) : 0 <= byte_to_Z b <= 255.
Proof.
  unfold byte_to_Z. pose proof (Byte.to_N_bounded b). lia.
Qed.

Lemma land_255_mod (z : Z) : Z.land z 255 = z mod 256.
Proof. change 255 with (Z.ones 8). rewrite Z.land_ones by lia. reflexivity. Qed.

Lemma land_255_range (z : Z) : 0 <= Z.land z 255 <= 255.
Proof. rewrite land_255_mod. pose proof (Z.mod_pos_bound z 256). lia. Qed.

Lemma Z_to_byte_to_Z (z : Z) : byte_to_Z (Z_to_byte z) = Z.land z 255.
Proof.
  unfold Z_to_byte, byte_to_Z.
  pose proof (land_255_range z) as Hr.
  destruct (Byte.of_N (Z.to_N (Z.land z 255))) as [b|] eqn:E; simpl.
  - apply Byte.to_of_N in E. rewrite E. lia.
  - apply Byte.of_N_None_iff in E. lia.
Qed.

Lemma byte_to_Z_inj (a b : byte) : byte_to_Z a = byte_to_Z b -> a = b.
Proof.
  unfold byte_to_Z. intros E. apply N2Z.inj in E.
  pose proof (Byte.of_to_N a) as Ha. rewrite E, Byte.of_to_N in Ha. congruence.
Qed.

Lemma land_255_small (z : Z) : 0 <= z <= 255 -> Z.land z 255 = z.
Proof.
  intros Hz. rewrite land_255_mod. apply Z.mod_small. lia.
Qed.

Lemma byte_to_Z_to_byte (b : byte) : Z_to_byte (byte_to_Z b) = b.
Proof.
  apply byte_to_Z_inj. rewrite Z_to_byte_to_Z.
  apply land_255_small, byte_to_Z_range.
Qed.

Import PngDecoder.

Lemma be_value_fold (l : bytes) (acc : Z) :
  fold_left (fun a x => 256 * a + byte_to_Z x) l acc
  = acc * 256 ^ Z.of_nat (length l) + be_value l.
Proof.
  unfold be_value. revert acc. induction l as [|x l IH]; intros acc; simpl fold_left.
  - simpl. lia.
  - rewrite IH, (IH (256 * 0 + byte_to_Z x)).
    rewrite length_cons, Nat2Z.inj_succ, Z.pow_succ_r by lia. lia.
Qed.

Lemma be_value_cons (x : byte) (l : bytes) :
  be_value (x :: l) = byte_to_Z x * 256 ^ Z.of_nat (length l) + be_value l.
Proof.
  unfold be_value at 1. simpl fold_left. rewrite be_value_fold. lia.
Qed.

Lemma length_be_bytes n v : length (be_bytes n v) = n.
Proof. induction n; simpl; congruence. Qed.

Lemma be_value_be_bytes (n : nat) (v : Z) :
  0 <= v -> be_value (be_bytes n v) = v mod 2 ^ (8 * Z.of_nat n).
Proof.
  intros Hv. induction n as [|k IH].
  - simpl. rewrite Z.mod_1_r. reflexivity.
  - cbn [be_bytes]. rewrite be_value_cons, length_be_bytes, IH, Z_to_byte_to_Z.
    rewrite land_255_mod, Z.shiftr_div_pow2 by lia. change 256 with (2 ^ 8) at 1.
    replace (8 * Z.of_nat (S k)) with (8 * Z.of_nat k + 8) by lia.
    rewrite Z.pow_add_r by lia.
    rewrite (Z.rem_mul_r v (2 ^ (8 * Z.of_nat k)) (2 ^ 8)) by lia.
    replace (256 ^ Z.of_nat k) with (2 ^ (8 * Z.of_nat k)).
    + lia.
    + rewrite Z.pow_mul_r by lia. reflexivity.
Qed.

Lemma pack_uint_ok (n : nat) (v : Z) :
  0 <= v < 2 ^ (8 * Z.of_nat n) -> pack_uint n v = Ok (be_bytes n v).
Proof.
  intros Hv. unfold pack_uint.
  destruct (0 <=? v) eqn:E1; [|lia]. destruct (v <? 2 ^ (8 * Z.of_nat n)) eqn:E2; [|lia].
  reflexivity.
Qed.

Lemma pack_uint_err (n : nat) (v : Z) :
  v < 0 \/ 2 ^ (8 * Z.of_nat n) <= v -> pack_uint n v = Err StructError.
Proof.
  intros Hv. unfold pack_uint.
  destruct (0 <=? v) eqn:E1; [|reflexivity].
  destruct (v <? 2 ^ (8 * Z.of_nat n)) eqn:E2; [lia|reflexivity].
Qed.

(** ** The CRC *)

Lemma lxor_range (n a b : Z) :
  0 <= n -> 0 <= a < 2 ^ n -> 0 <= b < 2 ^ n -> 0 <= Z.lxor a b < 2 ^ n.
Proof.
  intros Hn Ha Hb. split.
  - apply Z.lxor_nonneg. lia.
  - destruct (Z.eq_dec (Z.lxor a b) 0) as [->|Hne]; [lia|].
    assert (0 <= Z.lxor a b) as Hnn by (apply Z.lxor_nonneg; lia).
    assert (0 < n) as Hpos.
    { destruct (Z.eq_dec n 0) as [->|]; [|lia].
      exfalso. apply Hne. replace a with 0 by lia. replace b with 0 by lia. reflexivity. }
    apply Z.log2_lt_pow2; [lia|].
    eapply Z.le_lt_trans; [apply Z.log2_lxor; lia|].
    apply Z.max_lub_lt.
    + destruct (Z.eq_dec a 0) as [->|]; [simpl; lia|]. apply Z.log2_lt_pow2; lia.
    + destruct (Z.eq_dec b 0) as [->|]; [simpl; lia|]. apply Z.log2_lt_pow2; lia.
Qed.

Lemma shiftr_range (n k a : Z) :
  0 <= k -> 0 <= a < 2 ^ n -> 0 <= Z.shiftr a k < 2 ^ n.
Proof.
  intros Hk Ha. rewrite Z.shiftr_div_pow2 by lia.
  assert (0 < 2 ^ k) by (apply Z.pow_pos_nonneg; lia).
  split.
  - apply Z.div_pos; lia.
  - apply Z.le_lt_trans with a; [|lia]. apply Z.div_le_upper_bound; nia.
Qed.

Lemma crc_shift_range (c : Z) : 0 <= c < 2 ^ 32 -> 0 <= crc_shift c < 2 ^ 32.
Proof.
  intros Hc. unfold crc_shift.
  pose proof (shiftr_range 32 1 c ltac:(lia) Hc).
  destruct (Z.odd c); [|assumption].
  apply lxor_range; [lia|assumption|unfold crc_poly; lia].
Qed.

Lemma iter_crc_shift_range (k : nat) (c : Z) :
  0 <= c < 2 ^ 32 -> 0 <= Nat.iter k crc_shift c < 2 ^ 32.
Proof. intros Hc. induction k; simpl; [assumption|]. apply crc_shift_range, IHk. Qed.

Lemma crc32_bitwise_update_range (c : Z) (x : byte) :
  0 <= c < 2 ^ 32 -> 0 <= crc32_bitwise_update c x < 2 ^ 32.
Proof.
  intros Hc. apply iter_crc_shift_range, lxor_range; [lia|assumption|].
  pose proof (byte_to_Z_range x). lia.
Qed.

Lemma crc32_bitwise_range (data : bytes) : 0 <= crc32_bitwise data < 2 ^ 32.
Proof.
  unfold crc32_bitwise.
  assert (forall c, 0 <= c < 2 ^ 32 ->
            0 <= fold_left crc32_bitwise_update data c < 2 ^ 32) as Hfold.
  { induction data as [|x data IH]; intros c Hc; simpl; [assumption|].
    apply IH, crc32_bitwise_update_range, Hc. }
  apply lxor_range; [lia|apply Hfold; lia|lia].
Qed.

(** Equations between exclusive ors, bit by bit. *)
Ltac lxor_bits :=
  apply Z.bits_inj'; intros ? ?; rewrite ?Z.lxor_spec, ?Z.bits_0;
  repeat match goal with
         | |- context [Z.testbit ?x ?n] => destruct (Z.testbit x n)
         end; reflexivity.

(** The shift is linear over exclusive or. *)
Lemma crc_shift_lxor (a b : Z) :
  crc_shift (Z.lxor a b) = Z.lxor (crc_shift a) (crc_shift b).
Proof.
  unfold crc_shift. rewrite Z.shiftr_lxor.
  rewrite <- !Z.bit0_odd, Z.lxor_spec.
  generalize (Z.shiftr a 1) (Z.shiftr b 1) crc_poly. intros a' b' p.
  destruct (Z.testbit a 0), (Z.testbit b 0); simpl; lxor_bits.
Qed.

Lemma iter_crc_shift_lxor (k : nat) (a b : Z) :
  Nat.iter k crc_shift (Z.lxor a b)
  = Z.lxor (Nat.iter k crc_shift a) (Nat.iter k crc_shift b).
Proof. induction k; simpl; [reflexivity|]. rewrite IHk. apply crc_shift_lxor. Qed.

(** Shifting out [k] zero bits leaves the rest. *)
Lemma iter_crc_shift_shiftl (k : nat) (h : Z) :
  Nat.iter k crc_shift (Z.shiftl h (Z.of_nat k)) = h.
Proof.
  revert h. induction k as [|k IH]; intros h.
  - simpl. apply Z.shiftl_0_r.
  - rewrite Nat.iter_succ_r.
    replace (crc_shift (Z.shiftl h (Z.of_nat (S k)))) with (Z.shiftl h (Z.of_nat k)); [apply IH|].
    unfold crc_shift.
    rewrite <- Z.bit0_odd, Z.shiftl_spec_low by lia.
    rewrite Z.shiftr_shiftl_l by lia. f_equal. lia.
Qed.

Lemma split_low_byte (v : Z) :
  v = Z.lxor (Z.land v 255) (Z.shiftl (Z.shiftr v 8) 8).
Proof.
  apply Z.bits_inj'. intros n Hn.
  rewrite Z.lxor_spec, Z.land_spec. change 255 with (Z.ones 8).
  destruct (Z.lt_ge_cases n 8).
  - rewrite Z.ones_spec_low, Z.shiftl_spec_low by lia.
    destruct (Z.testbit v n); reflexivity.
  - rewrite Z.ones_spec_high, Z.shiftl_spec, Z.shiftr_spec by lia.
    replace (n - 8 + 8) with n by lia.
    destruct (Z.testbit v n); reflexivity.
Qed.

Lemma crc_table_spec (i : Z) :
  0 <= i <= 255 -> nth (Z.to_nat i) crc_table 0 = Nat.iter 8 crc_shift i.
Proof.
  intros Hi.
  assert (crc_table = map (fun n => Nat.iter 8 crc_shift (Z.of_nat n)) (seq 0 256)) as ->
    by (vm_compute; reflexivity).
  set (f := fun n => Nat.iter 8 crc_shift (Z.of_nat n)).
  rewrite (nth_indep _ 0 (f O)).
  - rewrite (map_nth f), seq_nth by lia. unfold f. f_equal. lia.
  - rewrite length_map, length_seq. lia.
Qed.

(** zlib's table-driven update is the bit-by-bit one. *)
Lemma crc32_update_bitwise (c : Z) (x : byte) :
  crc32_update c x = crc32_bitwise_update c x.
Proof.
  unfold crc32_update, crc32_bitwise_update.
  set (v := Z.lxor c (byte_to_Z x)).
  rewrite crc_table_spec by apply land_255_range.
  replace (Z.shiftr c 8) with (Z.shiftr v 8).
  - rewrite (split_low_byte v) at 3.
    rewrite iter_crc_shift_lxor. f_equal.
    symmetry. apply (iter_crc_shift_shiftl 8).
  - unfold v. rewrite Z.shiftr_lxor.
    replace (Z.shiftr (byte_to_Z x) 8) with 0; [apply Z.lxor_0_r|].
    symmetry. apply Z.shiftr_eq_0; [apply byte_to_Z_range|].
    pose proof (byte_to_Z_range x).
    destruct (Z.eq_dec (byte_to_Z x) 0) as [->|]; [simpl; lia|].
    apply Z.log2_lt_pow2; lia.
Qed.

Lemma crc32_eq_bitwise (data : bytes) : crc32 data = crc32_bitwise data.
Proof.
  unfold crc32, crc32_bitwise. f_equal.
  generalize 0xffffffff. induction data as [|x data IH]; intros c; simpl; [reflexivity|].
  rewrite crc32_update_bitwise. apply IH.
Qed.

Lemma crc32_range (data : bytes) : 0 <= crc32 data < 2 ^ 32.
Proof. rewrite crc32_eq_bitwise. apply crc32_bitwise_range. Qed.

Lemma crc32_masked (data : bytes) : Z.land (crc32 data) 0xffffffff = crc32 data.
Proof.
  change 0xffffffff with (Z.ones 32). rewrite Z.land_ones by lia.
  apply Z.mod_small, crc32_range.
Qed.

(** ** Chunks *)

Lemma struct_pack_I (v : Z) :
  struct_pack ">I" [v] = (b ← pack_uint 4 v; Ok b).
Proof.
  cbn. destruct (pack_uint 4 v); cbn; [rewrite app_nil_r|]; reflexivity.
Qed.

Lemma png_chunk_ok (chunk_type data : bytes) :
  Z.of_nat (length data) < 2 ^ 32 ->
  png_chunk chunk_type data = Ok (chunk_layout chunk_type data).
Proof.
  intros Hlen. unfold png_chunk, chunk_layout.
  rewrite !struct_pack_I, crc32_masked, crc32_eq_bitwise.
  rewrite !pack_uint_ok; [reflexivity| |].
  - change (2 ^ (8 * Z.of_nat 4)) with (2 ^ 32). lia.
  - apply crc32_bitwise_range.
Qed.

Lemma png_chunk_err (chunk_type data : bytes) :
  2 ^ 32 <= Z.of_nat (length data) ->
  png_chunk chunk_type data = Err StructError.
Proof.
  intros Hlen. unfold png_chunk.
  rewrite (struct_pack_I (Z.of_nat (length data))), (pack_uint_err 4 (Z.of_nat (length data)));
    [reflexivity|].
  right. change (2 ^ (8 * Z.of_nat 4)) with (2 ^ 32). lia.
Qed.

Lemma be_value_be_bytes_4 (v : Z) : 0 <= v < 2 ^ 32 -> be_value (be_bytes 4 v) = v.
Proof.
  intros Hv. rewrite be_value_be_bytes by lia.
  change (2 ^ (8 * Z.of_nat 4)) with (2 ^ 32). apply Z.mod_small. lia.
Qed.

(** ** Scanlines *)

Lemma repeat_body_append {A : Type} (n : nat) (body : list A -> result (list A))
    (t s : list A) :
  (forall s', body s' = Ok (s' ++ t)) ->
  repeat_body n body s = Ok (s ++ concat (replicate n t)).
Proof.
  intros Hbody. revert s. induction n as [|n IH]; intros s; simpl.
  - rewrite app_nil_r. reflexivity.
  - rewrite Hbody. cbn. rewrite IH, <- app_assoc. reflexivity.
Qed.

Lemma py_bytes_pixel (r g b : Z) :
  0 <= r <= 255 -> 0 <= g <= 255 -> 0 <= b <= 255 ->
  py_bytes [PyInt r; PyInt g; PyInt b] = Ok (pixel r g b).
Proof.
  intros Hr Hg Hb. unfold py_bytes, byte_of_pyobj.
  destruct (0 <=? r) eqn:?, (r <? 256) eqn:?; try lia.
  destruct (0 <=? g) eqn:?, (g <? 256) eqn:?; try lia.
  destruct (0 <=? b) eqn:?, (b <? 256) eqn:?; try lia.
  reflexivity.
Qed.

Lemma raw_scanlines_ok (w h r g b : Z) :
  0 <= r <= 255 -> 0 <= g <= 255 -> 0 <= b <= 255 ->
  raw_scanlines w h (PyInt r) (PyInt g) (PyInt b) = Ok (scanlines w h r g b).
Proof.
  intros Hr Hg Hb. unfold raw_scanlines, for_range, scanlines.
  rewrite (repeat_body_append _ _ (scanline w r g b)); [reflexivity|].
  intros s. rewrite (repeat_body_append _ _ (pixel r g b)).
  - unfold scanline. rewrite <- app_assoc. reflexivity.
  - intros s'. rewrite py_bytes_pixel by assumption. reflexivity.
Qed.

Lemma length_concat_replicate {A : Type} (n : nat) (l : list A) :
  length (concat (replicate n l)) = (n * length l)%nat.
Proof. induction n; simpl; [reflexivity|]. rewrite length_app, IHn. reflexivity. Qed.

Lemma length_scanline (w r g b : Z) :
  0 <= w -> Z.of_nat (length (scanline w r g b)) = 1 + 3 * w.
Proof.
  intros Hw. unfold scanline. cbn [length].
  rewrite length_concat_replicate. cbn [pixel length]. lia.
Qed.

Lemma length_scanlines (w h r g b : Z) :
  0 <= w -> 0 <= h -> Z.of_nat (length (scanlines w h r g b)) = h * (1 + 3 * w).
Proof.
  intros Hw Hh. unfold scanlines. rewrite length_concat_replicate.
  rewrite Nat2Z.inj_mul, length_scanline by assumption. lia.
Qed.

Lemma map_concat_replicate {A B : Type} (f : A -> B) (n : nat) (l : list A) :
  map f (concat (replicate n l)) = concat (replicate n (map f l)).
Proof. induction n; simpl; [reflexivity|]. rewrite map_app, IHn. reflexivity. Qed.

Lemma scanlines_values (w h r g b : Z) :
  0 <= r <= 255 -> 0 <= g <= 255 -> 0 <= b <= 255 ->
  map byte_to_Z (scanlines w h r g b)
  = concat (replicate (Z.to_nat h) (0 :: concat (replicate (Z.to_nat w) [r; g; b]))).
Proof.
  intros Hr Hg Hb. unfold scanlines, scanline.
  rewrite map_concat_replicate. cbn [map]. rewrite map_concat_replicate.
  cbn [pixel map]. rewrite !Z_to_byte_to_Z, !land_255_small by assumption.
  reflexivity.
Qed.

(** ** The header *)

Lemma ihdr_data_ok (w h : Z) :
  0 <= w < 2 ^ 32 -> 0 <= h < 2 ^ 32 -> ihdr_data w h = Ok (ihdr_payload w h).
Proof.
  intros Hw Hh. unfold ihdr_data, struct_pack, ihdr_payload. cbn [list_ascii_of_string pack_fields Ascii.eqb Bool.eqb].
  rewrite !pack_uint_ok by (try change (2 ^ (8 * Z.of_nat 4)) with (2 ^ 32); try change (2 ^ (8 * Z.of_nat 1)) with 256; lia).
  reflexivity.
Qed.

Lemma ihdr_data_err (w h : Z) :
  w < 0 \/ 2 ^ 32 <= w \/ h < 0 \/ 2 ^ 32 <= h -> ihdr_data w h = Err StructError.
Proof.
  intros Hwh. unfold ihdr_data, struct_pack. cbn [list_ascii_of_string pack_fields Ascii.eqb Bool.eqb].
  destruct (Z_lt_ge_dec w 0); [rewrite (pack_uint_err 4 w); [reflexivity|lia]|].
  destruct (Z_lt_ge_dec w (2 ^ 32)).
  2:{ rewrite (pack_uint_err 4 w); [reflexivity|]. right. change (2 ^ (8 * Z.of_nat 4)) with (2 ^ 32). lia. }
  rewrite (pack_uint_ok 4 w) by (change (2 ^ (8 * Z.of_nat 4)) with (2 ^ 32); lia).
  cbn. rewrite (pack_uint_err 4 h); [reflexivity|].
  change (2 ^ (8 * Z.of_nat 4)) with (2 ^ 32). lia.
Qed.

(** ** The encoder as a whole *)

Section Encoder.
Context `{Zlib}.

Lemma length_ihdr_payload (w h : Z) : length (ihdr_payload w h) = 13%nat.
Proof. unfold ihdr_payload. rewrite !length_app, !length_be_bytes. reflexivity. Qed.

Lemma ok_bind {A B : Type} (a : A) (k : A -> result B) : (Ok a ≫= k) = k a.
Proof. reflexivity. Qed.

Lemma png_bytes_ok (w h r g b : Z) :
  0 <= w < 2 ^ 32 -> 0 <= h < 2 ^ 32 ->
  0 <= r <= 255 -> 0 <= g <= 255 -> 0 <= b <= 255 ->
  Z.of_nat (length (zlib_compress (scanlines w h r g b))) < 2 ^ 32 ->
  png_bytes w h (PyInt r, PyInt g, PyInt b) = Ok (png_stream w h r g b).
Proof.
  intros Hw Hh Hr Hg Hb Hz. unfold png_bytes, png_stream.
  rewrite ihdr_data_ok, ok_bind by assumption.
  rewrite (png_chunk_ok _ (ihdr_payload w h)), ok_bind by (rewrite length_ihdr_payload; lia).
  rewrite raw_scanlines_ok, ok_bind by assumption.
  rewrite (png_chunk_ok _ (zlib_compress _)), ok_bind by assumption.
  rewrite (png_chunk_ok _ []), ok_bind by (change (length (@nil byte)) with O; lia).
  reflexivity.
Qed.


(** [create_png] computes the stream and only then turns to the file
    system. *)
Lemma create_png_eq (width height : Z) (rgb_color : color) (filepath : string) :
  create_png width height rgb_color filepath
  = match png_bytes width height rgb_color with
    | Ok data => MakeDirs (dirname filepath) true (WriteFile filepath data (Return tt))
    | Err e => Raise e
    end.
Proof.
  unfold create_png, png_bytes, ihdr_data. destruct rgb_color as [[r g] b].
  destruct (struct_pack ">IIBBBBB" _) as [d|e]; [|reflexivity]. cbn [lift mbind prog_bind pbind result_bind rbind].
  destruct (png_chunk _ d) as [c1|e]; [|reflexivity]. cbn [lift mbind prog_bind pbind result_bind rbind].
  destruct (raw_scanlines _ _ _ _ _) as [raw|e]; [|reflexivity]. cbn [lift mbind prog_bind pbind result_bind rbind].
  destruct (png_chunk _ (zlib_compress raw)) as [c2|e]; [|reflexivity]. cbn [lift mbind prog_bind pbind result_bind rbind].
  destruct (png_chunk _ []) as [c3|e]; reflexivity.
Qed.

End Encoder.

(** ** Decoding what the encoder writes *)

Lemma be_bytes_4 (v : Z) :
  be_bytes 4 v
  = [Z_to_byte (Z.shiftr v 24); Z_to_byte (Z.shiftr v 16);
     Z_to_byte (Z.shiftr v 8); Z_to_byte (Z.shiftr v 0)].
Proof. reflexivity. Qed.

Lemma some_bind {A B : Type} (a : A) (k : A -> option B) : (Some a ≫= k) = k a.
Proof. reflexivity. Qed.

(** A chunk laid out by the encoder is read back as it is, its CRC
    accepted. *)
Lemma parse_chunks_layout (fuel : nat) (t3 t2 t1 t0 : byte) (d rest : bytes) :
  Z.of_nat (length d) <= 2 ^ 31 - 1 ->
  parse_chunks (S fuel) (chunk_layout [t3; t2; t1; t0] d ++ rest)
  = (cs ← parse_chunks fuel rest; Some (Chunk [t3; t2; t1; t0] d :: cs)).
Proof.
  intros Hlen. unfold chunk_layout.
  change ([t3; t2; t1; t0] ++ d) with (t3 :: t2 :: t1 :: t0 :: d).
  pose proof (be_value_be_bytes_4 _ (crc32_bitwise_range (t3 :: t2 :: t1 :: t0 :: d))) as Hcrc.
  pose proof (length_be_bytes 4 (crc32_bitwise (t3 :: t2 :: t1 :: t0 :: d))) as Hlc.
  set (crc := be_bytes 4 (crc32_bitwise (t3 :: t2 :: t1 :: t0 :: d))) in *.
  clearbody crc.
  rewrite (be_bytes_4 (Z.of_nat (length d))).
  cbn [app parse_chunks].
  rewrite <- (be_bytes_4 (Z.of_nat (length d))).
  rewrite be_value_be_bytes_4 by lia.
  rewrite Nat2Z.id, <- !app_assoc.
  rewrite take_app_length, drop_app_length, (take_app_length' crc rest 4 (eq_sym Hlc)), Hcrc, Z.eqb_refl.
  rewrite drop_app_add, (drop_app_length' crc rest 4 (eq_sym Hlc)).
  rewrite !length_app, Hlc.
  rewrite (proj2 (Z.ltb_ge _ _)) by lia.
  rewrite (proj2 (Z.ltb_ge _ _)) by lia.
  reflexivity.
Qed.

Lemma parse_ihdr_payload (w h : Z) :
  1 <= w <= 2 ^ 31 - 1 -> 1 <= h <= 2 ^ 31 - 1 ->
  parse_ihdr (ihdr_payload w h) = Some (Header w h).
Proof.
  intros Hw Hh. unfold ihdr_payload. rewrite !be_bytes_4. cbn [app parse_ihdr].
  rewrite <- !be_bytes_4, !be_value_be_bytes_4 by lia.
  destruct (1 <=? w) eqn:?, (w <=? 2 ^ 31 - 1) eqn:?; try lia.
  destruct (1 <=? h) eqn:?, (h <=? 2 ^ 31 - 1) eqn:?; try lia.
  reflexivity.
Qed.

Lemma reconstruct_none (prior line recon : bytes) :
  reconstruct 0 prior line recon = recon ++ line.
Proof.
  revert recon. induction line as [|x line IH]; intros recon; cbn [reconstruct].
  - rewrite app_nil_r. reflexivity.
  - rewrite IH. change (0 =? 0) with true. cbv iota.
    rewrite Z.add_0_r, byte_to_Z_to_byte, <- app_assoc. reflexivity.
Qed.

Lemma length_pixels (n : nat) (r g b : Z) :
  length (concat (replicate n (pixel r g b))) = (3 * n)%nat.
Proof. rewrite length_concat_replicate. cbn [pixel length]. lia. Qed.

Lemma unfilter_scanlines (w h r g b : Z) (prior : bytes) :
  0 <= w ->
  unfilter (Z.to_nat (3 * w)) (Z.to_nat h) prior (scanlines w h r g b)
  = Some (replicate (Z.to_nat h) (concat (replicate (Z.to_nat w) (pixel r g b)))).
Proof.
  intros Hw. unfold scanlines, scanline.
  set (row := concat (replicate (Z.to_nat w) (pixel r g b))).
  assert (length row = Z.to_nat (3 * w)) as Hrow
    by (unfold row; rewrite length_pixels; lia).
  rewrite <- Hrow. clearbody row. clear Hrow.
  revert prior. induction (Z.to_nat h) as [|n IH]; intros prior.
  - reflexivity.
  - cbn [replicate concat app unfilter].
    change (byte_to_Z x00) with 0. change (4 <? 0) with false. cbn [orb].
    rewrite length_app.
    destruct (length row + length (concat (replicate n (x00 :: row))) <? length row)%nat eqn:E;
      [apply Nat.ltb_lt in E; lia|].
    rewrite take_app_length, drop_app_length, reconstruct_none, IH.
    reflexivity.
Qed.

Lemma pixels_of_row_solid (n : nat) (r g b : Z) :
  0 <= r <= 255 -> 0 <= g <= 255 -> 0 <= b <= 255 ->
  pixels_of_row None (concat (replicate n (pixel r g b)))
  = replicate n (r, g, b, 255).
Proof.
  intros Hr Hg Hb. induction n as [|n IH]; [reflexivity|].
  cbn [replicate concat pixel app pixels_of_row].
  rewrite !Z_to_byte_to_Z, !land_255_small by assumption.
  rewrite bool_decide_eq_false_2 by discriminate.
  f_equal. apply IH.
Qed.

Lemma map_replicate {A B : Type} (f : A -> B) (n : nat) (x : A) :
  map f (replicate n x) = replicate n (f x).
Proof. induction n; simpl; congruence. Qed.

Section Decode.
Context `{Zlib}.

(** The image a decoder obtains from the encoder's stream. *)
Lemma decode_png_stream (w h r g b : Z) :
  1 <= w <= 2 ^ 31 - 1 -> 1 <= h <= 2 ^ 31 - 1 ->
  0 <= r <= 255 -> 0 <= g <= 255 -> 0 <= b <= 255 ->
  Z.of_nat (length (zlib_compress (scanlines w h r g b))) <= 2 ^ 31 - 1 ->
  decode (png_stream w h r g b)
  = Some (Image w h (replicate (Z.to_nat h) (replicate (Z.to_nat w) (r, g, b, 255)))).
Proof.
  intros Hw Hh Hr Hg Hb Hz. unfold decode, png_stream.
  change (take 8 (signature ++ ?x)) with signature.
  change (drop 8 (signature ++ ?x)) with x.
  unfold bytes_eqb at 1. rewrite bool_decide_eq_true_2 by reflexivity. cbn [negb].
  set (s := signature ++ _).
  assert (exists fuel, length s = S (S (S (S fuel)))) as [fuel ->].
  { unfold s, chunk_layout. rewrite !length_app, !length_be_bytes. cbn [signature length].
    eexists. rewrite !Nat.add_succ_l. reflexivity. }
  clear s.
  change (list_byte_of_string "IHDR") with [x49; x48; x44; x52].
  change (list_byte_of_string "IDAT") with [x49; x44; x41; x54].
  change (list_byte_of_string "IEND") with [x49; x45; x4e; x44].
  rewrite parse_chunks_layout by (rewrite length_ihdr_payload; lia).
  rewrite parse_chunks_layout by assumption.
  rewrite <- (app_nil_r (chunk_layout [x49; x45; x4e; x44] [])).
  rewrite parse_chunks_layout by (change (length (@nil byte)) with O; lia).
  change (parse_chunks (S fuel) []) with (Some (@nil chunk)).
  rewrite !some_bind.
  unfold bytes_eqb at 1. rewrite bool_decide_eq_true_2 by reflexivity. cbn [negb].
  rewrite parse_ihdr_payload, some_bind by assumption.
  change (scan_chunks BeforeIDAT None [] [Chunk [x49; x44; x41; x54] ?z; Chunk [x49; x45; x4e; x44] []])
    with (Some (z, @None (Z * Z * Z))).
  rewrite some_bind, zlib_decompress_compress, some_bind.
  cbn [hdr_width hdr_height].
  rewrite unfilter_scanlines, some_bind by lia.
  rewrite map_replicate, pixels_of_row_solid by assumption.
  reflexivity.
Qed.

End Decode.

(** ** The stored-block zlib implementation meets the contract *)

Module ZlibStoredProofs.
Import ZlibStored.

Lemma le16_value (n : Z) :
  0 <= n < 65536 ->
  byte_to_Z (Z_to_byte n) + 256 * byte_to_Z (Z_to_byte (Z.shiftr n 8)) = n.
Proof.
  intros Hn. rewrite !Z_to_byte_to_Z, !land_255_mod, Z.shiftr_div_pow2 by lia.
  change (2 ^ 8) with 256.
  rewrite (Z.mod_small (n / 256) 256) by (split; [apply Z.div_pos; lia|apply Z.div_lt_upper_bound; lia]).
  pose proof (Z.div_mod n 256). lia.
Qed.

Lemma lxor_ffff_range (n : Z) : 0 <= n < 65536 -> 0 <= Z.lxor n 0xffff < 65536.
Proof. intros Hn. apply (lxor_range 16); lia. Qed.

Lemma inflate_stored_blocks (fuel : nat) :
  forall (data tail : bytes) (fuel' : nat),
    (length data < fuel)%nat -> (fuel <= fuel')%nat ->
    inflate_stored fuel' (stored_blocks fuel data ++ tail) = Some (data, tail).
Proof.
  induction fuel as [|fuel IH]; intros data tail fuel' Hlen Hfuel; [lia|].
  destruct fuel' as [|fuel']; [lia|].
  cbn [stored_blocks].
  set (n := Z.min (Z.of_nat (length data)) 65535).
  assert (0 <= n < 65536) as Hn by (unfold n; lia).
  assert (Z.to_nat n <= length data)%nat as Hnl by (unfold n; lia).
  pose proof (le16_value n Hn) as Hv.
  pose proof (le16_value _ (lxor_ffff_range n Hn)) as Hx.
  assert (length (take (Z.to_nat n) data) = Z.to_nat n) as Htl
    by (rewrite length_take; lia).
  destruct (drop (Z.to_nat n) data) as [|y rest] eqn:Hdrop.
  - (* the last block *)
    assert (take (Z.to_nat n) data = data) as Htake.
    { rewrite <- (take_drop (Z.to_nat n) data) at 2. rewrite Hdrop, app_nil_r. reflexivity. }
    unfold le16. cbn [app inflate_stored].
    rewrite Hv, Hx. change (byte_to_Z x01) with 1.
    change (Z.land (Z.shiftr 1 1) 3 =? 0) with true. rewrite Z.eqb_refl. cbn [negb].
    rewrite length_app, Htl.
    rewrite (proj2 (Z.ltb_ge _ _)) by lia.
    change (Z.odd 1) with true. cbv iota.
    rewrite (take_app_length' _ _ _ (eq_sym Htl)), (drop_app_length' _ _ _ (eq_sym Htl)), Htake.
    reflexivity.
  - (* a block that is followed by another *)
    assert (length (y :: rest) < fuel)%nat as Hrest.
    { rewrite <- Hdrop, length_drop.
      assert (0 < Z.to_nat n)%nat; [|lia].
      unfold n. destruct data; [discriminate Hdrop|]. cbn [length]. lia. }
    unfold le16. cbn [app inflate_stored].
    rewrite Hv, Hx. change (byte_to_Z x00) with 0.
    change (Z.land (Z.shiftr 0 1) 3 =? 0) with true. rewrite Z.eqb_refl. cbn [negb].
    rewrite <- app_assoc, length_app, Htl.
    rewrite (proj2 (Z.ltb_ge _ _)) by lia.
    change (Z.odd 0) with false. cbv iota.
    rewrite (take_app_length' _ _ _ (eq_sym Htl)), (drop_app_length' _ _ _ (eq_sym Htl)).
    rewrite (IH (y :: rest) tail fuel') by lia.
    cbn [mbind option_bind]. rewrite <- Hdrop, take_drop. reflexivity.
Qed.

Lemma length_stored_blocks (fuel : nat) :
  forall data : bytes,
    (length data < fuel)%nat -> (length data + 5 <= length (stored_blocks fuel data))%nat.
Proof.
  induction fuel as [|fuel IH]; intros data Hlen; [lia|].
  cbn [stored_blocks].
  set (n := Z.min (Z.of_nat (length data)) 65535).
  pose proof (take_drop (Z.to_nat n) data) as Htd.
  apply (f_equal length) in Htd. rewrite length_app in Htd.
  destruct (drop (Z.to_nat n) data) as [|y rest] eqn:Hdrop.
  - unfold le16. cbn [app length] in *.
    generalize dependent (length (take (Z.to_nat n) data)). intros k Hk. lia.
  - assert (0 < length (take (Z.to_nat n) data))%nat as Hpos.
    { rewrite length_take. unfold n. destruct data; [discriminate Hdrop|]. cbn [length]. lia. }
    assert (length (y :: rest) < fuel)%nat as Hrest.
    { generalize dependent (length (take (Z.to_nat n) data)). intros k Hk Hpos. lia. }
    specialize (IH _ Hrest).
    unfold le16. cbn [app length] in *. rewrite length_app.
    generalize dependent (length (take (Z.to_nat n) data)). intros k Hk Hpos. lia.
Qed.

Lemma adler_step_range (ab : Z * Z) (x : byte) :
  0 <= fst (adler_step ab x) < 65521 /\ 0 <= snd (adler_step ab x) < 65521.
Proof. unfold adler_step. cbn [fst snd]. split; apply Z.mod_pos_bound; lia. Qed.

Lemma adler_fold_range (data : bytes) (ab : Z * Z) :
  0 <= fst ab < 65521 /\ 0 <= snd ab < 65521 ->
  0 <= fst (fold_left adler_step data ab) < 65521
  /\ 0 <= snd (fold_left adler_step data ab) < 65521.
Proof.
  revert ab. induction data as [|x data IH]; intros ab Hab; [exact Hab|].
  cbn [fold_left]. apply IH, adler_step_range.
Qed.

Lemma adler32_range (data : bytes) : 0 <= adler32 data < 2 ^ 32.
Proof.
  unfold adler32.
  pose proof (adler_fold_range data (1, 0) ltac:(cbn; lia)) as [Ha Hb].
  destruct (fold_left adler_step data (1, 0)) as [a b]. cbn [fst snd] in *.
  assert (0 <= Z.shiftl b 16 < 2 ^ 32) as Hs.
  { rewrite Z.shiftl_mul_pow2 by lia. lia. }
  split.
  - apply Z.lor_nonneg. lia.
  - destruct (Z.eq_dec (Z.lor (Z.shiftl b 16) a) 0) as [->|Hne]; [lia|].
    assert (0 <= Z.lor (Z.shiftl b 16) a) by (apply Z.lor_nonneg; lia).
    apply Z.log2_lt_pow2; [lia|].
    rewrite Z.log2_lor by lia.
    apply Z.max_lub_lt.
    + destruct (Z.eq_dec (Z.shiftl b 16) 0) as [->|]; [simpl; lia|]. apply Z.log2_lt_pow2; lia.
    + destruct (Z.eq_dec a 0) as [->|]; [simpl; lia|]. apply Z.log2_lt_pow2; lia.
Qed.

Lemma be32_value_eq (bs : bytes) : be32_value bs = PngDecoder.be_value bs.
Proof. reflexivity. Qed.

Theorem decompress_compress (data : bytes) : decompress (compress data) = Some data.
Proof.
  unfold compress, decompress. cbn [app].
  change (byte_to_Z x78) with 120. change (byte_to_Z x01) with 1.
  change (negb (Z.land 120 15 =? 8) || negb (Z.shiftr 120 4 <=? 7)
          || negb ((256 * 120 + 1) mod 31 =? 0) || negb (Z.land 1 32 =? 0)) with false.
  cbv iota.
  rewrite inflate_stored_blocks.
  - cbn [mbind option_bind]. rewrite length_be_bytes, bool_decide_eq_true_2 by reflexivity.
    rewrite be32_value_eq, be_value_be_bytes_4 by apply adler32_range.
    rewrite Z.eqb_refl. reflexivity.
  - lia.
  - pose proof (length_stored_blocks (S (length data)) data ltac:(lia)).
    rewrite length_app. lia.
Qed.

End ZlibStoredProofs.

(** The stored-block implementation as an instance of the contract. *)
Definition zlib_stored : Zlib := {|
  zlib_compress := ZlibStored.compress;
  zlib_decompress := ZlibStored.decompress;
  zlib_decompress_compress := ZlibStoredProofs.decompress_compress
|}.

(** ** Running programs *)

Lemma run_bind {A B : Type} (p : prog A) (k : A -> prog B) (w : world) :
  run (p ≫= k) w
  = match run p w with
    | (Ok a, w') => run (k a) w'
    | (Err e, w') => (Err e, w')
    end.
Proof.
  revert w. induction p as [a|e|f IH|n eo p IH|path d p IH|l p IH]; intros w;
    change (mbind k) with (pbind k) in *; cbn [pbind run].
  - reflexivity.
  - reflexivity.
  - apply IH.
  - destruct (do_makedirs n eo w); [apply IH|reflexivity].
  - destruct (do_write_file path d w); [apply IH|reflexivity].
  - apply IH.
Qed.

Lemma do_makedirs_cwd name eo w w' : do_makedirs name eo w = Ok w' -> cwd w' = cwd w.
Proof.
  unfold do_makedirs. intros Hm.
  destruct (bool_decide (name = "")); [discriminate|].
  destruct (negb eo && _); [discriminate|].
  destruct (mkdir_p _ _ _); [|discriminate].
  injection Hm as <-. reflexivity.
Qed.

Lemma do_write_file_inv path data w w' :
  do_write_file path data w = Ok w' ->
  path <> "" /\ locate (cwd w) path <> []
  /\ node_at (nodes w) (removelast (locate (cwd w) path)) = Some Dir
  /\ nodes w !! locate (cwd w) path <> Some Dir
  /\ ends_with_sep path = false
  /\ w' = World (cwd w) (<[locate (cwd w) path := File data]> (nodes w)) (stdout w).
Proof.
  unfold do_write_file. intros Hw.
  destruct (bool_decide (path = "")) eqn:Hp; [discriminate|].
  apply bool_decide_eq_false in Hp.
  destruct (locate (cwd w) path) as [|c k] eqn:Hk; [discriminate|].
  destruct (node_at (nodes w) (removelast (c :: k))) as [[|?]|]; try discriminate.
  destruct (nodes w !! (c :: k)) as [[|?]|]; try discriminate;
    destruct (ends_with_sep path); try discriminate;
    injection Hw as <-; repeat split; try congruence.
Qed.

Lemma do_write_file_ok path data w :
  path <> "" -> locate (cwd w) path <> [] ->
  node_at (nodes w) (removelast (locate (cwd w) path)) = Some Dir ->
  nodes w !! locate (cwd w) path <> Some Dir ->
  ends_with_sep path = false ->
  do_write_file path data w
  = Ok (World (cwd w) (<[locate (cwd w) path := File data]> (nodes w)) (stdout w)).
Proof.
  intros Hp Hk Hparent Hnd Hsep. unfold do_write_file.
  rewrite bool_decide_eq_false_2 by assumption.
  destruct (locate (cwd w) path) as [|c k] eqn:E; [congruence|].
  rewrite Hparent, Hsep.
  destruct (nodes w !! (c :: k)) as [[|?]|]; congruence.
Qed.

(** *** [mkdir_p] *)

Lemma mkdir_p_preserves todo : forall at_ m m' k v,
  mkdir_p at_ todo m = Ok m' -> m !! k = Some v -> m' !! k = Some v.
Proof.
  induction todo as [|c todo IH]; intros at_ m m' k v Hm Hk; cbn [mkdir_p] in Hm.
  - congruence.
  - destruct (m !! (at_ ++ [c])) as [[|?]|] eqn:E; [|discriminate|].
    + eapply IH; eassumption.
    + eapply IH; [eassumption|].
      rewrite lookup_insert_ne; [assumption|congruence].
Qed.

Lemma mkdir_p_files todo : forall at_ m m' k d,
  mkdir_p at_ todo m = Ok m' -> m' !! k = Some (File d) -> m !! k = Some (File d).
Proof.
  induction todo as [|c todo IH]; intros at_ m m' k d Hm Hk; cbn [mkdir_p] in Hm.
  - congruence.
  - destruct (m !! (at_ ++ [c])) as [[|?]|] eqn:E; [|discriminate|].
    + eapply IH; eassumption.
    + specialize (IH _ _ _ _ _ Hm Hk).
      destruct (decide (at_ ++ [c] = k)) as [<-|Hne].
      * rewrite lookup_insert_eq in IH. discriminate.
      * rewrite lookup_insert_ne in IH; assumption.
Qed.

Lemma mkdir_p_absent todo : forall at_ m m' k,
  mkdir_p at_ todo m = Ok m' -> m' !! k = None -> m !! k = None.
Proof.
  intros at_ m m' k Hm Hk. destruct (m !! k) as [v|] eqn:E; [|reflexivity].
  rewrite (mkdir_p_preserves _ _ _ _ _ _ Hm E) in Hk. discriminate.
Qed.

(** After [mkdir_p] every directory on the way exists. *)
Lemma mkdir_p_dirs todo : forall at_ m m' n,
  mkdir_p at_ todo m = Ok m' -> (0 < n <= length todo)%nat ->
  m' !! (at_ ++ take n todo) = Some Dir.
Proof.
  induction todo as [|c todo IH]; intros at_ m m' n Hm Hn; cbn [length] in Hn; [lia|].
  cbn [mkdir_p] in Hm.
  destruct n as [|n]; [lia|].
  assert (at_ ++ take (S n) (c :: todo) = (at_ ++ [c]) ++ take n todo) as ->
    by (cbn [take]; rewrite <- app_assoc; reflexivity).
  destruct (m !! (at_ ++ [c])) as [[|?]|] eqn:E; [|discriminate|].
  - destruct n as [|n].
    + rewrite take_0, app_nil_r. eapply mkdir_p_preserves; eassumption.
    + eapply IH; [eassumption|lia].
  - destruct n as [|n].
    + rewrite take_0, app_nil_r. eapply mkdir_p_preserves; [eassumption|].
      apply lookup_insert_eq.
    + eapply IH; [eassumption|lia].
Qed.

(** Where every directory on the way exists, [mkdir_p] changes nothing. *)
Lemma mkdir_p_noop todo : forall at_ m,
  (forall n, (0 < n <= length todo)%nat -> m !! (at_ ++ take n todo) = Some Dir) ->
  mkdir_p at_ todo m = Ok m.
Proof.
  induction todo as [|c todo IH]; intros at_ m Hd; cbn [mkdir_p]; [reflexivity|].
  pose proof (Hd 1%nat ltac:(cbn [length]; lia)) as H1. cbn [take] in H1. rewrite take_0 in H1.
  rewrite H1. apply IH. intros n Hn.
  specialize (Hd (S n) ltac:(cbn [length]; lia)).
  cbn [take] in Hd. rewrite <- app_assoc. exact Hd.
Qed.

Lemma do_makedirs_inv name eo w w' :
  do_makedirs name eo w = Ok w' ->
  name <> ""
  /\ exists m, mkdir_p [] (locate (cwd w) name) (nodes w) = Ok m
               /\ w' = World (cwd w) m (stdout w).
Proof.
  unfold do_makedirs. intros Hm.
  destruct (bool_decide (name = "")) eqn:Hn; [discriminate|].
  apply bool_decide_eq_false in Hn.
  destruct (negb eo && _); [discriminate|].
  destruct (mkdir_p _ _ _) as [m|] eqn:E; [|discriminate].
  injection Hm as <-. split; [assumption|]. exists m. split; reflexivity.
Qed.

(** *** What a successful run keeps *)

Lemma run_cwd {A : Type} (p : prog A) : forall w r w',
  run p w = (r, w') -> cwd w' = cwd w.
Proof.
  induction p as [a|e|f IH|n eo p IH|path d p IH|l p IH]; intros w r w' Hr; cbn [run] in Hr.
  - injection Hr as _ <-. reflexivity.
  - injection Hr as _ <-. reflexivity.
  - eapply IH. eassumption.
  - destruct (do_makedirs n eo w) as [w1|] eqn:E.
    + rewrite (IH _ _ _ Hr). eapply do_makedirs_cwd. eassumption.
    + injection Hr as _ <-. reflexivity.
  - destruct (do_write_file path d w) as [w1|] eqn:E.
    + rewrite (IH _ _ _ Hr).
      apply do_write_file_inv in E as (_ & _ & _ & _ & _ & ->). reflexivity.
    + injection Hr as _ <-. reflexivity.
  - rewrite (IH _ _ _ Hr). reflexivity.
Qed.

(** An entry stays as it is to the end of a successful run, unless it is
    a file that the program writes. *)
Lemma run_keeps_entry {A : Type} (p : prog A) : forall w a w' k v,
  run p w = (Ok a, w') -> nodes w !! k = Some v ->
  v = Dir \/ k ∉ writes p (cwd w) ->
  nodes w' !! k = Some v.
Proof.
  induction p as [a|e|f IH|n eo p IH|path d p IH|l p IH]; intros w a' w' k v Hr Hk Hv;
    cbn [run writes] in Hr, Hv.
  - injection Hr as _ <-. assumption.
  - discriminate.
  - eapply IH; eassumption.
  - destruct (do_makedirs n eo w) as [w1|] eqn:E; [|discriminate].
    pose proof (do_makedirs_cwd _ _ _ _ E) as Hc.
    apply do_makedirs_inv in E as (_ & m & Hm & ->).
    eapply IH; [eassumption| |exact Hv].
    cbn [nodes]. eapply mkdir_p_preserves; eassumption.
  - destruct (do_write_file path d w) as [w1|] eqn:E; [|discriminate].
    apply do_write_file_inv in E as (_ & _ & _ & Hnd & _ & ->).
    eapply IH; [eassumption| |].
    + cbn [nodes]. rewrite lookup_insert_ne; [assumption|].
      intros <-. destruct Hv as [->|Hv]; [congruence|].
      apply Hv. left.
    + cbn [cwd]. destruct Hv as [Hv|Hv]; [left; assumption|right].
      intros Hin. apply Hv. right. assumption.
  - eapply IH; [eassumption|exact Hk|exact Hv].
Qed.

(** A regular file is a regular file at the end of a successful run. *)
Lemma run_keeps_file {A : Type} (p : prog A) : forall w a w' k d,
  run p w = (Ok a, w') -> nodes w !! k = Some (File d) ->
  exists d', nodes w' !! k = Some (File d').
Proof.
  induction p as [a|e|f IH|n eo p IH|path dd p IH|l p IH]; intros w a' w' k d Hr Hk;
    cbn [run] in Hr.
  - injection Hr as _ <-. eauto.
  - discriminate.
  - eapply IH; eassumption.
  - destruct (do_makedirs n eo w) as [w1|] eqn:E; [|discriminate].
    apply do_makedirs_inv in E as (_ & m & Hm & ->).
    eapply IH; [eassumption|].
    cbn [nodes]. eapply mkdir_p_preserves; eassumption.
  - destruct (do_write_file path dd w) as [w1|] eqn:E; [|discriminate].
    apply do_write_file_inv in E as (_ & _ & _ & Hnd & _ & ->).
    destruct (decide (locate (cwd w) path = k)) as [<-|Hne].
    + eapply IH; [eassumption|]. cbn [nodes]. apply lookup_insert_eq.
    + eapply IH; [eassumption|]. cbn [nodes]. rewrite lookup_insert_ne; eassumption.
  - eapply IH; [eassumption|exact Hk].
Qed.


(** *** Running a program again *)

Lemma same_kind_refl (a : option node) : same_kind a a.
Proof. destruct a as [[|?]|]; exact I. Qed.

Lemma same_kind_dir (a : option node) : same_kind a (Some Dir) -> a = Some Dir.
Proof. destruct a as [[|?]|]; cbn; intros []; reflexivity. Qed.

Lemma same_kind_file (a : option node) (d : bytes) :
  same_kind a (Some (File d)) -> a <> Some Dir.
Proof. destruct a as [[|?]|]; cbn; intros []; discriminate. Qed.

Lemma world_eta (w : world) : World (cwd w) (nodes w) (stdout w) = w.
Proof. destruct w. reflexivity. Qed.

(** A program that passes [exist_ok=True] to every [os.makedirs] can be
    run again: started in a world [t] that has the entries of the world
    [f] a successful run left, but for the contents of the files the
    program is going to write, it succeeds and leaves the entries of [f]. *)
Lemma run_again {A : Type} (p : prog A) : forall w a f t,
  exist_ok_everywhere p ->
  run p w = (Ok a, f) ->
  cwd t = cwd w ->
  (forall k, same_kind (nodes t !! k) (nodes f !! k)) ->
  (forall k, k ∉ writes p (cwd w) -> nodes t !! k = nodes f !! k) ->
  exists t', run p t = (Ok a, t') /\ nodes t' = nodes f /\ cwd t' = cwd t.
Proof.
  induction p as [a|e|g IH|n eo p IH|path d p IH|l p IH];
    intros w a' f t Hok Hr Hc Hkind Hsame; cbn [run writes exist_ok_everywhere] in *.
  - injection Hr as <- <-. exists t. repeat split.
    apply map_eq. intros k. apply Hsame. apply not_elem_of_nil.
  - discriminate.
  - destruct (IH (cwd w) w a' f t (Hok _) Hr Hc Hkind Hsame) as (t' & Ht' & Hn' & Hc').
    exists t'. rewrite Hc. repeat split; congruence.
  - destruct Hok as [-> Hok].
    destruct (do_makedirs n true w) as [w1|] eqn:E; [|discriminate].
    apply do_makedirs_inv in E as (Hn & m & Hm & ->).
    assert (do_makedirs n true t = Ok t) as ->.
    { unfold do_makedirs. rewrite bool_decide_eq_false_2 by assumption.
      cbn [negb andb]. rewrite mkdir_p_noop; [cbn; rewrite world_eta; reflexivity|].
      rewrite Hc. intros i Hi. apply same_kind_dir.
      specialize (Hkind ([] ++ take i (locate (cwd w) n))).
      rewrite (run_keeps_entry p _ _ _ _ Dir Hr) in Hkind; [exact Hkind| |left; reflexivity].
      cbn [nodes]. apply (mkdir_p_dirs _ [] _ _ _ Hm Hi). }
    eapply IH; eassumption.
  - destruct (do_write_file path d w) as [w1|] eqn:E; [|discriminate].
    apply do_write_file_inv in E as (Hp & Hk & Hparent & Hnd & Hsep & ->).
    set (K := locate (cwd w) path) in *.
    assert (nodes t !! K <> Some Dir) as HtK.
    { destruct (run_keeps_file p _ _ _ K d Hr) as [d' Hd'];
        [cbn [nodes]; apply lookup_insert_eq|].
      apply (same_kind_file _ d'). rewrite <- Hd'. apply Hkind. }
    assert (node_at (nodes t) (removelast K) = Some Dir) as Htp.
    { destruct (removelast K) as [|c K'] eqn:Hrl; [reflexivity|].
      cbn [node_at] in *. apply same_kind_dir.
      specialize (Hkind (c :: K')).
      rewrite (run_keeps_entry p _ _ _ _ Dir Hr) in Hkind; [exact Hkind| |left; reflexivity].
      cbn [nodes]. rewrite lookup_insert_ne; [assumption|].
      intros HK. rewrite <- HK in Hparent. contradiction. }
    rewrite do_write_file_ok; rewrite ?Hc; try assumption.
    fold K.
    edestruct (IH _ _ _ (World (cwd w) (<[K := File d]> (nodes t)) (stdout t)) Hok Hr)
      as (t' & Ht' & Hn' & Hc'); [reflexivity| | |].
    + intros k. cbn [nodes]. destruct (decide (K = k)) as [<-|Hne].
      * rewrite lookup_insert_eq.
        destruct (run_keeps_file p _ _ _ K d Hr) as [d' ->];
          [cbn [nodes]; apply lookup_insert_eq|exact I].
      * rewrite lookup_insert_ne by assumption. apply Hkind.
    + intros k Hk'. cbn [nodes cwd] in *. destruct (decide (K = k)) as [<-|Hne].
      * rewrite lookup_insert_eq. symmetry.
        apply (run_keeps_entry p _ _ _ _ _ Hr); [cbn [nodes]; apply lookup_insert_eq|].
        right. assumption.
      * rewrite lookup_insert_ne by assumption. apply Hsame.
        intros [?|?]%elem_of_cons; [congruence|contradiction].
    + exists t'. repeat split; assumption.
  - edestruct (IH _ _ _ (do_print l t) Hok Hr) as (t' & Ht' & Hn' & Hc');
      [exact Hc|exact Hkind|exact Hsame|].
    exists t'. repeat split; assumption.
Qed.

Lemma exist_ok_bind {A B : Type} (p : prog A) (k : A -> prog B) :
  exist_ok_everywhere p -> (forall a, exist_ok_everywhere (k a)) ->
  exist_ok_everywhere (p ≫= k).
Proof.
  intros Hp Hk. change (mbind k) with (pbind k).
  induction p as [a|e|g IH|n eo p IH|path d p IH|l p IH]; cbn [pbind exist_ok_everywhere] in *.
  - apply Hk.
  - exact I.
  - intros c. apply IH, Hp.
  - destruct Hp. split; [assumption|]. apply IH. assumption.
  - apply IH, Hp.
  - apply IH, Hp.
Qed.

Lemma exist_ok_for_each {X : Type} (l : list X) (body : X -> prog unit) :
  (forall x, exist_ok_everywhere (body x)) -> exist_ok_everywhere (for_each l body).
Proof.
  intros Hb. induction l as [|x l IH]; cbn [for_each]; [exact I|].
  apply exist_ok_bind; [apply Hb|]. intros _. apply IH.
Qed.

Section ScriptPrograms.
Context `{Zlib}.

Lemma exist_ok_create_png w h c path : exist_ok_everywhere (create_png w h c path).
Proof.
  rewrite create_png_eq. destruct (png_bytes w h c); cbn; auto.
Qed.

Lemma exist_ok_main file : exist_ok_everywhere (main file).
Proof.
  unfold main. apply exist_ok_bind.
  - unfold abspath. destruct (isabs file); cbn; auto.
  - intros abs. apply exist_ok_bind; [exact I|]. intros _.
    apply exist_ok_bind.
    + apply exist_ok_for_each. intros [size rel].
      apply exist_ok_bind; [apply exist_ok_create_png|]. intros _. exact I.
    + intros _. repeat (apply exist_ok_bind; [exact I|]; intros _). exact I.
Qed.

End ScriptPrograms.

(** ** What the encoder emits, whatever its input *)

Lemma png_chunk_inv (chunk_type data c : bytes) :
  png_chunk chunk_type data = Ok c ->
  c = chunk_layout chunk_type data /\ Z.of_nat (length data) < 2 ^ 32.
Proof.
  intros Hc. destruct (Z_lt_ge_dec (Z.of_nat (length data)) (2 ^ 32)) as [Hlt|Hge].
  - rewrite png_chunk_ok in Hc by assumption. split; congruence.
  - rewrite png_chunk_err in Hc by lia. discriminate.
Qed.

Lemma ihdr_data_inv (w h : Z) (d : bytes) :
  ihdr_data w h = Ok d -> d = ihdr_payload w h /\ 0 <= w < 2 ^ 32 /\ 0 <= h < 2 ^ 32.
Proof.
  intros Hd.
  destruct (Z_lt_ge_dec w 0); [rewrite ihdr_data_err in Hd by lia; discriminate|].
  destruct (Z_lt_ge_dec w (2 ^ 32)); [|rewrite ihdr_data_err in Hd by lia; discriminate].
  destruct (Z_lt_ge_dec h 0); [rewrite ihdr_data_err in Hd by lia; discriminate|].
  destruct (Z_lt_ge_dec h (2 ^ 32)); [|rewrite ihdr_data_err in Hd by lia; discriminate].
  rewrite ihdr_data_ok in Hd by lia. split; [congruence|lia].
Qed.

(** The colour components as bytes, when they are valid. *)
Lemma valid_color_inv (c : color) :
  valid_color c = true ->
  exists r g b, c = (PyInt r, PyInt g, PyInt b)
                /\ 0 <= r <= 255 /\ 0 <= g <= 255 /\ 0 <= b <= 255.
Proof.
  destruct c as [[[r|] [g|]] [b|]]; cbn; intros Hv; try discriminate;
    try (rewrite ?andb_false_r in Hv; discriminate).
  exists r, g, b. split; [reflexivity|]. lia.
Qed.

Section Stream.
Context `{Zlib}.

(** Whatever the input, a stream that [png_bytes] returns is the
    signature followed by an IHDR, an IDAT and an IEND chunk. *)
Lemma png_bytes_inv (w h : Z) (r g b : pyobj) (s : bytes) :
  png_bytes w h (r, g, b) = Ok s ->
  exists raw,
    raw_scanlines w h r g b = Ok raw
    /\ 0 <= w < 2 ^ 32 /\ 0 <= h < 2 ^ 32
    /\ Z.of_nat (length (zlib_compress raw)) < 2 ^ 32
    /\ s = signature
           ++ chunk_layout (list_byte_of_string "IHDR") (ihdr_payload w h)
           ++ chunk_layout (list_byte_of_string "IDAT") (zlib_compress raw)
           ++ chunk_layout (list_byte_of_string "IEND") [].
Proof.
  unfold png_bytes. intros Hs.
  destruct (ihdr_data w h) as [d|] eqn:Ed; [|discriminate].
  apply ihdr_data_inv in Ed as (-> & Hw & Hh). rewrite ok_bind in Hs.
  destruct (png_chunk _ (ihdr_payload w h)) as [c1|] eqn:E1; [|discriminate].
  apply png_chunk_inv in E1 as [-> _]. rewrite ok_bind in Hs.
  destruct (raw_scanlines w h r g b) as [raw|] eqn:Er; [|discriminate].
  rewrite ok_bind in Hs.
  destruct (png_chunk _ (zlib_compress raw)) as [c2|] eqn:E2; [|discriminate].
  apply png_chunk_inv in E2 as [-> Hz]. rewrite ok_bind in Hs.
  destruct (png_chunk _ []) as [c3|] eqn:E3; [|discriminate].
  apply png_chunk_inv in E3 as [-> _]. rewrite ok_bind in Hs.
  exists raw. repeat split; try assumption; try lia. congruence.
Qed.

End Stream.

(** ** Paths *)

Lemma append_cons (c : ascii) (s t : string) : String c s +:+ t = String c (s +:+ t).
Proof. reflexivity. Qed.

Lemma append_nil_l (t : string) : "" +:+ t = t.
Proof. reflexivity. Qed.

Lemma append_assoc (a b c : string) : (a +:+ b) +:+ c = a +:+ (b +:+ c).
Proof. induction a as [|x a IH]; [reflexivity|]. rewrite !append_cons, IH. reflexivity. Qed.

Lemma cut_last_sep_component (f : string) :
  has_sep f = false -> cut_last_sep f = ("", f).
Proof.
  induction f as [|c f IH]; cbn [has_sep cut_last_sep]; [reflexivity|].
  intros Hf. apply orb_false_elim in Hf as [Hc Hf]. rewrite (IH Hf), Hc. reflexivity.
Qed.

Lemma cut_last_sep_app (p f : string) :
  has_sep f = false -> cut_last_sep (p +:+ "/" +:+ f) = (p +:+ "/", f).
Proof.
  intros Hf. induction p as [|c p IH].
  - rewrite append_nil_l, append_cons, append_nil_l. cbn [cut_last_sep].
    rewrite (cut_last_sep_component f Hf). reflexivity.
  - change (String c p +:+ "/" +:+ f) with (String c (p +:+ "/" +:+ f)).
    cbn [cut_last_sep]. rewrite IH.
    destruct p; reflexivity.
Qed.

Lemma rstrip_sep_app_sep (p : string) : rstrip_sep (p +:+ "/") = rstrip_sep p.
Proof.
  induction p as [|c p IH]; [reflexivity|].
  rewrite append_cons. cbn [rstrip_sep]. rewrite IH. reflexivity.
Qed.

Lemma rstrip_sep_id (p : string) : ends_with_sep p = false -> rstrip_sep p = p.
Proof.
  induction p as [|c p IH]; [reflexivity|].
  cbn [ends_with_sep rstrip_sep]. destruct p as [|c' p'].
  - intros ->. reflexivity.
  - intros Hp. rewrite (IH Hp). reflexivity.
Qed.

Lemma all_sep_ends (p : string) : all_sep p = true -> p = "" \/ ends_with_sep p = true.
Proof.
  induction p as [|c p IH]; [left; reflexivity|].
  cbn [all_sep]. intros [Hc Hp]%andb_prop. right.
  cbn [ends_with_sep]. destruct p as [|c' p']; [assumption|].
  destruct (IH Hp) as [?|?]; [discriminate|assumption].
Qed.

Lemma all_sep_app_sep (p : string) : all_sep (p +:+ "/") = all_sep p.
Proof.
  induction p as [|c p IH]; [reflexivity|].
  rewrite append_cons. cbn [all_sep]. rewrite IH. reflexivity.
Qed.

(** The directory of [p/f] is [p]. *)
Lemma dirname_app (p f : string) :
  p <> "" -> ends_with_sep p = false -> has_sep f = false ->
  dirname (p +:+ "/" +:+ f) = p.
Proof.
  intros Hp He Hf. unfold dirname. rewrite cut_last_sep_app by assumption.
  rewrite all_sep_app_sep.
  destruct (all_sep p) eqn:Ha.
  - apply all_sep_ends in Ha as [?|?]; congruence.
  - rewrite rstrip_sep_app_sep. apply rstrip_sep_id. assumption.
Qed.

(** The directory of [/f] is the root. *)
Lemma dirname_root (f : string) : has_sep f = false -> dirname ("/" +:+ f) = "/".
Proof.
  intros Hf. unfold dirname.
  change ("/" +:+ f) with ("" +:+ "/" +:+ f).
  rewrite (cut_last_sep_app "" f Hf). reflexivity.
Qed.

(** A path without directory part has the empty directory name. *)
Lemma dirname_component (f : string) : has_sep f = false -> dirname f = "".
Proof. intros Hf. unfold dirname. rewrite cut_last_sep_component by assumption. reflexivity. Qed.

Lemma ends_with_sep_app (p d : string) :
  d <> "" -> ends_with_sep (p +:+ d) = ends_with_sep d.
Proof.
  intros Hd. induction p as [|c p IH]; [reflexivity|].
  rewrite append_cons. cbn [ends_with_sep]. rewrite IH.
  destruct (p +:+ d) eqn:E; [|reflexivity].
  destruct p, d; try discriminate; congruence.
Qed.

Lemma ends_with_sep_component (d : string) : has_sep d = false -> ends_with_sep d = false.
Proof.
  induction d as [|c d IH]; [reflexivity|].
  cbn [has_sep ends_with_sep]. intros [Hc Hd]%orb_false_elim.
  destruct d; [assumption|]. apply IH. assumption.
Qed.

(** Two levels up from [r/d/f] is [r]. *)
Lemma dirname_dirname (r d f : string) :
  r <> "" -> ends_with_sep r = false ->
  d <> "" -> has_sep d = false -> has_sep f = false ->
  dirname (dirname (r +:+ "/" +:+ d +:+ "/" +:+ f)) = r.
Proof.
  intros Hr Her Hd Hsd Hsf.
  replace (r +:+ "/" +:+ d +:+ "/" +:+ f) with ((r +:+ "/" +:+ d) +:+ "/" +:+ f)
    by (rewrite !append_assoc; reflexivity).
  rewrite dirname_app; [apply dirname_app; assumption| | |assumption].
  - destruct r; [congruence|discriminate].
  - rewrite ends_with_sep_app by (destruct d; [congruence|discriminate]).
    rewrite append_cons, append_nil_l.
    cbn [ends_with_sep]. destruct d; [congruence|].
    apply ends_with_sep_component. assumption.
Qed.


(** ** Sequences of programs *)

Lemma run_seq_single (p : prog unit) (w : world) : run_seq [p] w = run p w.
Proof. cbn [run_seq]. destruct (run p w) as [[[]|e] w']; reflexivity. Qed.

Lemma run_then_seq (p q : prog unit) (qs : list (prog unit)) (w : world) :
  (forall w', run q w' = run_seq qs w') ->
  run (p ≫= fun _ => q) w = run_seq (p :: qs) w.
Proof.
  intros Hq. rewrite run_bind. cbn [run_seq].
  destruct (run p w) as [[a|e] w']; [apply Hq|reflexivity].
Qed.

Lemma run_seq_cons_ext (p : prog unit) (ps qs : list (prog unit)) (w : world) :
  (forall w', run_seq ps w' = run_seq qs w') ->
  run_seq (p :: ps) w = run_seq (p :: qs) w.
Proof.
  intros Hq. cbn [run_seq]. destruct (run p w) as [[a|e] w']; [apply Hq|reflexivity].
Qed.

Lemma run_seq_then (p q : prog unit) (ps : list (prog unit)) (w : world) :
  run_seq ((p ≫= fun _ => q) :: ps) w = run_seq (p :: q :: ps) w.
Proof.
  cbn [run_seq]. rewrite run_bind.
  destruct (run p w) as [[a|e] w']; reflexivity.
Qed.

Lemma run_for_each_then {X : Type} (l : list X) (body : X -> prog unit)
    (q : prog unit) (qs : list (prog unit)) :
  (forall w', run q w' = run_seq qs w') ->
  forall w, run (for_each l body ≫= fun _ => q) w = run_seq (map body l ++ qs) w.
Proof.
  intros Hq. induction l as [|x l IH]; intros w; cbn [for_each map app].
  - apply Hq.
  - rewrite run_bind, run_bind. cbn [run_seq].
    destruct (run (body x) w) as [[a|e] w']; [|reflexivity].
    rewrite <- IH, run_bind. reflexivity.
Qed.

Lemma run_abspath (file : string) (w : world) :
  run (abspath file) w = (Ok (script_abspath (cwd w) file), w).
Proof. unfold abspath, script_abspath. destruct (isabs file); reflexivity. Qed.

Section MainSequence.
Context `{Zlib}.

Lemma run_main (file : string) (w : world) :
  run (main file) w
  = run_seq (main_sequence (dirname (dirname (script_abspath (cwd w) file)))) w.
Proof.
  unfold main. rewrite run_bind, run_abspath.
  set (root := dirname (dirname (script_abspath (cwd w) file))).
  unfold main_sequence.
  apply run_then_seq. intros w1.
  rewrite (run_for_each_then _ _ _
             [print (newline +:+ "All icons created successfully!");
              print (newline +:+ "Note: These are placeholder icons (solid teal squares).");
              print "For a production app, replace them with proper designed icons."]).
  - cbn [icons map app].
    do 5 (rewrite run_seq_then; apply run_seq_cons_ext; intros ?;
          apply run_seq_cons_ext; intros ?).
    reflexivity.
  - intros w2. apply run_then_seq. intros w3. apply run_then_seq. intros w4.
    symmetry. apply run_seq_single.
Qed.

End MainSequence.

(** ** Paths made of plain components *)

Lemma split_sep_nonempty (p : string) : split_sep p <> [].
Proof.
  destruct p as [|c p]; cbn [split_sep]; [discriminate|].
  destruct (is_sep c); [discriminate|]. destruct (split_sep p); discriminate.
Qed.

Lemma split_sep_component (f : string) : has_sep f = false -> split_sep f = [f].
Proof.
  induction f as [|c f IH]; [reflexivity|].
  cbn [has_sep split_sep]. intros [Hc Hf]%orb_false_elim.
  rewrite Hc, (IH Hf). reflexivity.
Qed.

Lemma split_sep_app (a b : string) :
  split_sep (a +:+ "/" +:+ b) = split_sep a ++ split_sep b.
Proof.
  induction a as [|c a IH].
  - reflexivity.
  - change (String c a +:+ "/" +:+ b) with (String c (a +:+ "/" +:+ b)).
    cbn [split_sep]. rewrite IH. destruct (is_sep c); [reflexivity|].
    destruct (split_sep a) as [|x xs] eqn:E; [destruct (split_sep_nonempty a E)|].
    reflexivity.
Qed.

Lemma isabs_app (p q : string) : p <> "" -> isabs (p +:+ q) = isabs p.
Proof. destruct p; [congruence|reflexivity]. Qed.

Lemma append_nonempty (p q : string) : p <> "" -> p +:+ q <> "".
Proof. destruct p; [congruence|discriminate]. Qed.

Lemma plain_component_nonempty (f : string) : plain_component f -> f <> "".
Proof. intros (_ & Hf & _). assumption. Qed.

Lemma ends_with_sep_child (p f : string) :
  plain_component f -> ends_with_sep (p +:+ "/" +:+ f) = false.
Proof.
  intros Hf. pose proof (plain_component_nonempty f Hf) as Hne.
  rewrite ends_with_sep_app by (destruct f; [congruence|discriminate]).
  change ("/" +:+ f) with (String "/" f). cbn [ends_with_sep].
  destruct f; [congruence|]. apply ends_with_sep_component, Hf.
Qed.

Lemma path_below_shape (comps : list string) : forall p,
  p <> "" -> ends_with_sep p = false -> Forall plain_component comps ->
  path_below p comps <> "" /\ ends_with_sep (path_below p comps) = false.
Proof.
  induction comps as [|c comps IH]; intros p Hp He Hc; cbn [path_below]; [auto|].
  apply Forall_cons in Hc as [Hc Hcs].
  apply IH; [apply append_nonempty; assumption|apply ends_with_sep_child; assumption|assumption].
Qed.

Lemma plain_literal (f : string) :
  has_sep f = false -> bool_decide (f = "" \/ f = "." \/ f = "..") = false ->
  plain_component f.
Proof.
  intros Hs Hd. apply bool_decide_eq_false in Hd.
  split; [assumption|]. repeat split; intros ->; apply Hd; auto.
Qed.

Lemma path_below_app (cs cs' : list string) : forall p : string,
  path_below p (cs ++ cs') = path_below (path_below p cs) cs'.
Proof.
  induction cs as [|c cs IH]; intros p; cbn [app path_below]; [reflexivity|]. apply IH.
Qed.

Lemma path_below_join_sep (cs : list string) : forall p : string,
  cs <> [] -> path_below p cs = p +:+ "/" +:+ join_sep cs.
Proof.
  induction cs as [|c cs IH]; intros p Hne; [congruence|].
  destruct cs as [|c' cs]; [reflexivity|].
  cbn [path_below] in *. rewrite (IH (p +:+ "/" +:+ c)) by discriminate.
  cbn [join_sep]. rewrite !append_assoc. reflexivity.
Qed.

Lemma split_sep_path_below (cs : list string) : forall p : string,
  Forall plain_component cs -> split_sep (path_below p cs) = split_sep p ++ cs.
Proof.
  induction cs as [|c cs IH]; intros p Hcs; cbn [path_below].
  - rewrite app_nil_r. reflexivity.
  - apply Forall_cons in Hcs as [Hc Hcs].
    rewrite (IH _ Hcs), split_sep_app, (split_sep_component c) by apply Hc.
    rewrite <- app_assoc. reflexivity.
Qed.

Lemma normpath_step_plain (n : nat) (acc : list string) (c : string) :
  plain_component c -> normpath_step n acc c = acc ++ [c].
Proof.
  intros (_ & H1 & H2 & H3). unfold normpath_step.
  rewrite bool_decide_eq_false_2 by (intros [?|?]; contradiction).
  rewrite (bool_decide_eq_true_2 (c <> "..")) by assumption. reflexivity.
Qed.

Lemma fold_normpath_step_plain (n : nat) (cs : list string) : forall acc : list string,
  Forall plain_component cs -> fold_left (normpath_step n) cs acc = acc ++ cs.
Proof.
  induction cs as [|c cs IH]; intros acc Hcs; cbn [fold_left].
  - rewrite app_nil_r. reflexivity.
  - apply Forall_cons in Hcs as [Hc Hcs].
    rewrite normpath_step_plain, (IH _ Hcs), <- app_assoc by assumption. reflexivity.
Qed.

(** [normpath] of a path with exactly one leading slash. *)
Lemma normpath_one_slash (a : ascii) (s : string) :
  is_sep a = false ->
  normpath (String "/" (String a s))
  = "/" +:+ join_sep (fold_left (normpath_step 1) (split_sep (String "/" (String a s))) []).
Proof.
  intros Ha. unfold normpath.
  rewrite bool_decide_eq_false_2 by discriminate.
  assert (match String "/" (String a s) with
          | String "/" (String "/" (String "/" _)) => 1%nat
          | String "/" (String "/" _) => 2%nat
          | String "/" _ => 1%nat
          | _ => 0%nat
          end = 1%nat) as ->.
  { destruct a as [[] [] [] [] [] [] [] []]; first [reflexivity | discriminate]. }
  cbn [replicate String.concat]. rewrite ?append_nil_l.
  rewrite bool_decide_eq_false_2 by discriminate. reflexivity.
Qed.

Lemma plain_component_head (c : string) :
  plain_component c -> exists a c0, c = String a c0 /\ is_sep a = false.
Proof.
  intros (Hs & Hne & _). destruct c as [|a c0]; [congruence|].
  exists a, c0. split; [reflexivity|].
  cbn [has_sep] in Hs. apply orb_false_elim in Hs as [Ha _]. exact Ha.
Qed.

(** An absolute path made of plain components is its own normal form. *)
Lemma normpath_path_below (cs : list string) :
  cs <> [] -> Forall plain_component cs ->
  normpath (path_below "" cs) = path_below "" cs.
Proof.
  intros Hne Hcs.
  pose proof (split_sep_path_below cs "" Hcs) as Hsplit.
  rewrite path_below_join_sep in * by assumption.
  rewrite append_nil_l in *.
  destruct cs as [|c cs]; [congruence|].
  pose proof Hcs as [Hc _]%Forall_cons.
  destruct (plain_component_head c Hc) as (a & c0 & -> & Ha).
  assert (exists s, join_sep (String a c0 :: cs) = String a s) as [s Hs]
    by (destruct cs; cbn [join_sep]; eexists; reflexivity).
  rewrite Hs in *. change ("/" +:+ String a s) with (String "/" (String a s)) in *.
  rewrite normpath_one_slash, Hsplit by assumption.
  change (split_sep "" ++ String a c0 :: cs) with ("" :: String a c0 :: cs).
  change (fold_left (normpath_step 1) ("" :: String a c0 :: cs) [])
    with (fold_left (normpath_step 1) (String a c0 :: cs) (normpath_step 1 [] "")).
  change (normpath_step 1 [] "") with (@nil string).
  rewrite fold_normpath_step_plain by assumption. cbn [app].
  rewrite Hs. reflexivity.
Qed.

(** [os.path.join] of a relative path to a directory name. *)
Lemma join_relative (a b : string) :
  a <> "" -> ends_with_sep a = false -> isabs b = false ->
  join a b = a +:+ "/" +:+ b.
Proof.
  intros Ha He Hb. unfold join.
  rewrite Hb, bool_decide_eq_false_2, He by assumption. reflexivity.
Qed.


(** * The claims of the specification *)

(** ** C1 *)

(** C1, as the code has it.  For every width and height between 1 and
    [2^31 - 1] and every colour with its channels in [0, 255], when the
    compressed scanlines are at most [2^31 - 1] bytes long, [create_png]
    writes the stream [png_stream], and the reference decoder decodes that
    stream to an image of exactly [w] by [h] pixels, every pixel the input
    colour with alpha 255. *)
Theorem create_png_decodes `{Zlib} (w h r g b : Z) :
  1 <= w <= 2 ^ 31 - 1 -> 1 <= h <= 2 ^ 31 - 1 ->
  0 <= r <= 255 -> 0 <= g <= 255 -> 0 <= b <= 255 ->
  Z.of_nat (length (zlib_compress (scanlines w h r g b))) <= 2 ^ 31 - 1 ->
  (forall filepath,
      create_png w h (PyInt r, PyInt g, PyInt b) filepath
      = MakeDirs (dirname filepath) true
          (WriteFile filepath (png_stream w h r g b) (Return tt)))
  /\ decode (png_stream w h r g b)
     = Some (Image w h (replicate (Z.to_nat h) (replicate (Z.to_nat w) (r, g, b, 255)))).
Proof.
  intros Hw Hh Hr Hg Hb Hz. split.
  - intros filepath. rewrite create_png_eq, png_bytes_ok by lia. reflexivity.
  - apply decode_png_stream; assumption.
Qed.

Lemma create_png_decodes_witness :
  (forall filepath,
      create_png (H := zlib_stored) 2 3 (PyInt 0, PyInt 150, PyInt 136) filepath
      = MakeDirs (dirname filepath) true
          (WriteFile filepath (png_stream (H := zlib_stored) 2 3 0 150 136) (Return tt)))
  /\ decode (H := zlib_stored) (png_stream (H := zlib_stored) 2 3 0 150 136)
     = Some (Image 2 3 (replicate 3 (replicate 2 (0, 150, 136, 255)))).
Proof.
  apply (create_png_decodes (H := zlib_stored) 2 3 0 150 136); try lia.
  vm_compute. discriminate.
Defined.

(** C1 fails as stated: a width of [2^32] is at least 1, but it does not fit
    the 4-byte field of IHDR; [create_png] raises [struct.error] before it
    produces any stream, and no file appears. *)
Lemma create_png_width_2_32_raises :
  1 <= 4294967296
  /\ create_png (H := zlib_stored) 4294967296 1 (PyInt 0, PyInt 0, PyInt 0) "/out/icon.png"
     = Raise StructError
  /\ run (create_png (H := zlib_stored) 4294967296 1 (PyInt 0, PyInt 0, PyInt 0) "/out/icon.png")
       empty_world
     = (Err StructError, empty_world).
Proof.
  assert (create_png (H := zlib_stored) 4294967296 1 (PyInt 0, PyInt 0, PyInt 0) "/out/icon.png"
          = Raise StructError) as E.
  { rewrite create_png_eq. unfold png_bytes. rewrite ihdr_data_err by lia. reflexivity. }
  split; [lia|]. split; [exact E|]. rewrite E. reflexivity.
Qed.

(** ** C2 *)

Lemma raw_scanlines_empty (w h : Z) (r g b : pyobj) :
  w <= 0 \/ h <= 0 ->
  raw_scanlines w h r g b = Ok (replicate (Z.to_nat h) x00).
Proof.
  intros Hwh. unfold raw_scanlines, for_range.
  destruct (Z_le_gt_dec h 0) as [Hh|Hh].
  - replace (Z.to_nat h) with O by lia. reflexivity.
  - assert (Z.to_nat w = O) as -> by lia.
    rewrite (repeat_body_append _ _ [x00]); [|reflexivity].
    cbn [app]. f_equal. induction (Z.to_nat h) as [|n IH]; [reflexivity|].
    cbn [replicate concat app]. rewrite IH. reflexivity.
Qed.

(** C2, as the code has it.  [create_png] has no check of its own on the
    dimensions and no [InvalidDimension] error.  A negative width or
    height makes [struct.pack] raise [struct.error] while IHDR is
    packed, before any directory is created or file is opened, so the file
    system is left as it was.  A width or height of zero is not rejected:
    the scanline buffer is [h] filter bytes, and [create_png] goes on to
    create the directory and write the file. *)
Theorem create_png_nonpositive_dimension `{Zlib} (w h : Z) (c : color) (filepath : string) :
  (w < 0 \/ h < 0 ->
   create_png w h c filepath = Raise StructError
   /\ forall world, run (create_png w h c filepath) world = (Err StructError, world))
  /\ ((w = 0 \/ h = 0) -> 0 <= w < 2 ^ 32 -> 0 <= h < 2 ^ 32 ->
      Z.of_nat (length (zlib_compress (replicate (Z.to_nat h) x00))) < 2 ^ 32 ->
      create_png w h c filepath
      = MakeDirs (dirname filepath) true
          (WriteFile filepath
             (signature
              ++ chunk_layout (list_byte_of_string "IHDR") (ihdr_payload w h)
              ++ chunk_layout (list_byte_of_string "IDAT")
                   (zlib_compress (replicate (Z.to_nat h) x00))
              ++ chunk_layout (list_byte_of_string "IEND") [])
             (Return tt))).
Proof.
  split.
  - intros Hneg.
    assert (create_png w h c filepath = Raise StructError) as E.
    { rewrite create_png_eq. unfold png_bytes. destruct c as [[r g] b].
      rewrite ihdr_data_err by lia. reflexivity. }
    split; [exact E|]. intros world. rewrite E. reflexivity.
  - intros Hzero Hw Hh Hz. rewrite create_png_eq. unfold png_bytes.
    destruct c as [[r g] b].
    rewrite ihdr_data_ok, ok_bind by assumption.
    rewrite (png_chunk_ok _ (ihdr_payload w h)), ok_bind by (rewrite length_ihdr_payload; lia).
    rewrite raw_scanlines_empty, ok_bind by lia.
    rewrite (png_chunk_ok _ (zlib_compress _)), ok_bind by assumption.
    rewrite (png_chunk_ok _ []), ok_bind by (change (length (@nil byte)) with O; lia).
    reflexivity.
Qed.

Lemma create_png_nonpositive_dimension_witness :
  (create_png (H := zlib_stored) (-1) 48 teal "/out/icon.png" = Raise StructError
   /\ forall world,
       run (create_png (H := zlib_stored) (-1) 48 teal "/out/icon.png") world
       = (Err StructError, world))
  /\ create_png (H := zlib_stored) 0 1 teal "/out/icon.png"
     = MakeDirs (dirname "/out/icon.png") true
         (WriteFile "/out/icon.png"
            (signature
             ++ chunk_layout (list_byte_of_string "IHDR") (ihdr_payload 0 1)
             ++ chunk_layout (list_byte_of_string "IDAT")
                  (zlib_compress (Zlib := zlib_stored) (replicate (Z.to_nat 1) x00))
             ++ chunk_layout (list_byte_of_string "IEND") [])
            (Return tt)).
Proof.
  split.
  - apply (proj1 (create_png_nonpositive_dimension (H := zlib_stored) (-1) 48 teal "/out/icon.png")).
    left. lia.
  - apply (proj2 (create_png_nonpositive_dimension (H := zlib_stored) 0 1 teal "/out/icon.png"));
      [left; reflexivity|lia|lia|vm_compute; reflexivity].
Defined.

(** C2 fails as stated: with width 0 [create_png] raises nothing, creates
    the directory and writes a file, whose IHDR declares a width of 0. *)
Lemma create_png_width_0_writes :
  fst (run (create_png (H := zlib_stored) 0 1 teal "/out/icon.png") empty_world) = Ok tt
  /\ option_map (map byte_to_Z)
       (read_file (snd (run (create_png (H := zlib_stored) 0 1 teal "/out/icon.png")
                          empty_world))
          "/out/icon.png")
     = Some [137; 80; 78; 71; 13; 10; 26; 10;
             0; 0; 0; 13; 73; 72; 68; 82; 0; 0; 0; 0; 0; 0; 0; 1; 8; 2; 0; 0; 0;
             127; 181; 56; 224;
             0; 0; 0; 12; 73; 68; 65; 84; 120; 1; 1; 1; 0; 254; 255; 0; 0; 1; 0; 1;
             247; 141; 1; 81;
             0; 0; 0; 0; 73; 69; 78; 68; 174; 66; 96; 130].
Proof. vm_compute. split; reflexivity. Qed.

(** ** C3 *)

(** C3.  A chunk whose payload is shorter than [2^32] bytes is serialised
    as the 4-byte big-endian length of the payload, the type, the payload
    and the 4-byte big-endian CRC-32 of type and payload, the CRC being
    the bit-by-bit CRC-32 of ISO 3309 (seed [0xffffffff], final
    complement), which is what [zlib.crc32] computes; the two fields read
    back as the length and the CRC.  Every stream [create_png] writes is
    the signature followed by three chunks that [png_chunk] laid out so. *)
Theorem png_chunk_layout_crc `{Zlib} (chunk_type data : bytes) :
  Z.of_nat (length data) < 2 ^ 32 ->
  png_chunk chunk_type data
  = Ok (be_bytes 4 (Z.of_nat (length data)) ++ chunk_type ++ data
        ++ be_bytes 4 (crc32_bitwise (chunk_type ++ data)))
  /\ be_value (be_bytes 4 (Z.of_nat (length data))) = Z.of_nat (length data)
  /\ be_value (be_bytes 4 (crc32_bitwise (chunk_type ++ data)))
     = crc32_bitwise (chunk_type ++ data)
  /\ crc32 (chunk_type ++ data) = crc32_bitwise (chunk_type ++ data)
  /\ forall w h c s,
       png_bytes w h c = Ok s ->
       exists ihdr idat,
         png_chunk (list_byte_of_string "IHDR") ihdr
         = Ok (chunk_layout (list_byte_of_string "IHDR") ihdr)
         /\ png_chunk (list_byte_of_string "IDAT") idat
            = Ok (chunk_layout (list_byte_of_string "IDAT") idat)
         /\ png_chunk (list_byte_of_string "IEND") []
            = Ok (chunk_layout (list_byte_of_string "IEND") [])
         /\ s = signature
                ++ chunk_layout (list_byte_of_string "IHDR") ihdr
                ++ chunk_layout (list_byte_of_string "IDAT") idat
                ++ chunk_layout (list_byte_of_string "IEND") [].
Proof.
  intros Hlen. split; [apply png_chunk_ok; assumption|].
  split; [apply be_value_be_bytes_4; lia|].
  split; [apply be_value_be_bytes_4, crc32_bitwise_range|].
  split; [apply crc32_eq_bitwise|].
  intros w h [[r g] b] s Hs.
  apply png_bytes_inv in Hs as (raw & _ & Hw & Hh & Hz & ->).
  exists (ihdr_payload w h), (zlib_compress raw).
  split; [apply png_chunk_ok; rewrite length_ihdr_payload; lia|].
  split; [apply png_chunk_ok; assumption|].
  split; [apply png_chunk_ok; change (length (@nil byte)) with O; lia|].
  reflexivity.
Qed.

Lemma png_chunk_layout_crc_witness :
  png_chunk (list_byte_of_string "IEND") []
  = Ok (be_bytes 4 (Z.of_nat (length (@nil byte))) ++ list_byte_of_string "IEND" ++ []
        ++ be_bytes 4 (crc32_bitwise (list_byte_of_string "IEND" ++ [])))
  /\ map byte_to_Z (chunk_layout (list_byte_of_string "IEND") [])
     = [0; 0; 0; 0; 73; 69; 78; 68; 174; 66; 96; 130].
Proof.
  split; [|vm_compute; reflexivity].
  apply (png_chunk_layout_crc (H := zlib_stored) (list_byte_of_string "IEND") []).
  vm_compute. reflexivity.
Defined.

(** ** C4 *)

(** C4.  For every width and height of at least 1 and a colour with its
    channels in [0, 255], the two loops build [h] rows, each the filter
    byte 0 followed by [w] pixels of the three bytes R, G, B; a row is
    [1 + 3 w] bytes long and the buffer [h (1 + 3 w)] bytes; the IDAT
    payload of a stream that [create_png] writes is the compressed buffer,
    and decompressing it gives the buffer back. *)
Theorem raw_scanlines_rows `{Zlib} (w h r g b : Z) :
  1 <= w -> 1 <= h ->
  0 <= r <= 255 -> 0 <= g <= 255 -> 0 <= b <= 255 ->
  raw_scanlines w h (PyInt r) (PyInt g) (PyInt b) = Ok (scanlines w h r g b)
  /\ map byte_to_Z (scanlines w h r g b)
     = concat (replicate (Z.to_nat h) (0 :: concat (replicate (Z.to_nat w) [r; g; b])))
  /\ Z.of_nat (length (scanline w r g b)) = 1 + 3 * w
  /\ Z.of_nat (length (scanlines w h r g b)) = h * (1 + 3 * w)
  /\ zlib_decompress (zlib_compress (scanlines w h r g b)) = Some (scanlines w h r g b)
  /\ forall s,
       png_bytes w h (PyInt r, PyInt g, PyInt b) = Ok s ->
       s = signature
           ++ chunk_layout (list_byte_of_string "IHDR") (ihdr_payload w h)
           ++ chunk_layout (list_byte_of_string "IDAT") (zlib_compress (scanlines w h r g b))
           ++ chunk_layout (list_byte_of_string "IEND") [].
Proof.
  intros Hw Hh Hr Hg Hb.
  split; [apply raw_scanlines_ok; assumption|].
  split; [apply scanlines_values; assumption|].
  split; [apply length_scanline; lia|].
  split; [apply length_scanlines; lia|].
  split; [apply zlib_decompress_compress|].
  intros s Hs. apply png_bytes_inv in Hs as (raw & Hraw & _ & _ & _ & ->).
  rewrite raw_scanlines_ok in Hraw by assumption. injection Hraw as <-. reflexivity.
Qed.

Lemma raw_scanlines_rows_witness :
  raw_scanlines 2 3 (PyInt 0) (PyInt 150) (PyInt 136) = Ok (scanlines 2 3 0 150 136)
  /\ map byte_to_Z (scanlines 2 3 0 150 136)
     = [0; 0; 150; 136; 0; 150; 136;
        0; 0; 150; 136; 0; 150; 136;
        0; 0; 150; 136; 0; 150; 136].
Proof.
  pose proof (raw_scanlines_rows (H := zlib_stored) 2 3 0 150 136
                ltac:(lia) ltac:(lia) ltac:(lia) ltac:(lia) ltac:(lia)) as (H1 & H2 & _).
  split; [exact H1|exact H2].
Defined.

(** ** C5 *)

(** C5.  For a width and a height between 1 and [2^32 - 1] the payload of
    IHDR is 13 bytes: the width and the height as 4-byte big-endian
    unsigned integers, then 8, 2, 0, 0, 0; and in every stream
    [create_png] writes for such an input the chunk after the signature is
    the IHDR chunk with this payload. *)
Theorem ihdr_chunk_payload `{Zlib} (w h : Z) :
  1 <= w < 2 ^ 32 -> 1 <= h < 2 ^ 32 ->
  ihdr_data w h = Ok (be_bytes 4 w ++ be_bytes 4 h ++ [x08; x02; x00; x00; x00])
  /\ length (be_bytes 4 w ++ be_bytes 4 h ++ [x08; x02; x00; x00; x00]) = 13%nat
  /\ be_value (be_bytes 4 w) = w
  /\ be_value (be_bytes 4 h) = h
  /\ map byte_to_Z [x08; x02; x00; x00; x00] = [8; 2; 0; 0; 0]
  /\ forall c s,
       png_bytes w h c = Ok s ->
       exists rest,
         s = signature
             ++ chunk_layout (list_byte_of_string "IHDR")
                  (be_bytes 4 w ++ be_bytes 4 h ++ [x08; x02; x00; x00; x00])
             ++ rest.
Proof.
  intros Hw Hh.
  split; [apply ihdr_data_ok; lia|].
  split; [apply length_ihdr_payload|].
  split; [apply be_value_be_bytes_4; lia|].
  split; [apply be_value_be_bytes_4; lia|].
  split; [reflexivity|].
  intros [[r g] b] s Hs. apply png_bytes_inv in Hs as (raw & _ & _ & _ & _ & ->).
  eexists. reflexivity.
Qed.

Lemma ihdr_chunk_payload_witness :
  ihdr_data 48 72 = Ok (be_bytes 4 48 ++ be_bytes 4 72 ++ [x08; x02; x00; x00; x00])
  /\ map byte_to_Z (be_bytes 4 48 ++ be_bytes 4 72 ++ [x08; x02; x00; x00; x00])
     = [0; 0; 0; 48; 0; 0; 0; 72; 8; 2; 0; 0; 0].
Proof.
  split; [|vm_compute; reflexivity].
  apply (ihdr_chunk_payload (H := zlib_stored) 48 72); lia.
Defined.

(** ** C6 *)

(** C6.  For a valid input (a width and a height between 1 and
    [2^32 - 1], colour channels in [0, 255], compressed scanlines shorter
    than [2^32] bytes) the stream [create_png] writes is the 8-byte
    signature 89 50 4E 47 0D 0A 1A 0A, then the IHDR chunk, then the IDAT
    chunk, and last the IEND chunk, whose payload is empty. *)
Theorem png_stream_structure `{Zlib} (w h r g b : Z) :
  1 <= w < 2 ^ 32 -> 1 <= h < 2 ^ 32 ->
  0 <= r <= 255 -> 0 <= g <= 255 -> 0 <= b <= 255 ->
  Z.of_nat (length (zlib_compress (scanlines w h r g b))) < 2 ^ 32 ->
  exists s,
    (forall filepath,
        create_png w h (PyInt r, PyInt g, PyInt b) filepath
        = MakeDirs (dirname filepath) true (WriteFile filepath s (Return tt)))
    /\ s = signature
           ++ chunk_layout (list_byte_of_string "IHDR") (ihdr_payload w h)
           ++ chunk_layout (list_byte_of_string "IDAT") (zlib_compress (scanlines w h r g b))
           ++ chunk_layout (list_byte_of_string "IEND") []
    /\ map byte_to_Z (take 8 s) = [0x89; 0x50; 0x4E; 0x47; 0x0D; 0x0A; 0x1A; 0x0A]
    /\ map byte_to_Z (take 4 (drop 12 s)) = [73; 72; 68; 82]
    /\ map byte_to_Z (drop (length s - 12) s) = [0; 0; 0; 0; 73; 69; 78; 68; 174; 66; 96; 130].
Proof.
  intros Hw Hh Hr Hg Hb Hz. exists (png_stream w h r g b).
  split; [intros filepath; rewrite create_png_eq, png_bytes_ok by lia; reflexivity|].
  split; [reflexivity|].
  split; [reflexivity|].
  split.
  - unfold png_stream, chunk_layout. rewrite (be_bytes_4 (Z.of_nat (length (ihdr_payload w h)))).
    reflexivity.
  - unfold png_stream. rewrite !app_assoc.
    set (pre := ((signature ++ _) ++ _)).
    set (iend := chunk_layout _ []).
    assert (length iend = 12%nat) as Hl by reflexivity.
    rewrite length_app, Hl.
    replace (length pre + 12 - 12)%nat with (length pre) by lia.
    rewrite drop_app_length. vm_compute. reflexivity.
Qed.

Lemma png_stream_structure_witness :
  exists s,
    (forall filepath,
        create_png (H := zlib_stored) 1 1 (PyInt 0, PyInt 0, PyInt 0) filepath
        = MakeDirs (dirname filepath) true (WriteFile filepath s (Return tt)))
    /\ map byte_to_Z s
       = [137; 80; 78; 71; 13; 10; 26; 10;
          0; 0; 0; 13; 73; 72; 68; 82; 0; 0; 0; 1; 0; 0; 0; 1; 8; 2; 0; 0; 0;
          144; 119; 83; 222;
          0; 0; 0; 15; 73; 68; 65; 84;
          120; 1; 1; 4; 0; 251; 255; 0; 0; 0; 0; 0; 4; 0; 1; 101; 73; 195; 96;
          0; 0; 0; 0; 73; 69; 78; 68; 174; 66; 96; 130].
Proof.
  destruct (png_stream_structure (H := zlib_stored) 1 1 0 0 0) as (s & Hc & Hs & _);
    try lia; [vm_compute; reflexivity|].
  exists s. split; [exact Hc|]. rewrite Hs. vm_compute. reflexivity.
Defined.

(** ** C7 *)



(** ** C8 *)

Lemma run_create_png_ok `{Zlib} (w h : Z) (c : color) (path : string) (w1 w1' : world) :
  run (create_png w h c path) w1 = (Ok tt, w1') ->
  exists data, png_bytes w h c = Ok data /\ read_file w1' path = Some data.
Proof.
  rewrite create_png_eq. destruct (png_bytes w h c) as [data|e]; [|discriminate].
  cbn [run]. intros Hr.
  destruct (do_makedirs (dirname path) true w1) as [w2|] eqn:Em; [|discriminate].
  destruct (do_write_file path data w2) as [w3|] eqn:Ew; [|discriminate].
  injection Hr as <-.
  apply do_write_file_inv in Ew as (_ & _ & _ & _ & _ & ->).
  exists data. split; [reflexivity|].
  unfold read_file. cbn [nodes cwd]. rewrite lookup_insert_eq. reflexivity.
Qed.

(** C8.  The bytes [create_png] writes depend on the width, the height and
    the colour only: two calls with the same three arguments that both
    succeed, at whatever paths and in whatever states of the file system,
    leave files with the same bytes.  And the generator can be run again:
    after a run of [main] that succeeded, a second run in the world the
    first one left succeeds too and leaves every file and directory as it
    found them. *)
Theorem generator_deterministic `{Zlib} :
  (forall w h c p1 p2 w1 w2 w1' w2',
      run (create_png w h c p1) w1 = (Ok tt, w1') ->
      run (create_png w h c p2) w2 = (Ok tt, w2') ->
      exists data, read_file w1' p1 = Some data /\ read_file w2' p2 = Some data)
  /\ (forall file w w1,
        run (main file) w = (Ok tt, w1) ->
        exists w2, run (main file) w1 = (Ok tt, w2) /\ nodes w2 = nodes w1).
Proof.
  split.
  - intros w h c p1 p2 w1 w2 w1' w2' H1 H2.
    apply run_create_png_ok in H1 as (d1 & E1 & R1).
    apply run_create_png_ok in H2 as (d2 & E2 & R2).
    exists d1. split; [assumption|]. congruence.
  - intros file w w1 Hr.
    destruct (run_again (main file) w tt w1 w1 (exist_ok_main file) Hr)
      as (w2 & Hr2 & Hn & _).
    + apply (run_cwd _ _ _ _ Hr).
    + intros k. apply same_kind_refl.
    + reflexivity.
    + exists w2. split; assumption.
Qed.

Lemma run_pair {A : Type} (p : prog A) (w : world) (a : A) :
  fst (run p w) = Ok a -> run p w = (Ok a, snd (run p w)).
Proof. destruct (run p w) as [r w']. cbn. intros ->. reflexivity. Qed.

Lemma generator_deterministic_witness :
  (exists data,
      read_file (snd (run (create_png (H := zlib_stored) 1 1 teal "/a/x.png") empty_world))
        "/a/x.png" = Some data
      /\ read_file (snd (run (create_png (H := zlib_stored) 1 1 teal "icons/y.png")
                           (World "/b" {[ ["b"] := Dir ]} ["earlier output"])))
           "icons/y.png" = Some data)
  /\ exists w1 w2,
      run (main (H := zlib_stored) "/home/dev/calorie_tracker/scripts/generate_icons.py")
        empty_world = (Ok tt, w1)
      /\ run (main (H := zlib_stored) "/home/dev/calorie_tracker/scripts/generate_icons.py") w1
         = (Ok tt, w2)
      /\ nodes w2 = nodes w1.
Proof.
  pose proof (generator_deterministic (H := zlib_stored)) as [Ha Hb].
  split.
  - apply (Ha 1 1 teal "/a/x.png" "icons/y.png" empty_world
              (World "/b" {[ ["b"] := Dir ]} ["earlier output"])).
    + apply run_pair. vm_compute. reflexivity.
    + apply run_pair. vm_compute. reflexivity.
  - assert (fst (run (main (H := zlib_stored)
                        "/home/dev/calorie_tracker/scripts/generate_icons.py") empty_world)
            = Ok tt) as Hrun.
    { rewrite run_main. unfold main_sequence.
      rewrite !create_png_eq.
      rewrite !png_bytes_ok; try lia; vm_compute; reflexivity. }
    apply run_pair in Hrun.
    destruct (Hb _ _ _ Hrun) as (w2 & H2 & Hn).
    eexists. exists w2. split; [exact Hrun|]. split; assumption.
Defined.

(** ** C9 *)

(** What [create_png] does with a file name that has no directory part:
    [os.path.dirname] gives the empty string, and [os.makedirs] of the
    empty string raises [FileNotFoundError]. *)
Lemma run_create_png_no_directory `{Zlib} (w h : Z) (c : color) (filepath : string)
    (data : bytes) (world : world) :
  dirname filepath = "" ->
  png_bytes w h c = Ok data ->
  run (create_png w h c filepath) world = (Err FileNotFoundError, world).
Proof.
  intros Hd Hp. rewrite create_png_eq, Hp, Hd. reflexivity.
Qed.

(** C9 at a file name without directory part.  In a working directory
    that exists, [create_png] called with ["icon.png"] does not get as far
    as the write: ensuring that the directory exists raises
    [FileNotFoundError], although nothing is missing, and the file system
    is left as it was. *)
Theorem create_png_bare_filename_fails :
  let world :=
    World "/home/dev/app"
      {[ ["home"] := Dir; ["home"; "dev"] := Dir; ["home"; "dev"; "app"] := Dir ]} [] in
  is_dir world "/home/dev/app" = true
  /\ dirname "icon.png" = ""
  /\ run (create_png (H := zlib_stored) 1 1 (PyInt 0, PyInt 0, PyInt 0) "icon.png") world
     = (Err FileNotFoundError, world).
Proof.
  intros world. split; [vm_compute; reflexivity|]. split; [reflexivity|].
  apply (run_create_png_no_directory (H := zlib_stored) 1 1 _ _
           (png_stream (H := zlib_stored) 1 1 0 0 0)); [reflexivity|].
  apply png_bytes_ok; try lia. vm_compute. reflexivity.
Qed.


(** ** C10 *)

Lemma raw_scanlines_error (w h : Z) (r g b : pyobj) (e : exn) :
  1 <= w -> 1 <= h -> py_bytes [r; g; b] = Err e ->
  raw_scanlines w h r g b = Err e.
Proof.
  intros Hw Hh He. unfold raw_scanlines, for_range.
  destruct (Z.to_nat h) as [|n] eqn:En; [lia|].
  destruct (Z.to_nat w) as [|m] eqn:Em; [lia|].
  cbn [repeat_body]. rewrite He. reflexivity.
Qed.

Lemma py_bytes_color_error (r g b : pyobj) (e : exn) :
  color_error (r, g, b) = Some e -> py_bytes [r; g; b] = Err e.
Proof.
  unfold color_error, component_error, py_bytes, byte_of_pyobj.
  destruct r as [r|]; [|intros [= <-]; reflexivity].
  replace (r <? 256) with (r <=? 255) by lia.
  destruct ((0 <=? r) && (r <=? 255)); [|intros [= <-]; reflexivity].
  rewrite ok_bind.
  destruct g as [g|]; [|intros [= <-]; reflexivity].
  replace (g <? 256) with (g <=? 255) by lia.
  destruct ((0 <=? g) && (g <=? 255)); [|intros [= <-]; reflexivity].
  rewrite ok_bind.
  destruct b as [b|]; [|intros [= <-]; reflexivity].
  replace (b <? 256) with (b <=? 255) by lia.
  destruct ((0 <=? b) && (b <=? 255)); [discriminate|intros [= <-]; reflexivity].
Qed.

Lemma color_error_invalid (c : color) :
  valid_color c = false ->
  exists e, color_error c = Some e /\ (e = ValueError \/ e = TypeError).
Proof.
  destruct c as [[r g] b]. unfold valid_color, color_error, valid_component, component_error.
  destruct r as [r|]; [|intros _; exists TypeError; split; [reflexivity|right; reflexivity]].
  destruct ((0 <=? r) && (r <=? 255));
    [|intros _; exists ValueError; split; [reflexivity|left; reflexivity]].
  destruct g as [g|]; [|intros _; exists TypeError; split; [reflexivity|right; reflexivity]].
  destruct ((0 <=? g) && (g <=? 255));
    [|intros _; exists ValueError; split; [reflexivity|left; reflexivity]].
  destruct b as [b|]; [|intros _; exists TypeError; split; [reflexivity|right; reflexivity]].
  destruct ((0 <=? b) && (b <=? 255));
    [discriminate|intros _; exists ValueError; split; [reflexivity|left; reflexivity]].
Qed.

Section ColorErrors.
Context `{Zlib}.

(** C10, as the code has it.  The colour is looked at only where a pixel
    is built.  For a width and a height between 1 and [2^32 - 1], a colour
    with a component outside [0, 255] or not an integer makes the first
    pixel raise, and [create_png] raises before any directory is created
    or file opened; the exception is that of the first offending
    component in the order r, g, b: [TypeError] for an object that is not
    an integer, [ValueError] for an integer outside [0, 255].  When the
    three components are integers in [0, 255] this branch is unreachable:
    building the pixels raises nothing, whatever the width and the
    height. *)
Theorem create_png_color_error (w h : Z) (c : color) (filepath : string) :
  (1 <= w < 2 ^ 32 -> 1 <= h < 2 ^ 32 -> valid_color c = false ->
   exists e,
     color_error c = Some e
     /\ (e = ValueError \/ e = TypeError)
     /\ py_bytes [fst (fst c); snd (fst c); snd c] = Err e
     /\ raw_scanlines w h (fst (fst c)) (snd (fst c)) (snd c) = Err e
     /\ create_png w h c filepath = Raise e
     /\ forall world, run (create_png w h c filepath) world = (Err e, world))
  /\ (valid_color c = true ->
      color_error c = None
      /\ exists r g b,
          c = (PyInt r, PyInt g, PyInt b)
          /\ py_bytes [PyInt r; PyInt g; PyInt b] = Ok (pixel r g b)
          /\ raw_scanlines w h (PyInt r) (PyInt g) (PyInt b) = Ok (scanlines w h r g b)).
Proof.
  split.
  - intros Hw Hh Hc.
    destruct (color_error_invalid c Hc) as (e & Hce & Hkind).
    destruct c as [[r g] b]. cbn [fst snd].
    pose proof (py_bytes_color_error r g b e Hce) as He.
    pose proof (raw_scanlines_error w h r g b e ltac:(lia) ltac:(lia) He) as Hraw.
    assert (create_png w h (r, g, b) filepath = Raise e) as E.
    { rewrite create_png_eq. unfold png_bytes.
      rewrite ihdr_data_ok, ok_bind by lia.
      rewrite (png_chunk_ok _ (ihdr_payload w h)), ok_bind by (rewrite length_ihdr_payload; lia).
      rewrite Hraw. reflexivity. }
    exists e. repeat (split; [assumption|]).
    intros world. rewrite E. reflexivity.
  - intros Hc. pose proof Hc as (r & g & b & -> & Hr & Hg & Hb)%valid_color_inv.
    split.
    + unfold valid_color, valid_component in Hc. unfold color_error, component_error.
      destruct ((0 <=? r) && (r <=? 255)); [|discriminate].
      destruct ((0 <=? g) && (g <=? 255)); [|discriminate].
      destruct ((0 <=? b) && (b <=? 255)); [reflexivity|discriminate].
    + exists r, g, b. split; [reflexivity|].
      split; [apply py_bytes_pixel; assumption|apply raw_scanlines_ok; assumption].
Qed.

End ColorErrors.

Lemma create_png_color_error_witness :
  (exists e,
      color_error (PyInt 0, PyInt 256, PyNonInt) = Some e
      /\ (e = ValueError \/ e = TypeError)
      /\ py_bytes [PyInt 0; PyInt 256; PyNonInt] = Err e
      /\ raw_scanlines 48 48 (PyInt 0) (PyInt 256) PyNonInt = Err e
      /\ create_png (H := zlib_stored) 48 48 (PyInt 0, PyInt 256, PyNonInt) "/out/icon.png"
         = Raise e
      /\ forall world,
          run (create_png (H := zlib_stored) 48 48 (PyInt 0, PyInt 256, PyNonInt)
                 "/out/icon.png") world = (Err e, world))
  /\ color_error teal = None
  /\ exists r g b,
      teal = (PyInt r, PyInt g, PyInt b)
      /\ py_bytes [PyInt r; PyInt g; PyInt b] = Ok (pixel r g b)
      /\ raw_scanlines 48 48 (PyInt r) (PyInt g) (PyInt b) = Ok (scanlines 48 48 r g b).
Proof.
  split.
  - apply (proj1 (create_png_color_error (H := zlib_stored) 48 48
                    (PyInt 0, PyInt 256, PyNonInt) "/out/icon.png"));
      [lia|lia|reflexivity].
  - apply (proj2 (create_png_color_error (H := zlib_stored) 48 48 teal "/out/icon.png")).
    reflexivity.
Defined.

(** C10 fails as stated: with a height of 0 no pixel is built, and a
    colour with a non-integer and two out-of-range components goes
    unnoticed; [create_png] raises nothing and writes the file. *)
Lemma create_png_bad_color_unnoticed :
  valid_color (PyNonInt, PyInt 300, PyInt (-1)) = false
  /\ fst (run (create_png (H := zlib_stored) 2 0 (PyNonInt, PyInt 300, PyInt (-1))
                "/out/icon.png") empty_world) = Ok tt
  /\ option_map (map byte_to_Z)
       (read_file (snd (run (create_png (H := zlib_stored) 2 0
                               (PyNonInt, PyInt 300, PyInt (-1)) "/out/icon.png")
                          empty_world))
          "/out/icon.png")
     = Some [137; 80; 78; 71; 13; 10; 26; 10;
             0; 0; 0; 13; 73; 72; 68; 82; 0; 0; 0; 2; 0; 0; 0; 0; 8; 2; 0; 0; 0;
             176; 28; 59; 120;
             0; 0; 0; 11; 73; 68; 65; 84; 120; 1; 1; 0; 0; 255; 255; 0; 0; 0; 1;
             137; 214; 174; 95;
             0; 0; 0; 0; 73; 69; 78; 68; 174; 66; 96; 130].
Proof. vm_compute. repeat split; reflexivity. Qed.

(** * Further properties of the script *)

(** ** [png_chunk] *)

Lemma length_chunk_layout (chunk_type data : bytes) :
  length (chunk_layout chunk_type data)
  = (length chunk_type + length data + 8)%nat.
Proof. unfold chunk_layout. rewrite !length_app, !length_be_bytes. lia. Qed.

(** X1.  [png_chunk] raises exactly when the payload is [2^32] bytes or more,
    and the exception is [struct.error]; otherwise the chunk is eight
    bytes longer than type and payload together. *)
Theorem png_chunk_total (chunk_type data : bytes) :
  (2 ^ 32 <= Z.of_nat (length data) -> png_chunk chunk_type data = Err StructError)
  /\ (Z.of_nat (length data) < 2 ^ 32 ->
      exists c, png_chunk chunk_type data = Ok c
                /\ length c = (length chunk_type + length data + 8)%nat).
Proof.
  split.
  - apply png_chunk_err.
  - intros Hlen. exists (chunk_layout chunk_type data).
    split; [apply png_chunk_ok; assumption|apply length_chunk_layout].
Qed.

Lemma png_chunk_total_witness :
  exists c, png_chunk (list_byte_of_string "IDAT") [x78; x01] = Ok c
            /\ length c = (length (list_byte_of_string "IDAT") + length [x78; x01] + 8)%nat.
Proof.
  apply (proj2 (png_chunk_total (list_byte_of_string "IDAT") [x78; x01])).
  vm_compute. reflexivity.
Defined.

(** X2.  The mask [& 0xffffffff] that [png_chunk] applies to [zlib.crc32] never
    changes the value: the checksum is a 32-bit unsigned number already. *)
Theorem crc32_mask_is_identity (chunk_type data : bytes) :
  0 <= crc32 (chunk_type ++ data) < 2 ^ 32
  /\ Z.land (crc32 (chunk_type ++ data)) 0xffffffff = crc32 (chunk_type ++ data).
Proof. split; [apply crc32_range|apply crc32_masked]. Qed.

(** ** The size and the chunks of the file *)

Section FileShape.
Context `{Zlib}.

(** X3.  A file that [create_png] writes is 57 bytes longer than the compressed
    scanlines: 8 of signature, 25 of IHDR, 12 of IEND and the 12 that
    frame IDAT. *)
Theorem png_bytes_length (w h : Z) (r g b : pyobj) (s : bytes) :
  png_bytes w h (r, g, b) = Ok s ->
  exists raw,
    raw_scanlines w h r g b = Ok raw
    /\ length s = (57 + length (zlib_compress raw))%nat.
Proof.
  intros Hs. apply png_bytes_inv in Hs as (raw & Hraw & _ & _ & _ & ->).
  exists raw. split; [assumption|].
  rewrite !length_app, !length_chunk_layout, length_ihdr_payload.
  cbn [signature length list_byte_of_string]. change (length (list_byte_of_string _)) with 4%nat.
  lia.
Qed.

(** X4.  Walking the chunks of a stream that [create_png] writes, checking
    every CRC, finds the three chunks IHDR, IDAT and IEND and nothing
    else. *)
Theorem png_bytes_chunks (w h : Z) (r g b : pyobj) (s : bytes) :
  png_bytes w h (r, g, b) = Ok s ->
  forall raw, raw_scanlines w h r g b = Ok raw ->
  Z.of_nat (length (zlib_compress raw)) <= 2 ^ 31 - 1 ->
  take 8 s = signature
  /\ parse_chunks (length s) (drop 8 s)
     = Some [ Chunk (list_byte_of_string "IHDR") (ihdr_payload w h);
              Chunk (list_byte_of_string "IDAT") (zlib_compress raw);
              Chunk (list_byte_of_string "IEND") [] ].
Proof.
  intros Hs raw Hraw Hz.
  apply png_bytes_inv in Hs as (raw' & Hraw' & _ & _ & _ & ->).
  rewrite Hraw in Hraw'. injection Hraw' as <-.
  split; [reflexivity|].
  change (drop 8 (signature ++ ?x)) with x.
  set (s := signature ++ _).
  assert (exists fuel, length s = S (S (S (S fuel)))) as [fuel ->].
  { unfold s. rewrite !length_app, !length_chunk_layout. cbn [signature length].
    eexists. rewrite !Nat.add_succ_l. rewrite <- !plus_n_Sm. reflexivity. }
  clear s.
  change (list_byte_of_string "IHDR") with [x49; x48; x44; x52].
  change (list_byte_of_string "IDAT") with [x49; x44; x41; x54].
  change (list_byte_of_string "IEND") with [x49; x45; x4e; x44].
  rewrite parse_chunks_layout by (rewrite length_ihdr_payload; lia).
  rewrite parse_chunks_layout by assumption.
  rewrite <- (app_nil_r (chunk_layout [x49; x45; x4e; x44] [])).
  rewrite parse_chunks_layout by (change (length (@nil byte)) with O; lia).
  reflexivity.
Qed.

End FileShape.

Lemma png_bytes_length_witness :
  exists raw,
    raw_scanlines 1 1 (PyInt 0) (PyInt 0) (PyInt 0) = Ok raw
    /\ length (png_stream (H := zlib_stored) 1 1 0 0 0)
       = (57 + length (zlib_compress (Zlib := zlib_stored) raw))%nat.
Proof.
  apply (png_bytes_length (H := zlib_stored) 1 1 (PyInt 0) (PyInt 0) (PyInt 0)).
  vm_compute. reflexivity.
Defined.

Lemma png_bytes_chunks_witness :
  take 8 (png_stream (H := zlib_stored) 1 1 0 0 0) = signature
  /\ parse_chunks (length (png_stream (H := zlib_stored) 1 1 0 0 0))
       (drop 8 (png_stream (H := zlib_stored) 1 1 0 0 0))
     = Some [ Chunk (list_byte_of_string "IHDR") (ihdr_payload 1 1);
              Chunk (list_byte_of_string "IDAT")
                (zlib_compress (Zlib := zlib_stored) [x00; x00; x00; x00]);
              Chunk (list_byte_of_string "IEND") [] ].
Proof.
  apply (png_bytes_chunks (H := zlib_stored) 1 1 (PyInt 0) (PyInt 0) (PyInt 0)).
  - vm_compute. reflexivity.
  - vm_compute. reflexivity.
  - vm_compute. discriminate.
Defined.

(** ** Dimensions *)

Section Dimensions.
Context `{Zlib}.

(** X5.  A width or a height outside [0, 2^32 - 1] makes [create_png] raise
    [struct.error] before it looks at the colour and before it touches the
    file system; with both inside that range it never raises
    [struct.error] unless the compressed data is [2^32] bytes or more. *)
Theorem create_png_dimension_range (w h : Z) (c : color) (filepath : string) :
  (~ (0 <= w < 2 ^ 32 /\ 0 <= h < 2 ^ 32) ->
   create_png w h c filepath = Raise StructError)
  /\ (0 <= w < 2 ^ 32 -> 0 <= h < 2 ^ 32 ->
      forall raw,
        raw_scanlines w h (fst (fst c)) (snd (fst c)) (snd c) = Ok raw ->
        Z.of_nat (length (zlib_compress raw)) < 2 ^ 32 ->
        exists data,
          create_png w h c filepath
          = MakeDirs (dirname filepath) true (WriteFile filepath data (Return tt))).
Proof.
  destruct c as [[r g] b]. cbn [fst snd]. split.
  - intros Hout. rewrite create_png_eq. unfold png_bytes.
    rewrite ihdr_data_err by lia. reflexivity.
  - intros Hw Hh raw Hraw Hz. rewrite create_png_eq. unfold png_bytes.
    rewrite ihdr_data_ok, ok_bind by assumption.
    rewrite (png_chunk_ok _ (ihdr_payload w h)), ok_bind by (rewrite length_ihdr_payload; lia).
    rewrite Hraw, ok_bind.
    rewrite (png_chunk_ok _ (zlib_compress _)), ok_bind by assumption.
    rewrite (png_chunk_ok _ []), ok_bind by (change (length (@nil byte)) with O; lia).
    eexists. reflexivity.
Qed.

(** X6.  With a width or a height of zero the file that [create_png] writes is
    not a PNG image: the reference decoder refuses it, whatever the
    colour and the compressed data. *)
Theorem create_png_zero_dimension_invalid (w h : Z) (c : color) (s : bytes) :
  w = 0 \/ h = 0 ->
  png_bytes w h c = Ok s ->
  decode s = None.
Proof.
  intros Hzero Hs. destruct c as [[r g] b].
  apply png_bytes_inv in Hs as (raw & _ & Hw & Hh & _ & ->).
  unfold decode.
  change (take 8 (signature ++ ?x)) with signature.
  change (drop 8 (signature ++ ?x)) with x.
  unfold bytes_eqb at 1. rewrite bool_decide_eq_true_2 by reflexivity. cbn [negb].
  set (s := signature ++ _).
  assert (exists fuel, length s = S fuel) as [fuel ->] by (eexists; reflexivity).
  clear s.
  change (list_byte_of_string "IHDR") with [x49; x48; x44; x52].
  rewrite parse_chunks_layout by (rewrite length_ihdr_payload; lia).
  destruct (parse_chunks fuel _) as [cs|]; [|reflexivity].
  rewrite !some_bind.
  unfold bytes_eqb at 1. rewrite bool_decide_eq_true_2 by reflexivity. cbn [negb].
  replace (parse_ihdr (ihdr_payload w h)) with (@None header); [reflexivity|].
  unfold ihdr_payload. rewrite !be_bytes_4. cbn [app parse_ihdr].
  rewrite <- !be_bytes_4, !be_value_be_bytes_4 by lia.
  destruct Hzero as [-> | ->].
  - reflexivity.
  - destruct (1 <=? w), (w <=? 2 ^ 31 - 1); reflexivity.
Qed.

End Dimensions.

Lemma create_png_dimension_range_witness :
  create_png (H := zlib_stored) 4294967296 48 (PyNonInt, PyInt 0, PyInt 0) "/out/icon.png"
  = Raise StructError
  /\ exists data,
      create_png (H := zlib_stored) 1 1 teal "/out/icon.png"
      = MakeDirs (dirname "/out/icon.png") true (WriteFile "/out/icon.png" data (Return tt)).
Proof.
  split.
  - apply (proj1 (create_png_dimension_range (H := zlib_stored) 4294967296 48
                    (PyNonInt, PyInt 0, PyInt 0) "/out/icon.png")). lia.
  - apply (proj2 (create_png_dimension_range (H := zlib_stored) 1 1 teal "/out/icon.png")
             ltac:(lia) ltac:(lia) [x00; x00; x96; x88]).
    + vm_compute. reflexivity.
    + vm_compute. reflexivity.
Defined.

Lemma create_png_zero_dimension_invalid_witness :
  decode (H := zlib_stored)
    (signature
     ++ chunk_layout (list_byte_of_string "IHDR") (ihdr_payload 0 1)
     ++ chunk_layout (list_byte_of_string "IDAT") (zlib_compress (Zlib := zlib_stored) [x00])
     ++ chunk_layout (list_byte_of_string "IEND") [])
  = None.
Proof.
  apply (create_png_zero_dimension_invalid (H := zlib_stored) 0 1 teal).
  - left. reflexivity.
  - vm_compute. reflexivity.
Defined.

(** ** What [create_png] does to the file system *)

Lemma walk_step_plain (at_ : list string) (f : string) :
  plain_component f -> walk_step at_ f = at_ ++ [f].
Proof.
  intros (_ & H1 & H2 & H3). unfold walk_step.
  rewrite bool_decide_eq_false_2 by (intros [?|?]; congruence).
  rewrite bool_decide_eq_false_2 by assumption. reflexivity.
Qed.

(** The node of [p/f] is the child [f] of the node of [p]. *)
Lemma locate_app (c p f : string) :
  p <> "" -> plain_component f ->
  locate c (p +:+ "/" +:+ f) = locate c p ++ [f].
Proof.
  intros Hp Hf. unfold locate.
  rewrite isabs_app, split_sep_app, fold_left_app by assumption.
  rewrite (split_sep_component f) by apply Hf.
  cbn [fold_left]. apply walk_step_plain. assumption.
Qed.

Lemma node_at_mkdir_p (k : list string) (m m' : gmap (list string) node) :
  mkdir_p [] k m = Ok m' -> node_at m' k = Some Dir.
Proof.
  intros Hm. destruct k as [|c k]; [reflexivity|].
  cbn [node_at].
  pose proof (mkdir_p_dirs _ [] _ _ (length (c :: k)) Hm) as Hd.
  rewrite firstn_all in Hd. apply Hd. cbn [length]. lia.
Qed.

Section FileSystem.
Context `{Zlib}.

Lemma run_create_png_stdout (w h : Z) (c : color) (filepath : string)
    (world world' : world) (r : result unit) :
  run (create_png w h c filepath) world = (r, world') -> stdout world' = stdout world.
Proof.
  rewrite create_png_eq. destruct (png_bytes w h c) as [data|e'].
  - cbn [run]. destruct (do_makedirs _ _ world) as [w1|e1] eqn:Em.
    + apply do_makedirs_inv in Em as (_ & m & Hm & ->).
      destruct (do_write_file _ _ _) as [w2|e2] eqn:Ew.
      * apply do_write_file_inv in Ew as (_ & _ & _ & _ & _ & ->).
        intros [= _ <-]. reflexivity.
      * intros [= _ <-]. reflexivity.
    + intros [= _ <-]. reflexivity.
  - cbn [run]. intros [= _ <-]. reflexivity.
Qed.

Lemma run_create_png_frame (w h : Z) (c : color) (filepath : string)
    (world world' : world) :
  run (create_png w h c filepath) world = (Ok tt, world') ->
  forall k, k <> locate (cwd world) filepath ->
    (forall v, nodes world !! k = Some v -> nodes world' !! k = Some v)
    /\ (forall d, nodes world' !! k = Some (File d) -> nodes world !! k = Some (File d)).
Proof.
  rewrite create_png_eq. destruct (png_bytes w h c) as [data|e']; [|discriminate].
  cbn [run]. destruct (do_makedirs _ _ world) as [w1|e1] eqn:Em; [|discriminate].
  destruct (do_write_file _ _ w1) as [w2|e2] eqn:Ew; [|discriminate].
  intros [= <-].
  apply do_makedirs_inv in Em as (_ & m & Hm & ->).
  apply do_write_file_inv in Ew as (_ & _ & _ & _ & _ & ->). cbn [cwd nodes stdout].
  intros k Hk. split.
  - intros v Hv. rewrite lookup_insert_ne by congruence.
    apply (mkdir_p_preserves _ _ _ _ _ _ Hm Hv).
  - intros d. rewrite lookup_insert_ne by congruence.
    apply (mkdir_p_files _ _ _ _ _ _ Hm).
Qed.

(** X8.  What [# Ensure directory exists] and the write achieve: after a
    call of [create_png] that returns, the directory part of the path is
    not empty and names a directory, and the file holds the bytes that
    [create_png] computed. *)
Theorem create_png_ensures_directory (w h : Z) (c : color) (filepath : string)
    (world world' : world) :
  run (create_png w h c filepath) world = (Ok tt, world') ->
  dirname filepath <> ""
  /\ is_dir world' (dirname filepath) = true
  /\ exists data, png_bytes w h c = Ok data /\ read_file world' filepath = Some data.
Proof.
  rewrite create_png_eq. destruct (png_bytes w h c) as [data|e']; [|discriminate].
  cbn [run]. destruct (do_makedirs _ _ world) as [w1|e1] eqn:Em; [|discriminate].
  destruct (do_write_file _ _ w1) as [w2|e2] eqn:Ew; [|discriminate].
  intros [= <-].
  apply do_makedirs_inv in Em as (Hname & m & Hm & ->).
  apply do_write_file_inv in Ew as (_ & _ & _ & Hnd & _ & ->). cbn [cwd nodes stdout] in *.
  split; [assumption|]. split.
  - unfold is_dir. cbn [cwd nodes]. rewrite bool_decide_eq_true_2 by assumption.
    pose proof (node_at_mkdir_p _ _ _ Hm) as Hd. cbn [andb].
    destruct (locate (cwd world) (dirname filepath)) as [|k0 K0] eqn:EK; [reflexivity|].
    cbn [node_at] in *. rewrite lookup_insert_ne, Hd; [reflexivity|].
    intros E. rewrite E in Hnd. contradiction.
  - exists data. split; [reflexivity|].
    unfold read_file. cbn [cwd nodes]. rewrite lookup_insert_eq. reflexivity.
Qed.

(** X9.  A call of [create_png] that succeeds changes one file, its target:
    every other entry that existed is as it was, and no other file has
    appeared; the output stream is untouched. *)
Theorem create_png_success_frame (w h : Z) (c : color) (filepath : string)
    (world world' : world) :
  run (create_png w h c filepath) world = (Ok tt, world') ->
  stdout world' = stdout world
  /\ forall k, k <> locate (cwd world) filepath ->
       (forall v, nodes world !! k = Some v -> nodes world' !! k = Some v)
       /\ (forall d, nodes world' !! k = Some (File d) -> nodes world !! k = Some (File d)).
Proof.
  intros Hrun. split.
  - apply (run_create_png_stdout _ _ _ _ _ _ _ Hrun).
  - apply (run_create_png_frame _ _ _ _ _ _ Hrun).
Qed.

End FileSystem.

Lemma create_png_ensures_directory_witness :
  dirname "/out/icons/icon.png" <> ""
  /\ is_dir (snd (run (create_png (H := zlib_stored) 1 1 teal "/out/icons/icon.png")
                    empty_world))
       (dirname "/out/icons/icon.png") = true
  /\ exists data,
      png_bytes (H := zlib_stored) 1 1 teal = Ok data
      /\ read_file (snd (run (create_png (H := zlib_stored) 1 1 teal "/out/icons/icon.png")
                           empty_world))
           "/out/icons/icon.png" = Some data.
Proof.
  apply (create_png_ensures_directory (H := zlib_stored) 1 1 teal "/out/icons/icon.png"
           empty_world).
  apply run_pair. vm_compute. reflexivity.
Defined.

Lemma create_png_success_frame_witness :
  stdout (snd (run (create_png (H := zlib_stored) 1 1 teal "/out/icon.png") empty_world))
  = stdout empty_world.
Proof.
  apply (create_png_success_frame (H := zlib_stored) 1 1 teal "/out/icon.png" empty_world).
  apply run_pair. vm_compute. reflexivity.
Defined.

(** ** The paths and the output of [main] *)

Lemma has_sep_app (a b : string) : has_sep (a +:+ b) = has_sep a || has_sep b.
Proof.
  induction a as [|c a IH]; [reflexivity|].
  rewrite append_cons. cbn [has_sep]. rewrite IH, orb_assoc. reflexivity.
Qed.

Lemma cut_last_sep_head (p : string) :
  has_sep p = true -> fst (cut_last_sep p) <> "".
Proof.
  induction p as [|c p IH]; cbn [has_sep cut_last_sep]; [discriminate|].
  destruct (cut_last_sep p) as [[|h0 h] t] eqn:E; cbn [fst] in *.
  - destruct (is_sep c) eqn:Ec; cbn [orb fst]; [discriminate|].
    intros Hp. apply IH in Hp. congruence.
  - intros _. discriminate.
Qed.

Lemma rstrip_sep_empty (p : string) : rstrip_sep p = "" -> all_sep p = true.
Proof.
  induction p as [|c p IH]; [reflexivity|].
  cbn [rstrip_sep all_sep]. destruct (rstrip_sep p) eqn:E; [|discriminate].
  destruct (is_sep c); [|discriminate]. intros _. apply IH. reflexivity.
Qed.

(** A path with a separator has a directory name. *)
Lemma dirname_nonempty (p : string) : has_sep p = true -> dirname p <> "".
Proof.
  intros Hp. unfold dirname. pose proof (cut_last_sep_head p Hp) as Hh.
  destruct (cut_last_sep p) as [h t]. cbn [fst] in Hh.
  destruct (all_sep h) eqn:Ea; [assumption|].
  intros E. apply rstrip_sep_empty in E. congruence.
Qed.

(** X10.  Whatever the project root, every path [main] hands to [create_png]
    has a directory part, so that [os.makedirs] is never called with the
    empty name. *)
Theorem main_paths_have_directory (root : string) (size : Z) (relative_path : string) :
  (size, relative_path) ∈ icons ->
  dirname (join root relative_path) <> "".
Proof.
  intros Hin. apply dirname_nonempty.
  assert (has_sep relative_path = true /\ isabs relative_path = false) as [Hs Ha].
  { unfold icons in Hin. repeat (apply elem_of_cons in Hin as [[= -> ->]|Hin]; [split; reflexivity|]).
    apply elem_of_nil in Hin. contradiction. }
  unfold join. rewrite Ha.
  destruct (_ || _); rewrite !has_sep_app, Hs, ?orb_true_r; reflexivity.
Qed.

Lemma main_paths_have_directory_witness :
  dirname (join "" "android/app/src/main/res/mipmap-mdpi/ic_launcher.png") <> "".
Proof.
  apply (main_paths_have_directory "" 48). apply list_elem_of_here.
Defined.

(** ** The output of [main] *)

Lemma run_print (line : string) (w : world) : run (print line) w = (Ok tt, do_print line w).
Proof. reflexivity. Qed.

Lemma run_seq_cons_ok (p : prog unit) (ps : list (prog unit)) (w w' : world) :
  run p w = (Ok tt, w') -> run_seq (p :: ps) w = run_seq ps w'.
Proof. intros Hp. cbn [run_seq]. rewrite Hp. reflexivity. Qed.

Lemma run_seq_cons_err (p : prog unit) (ps : list (prog unit)) (w w' : world) (e : exn) :
  run p w = (Err e, w') -> run_seq (p :: ps) w = (Err e, w').
Proof. intros Hp. cbn [run_seq]. rewrite Hp. reflexivity. Qed.

Lemma run_seq_nil (w : world) : run_seq [] w = (Ok tt, w).
Proof. reflexivity. Qed.

(** A program followed by a progress line: either the program fails and
    the rest is not run, or the rest is run after the line is printed. *)
Lemma run_seq_cons_print (p : prog unit) (line : string) (ps : list (prog unit))
    (w w' : world) (r : result unit) :
  run_seq (p :: print line :: ps) w = (r, w') ->
  (exists e, run p w = (Err e, w') /\ r = Err e)
  \/ (exists w1, run p w = (Ok tt, w1) /\ run_seq ps (do_print line w1) = (r, w')).
Proof.
  destruct (run p w) as [[[]|e] w1] eqn:E.
  - rewrite (run_seq_cons_ok _ _ _ _ E), (run_seq_cons_ok _ _ _ _ (run_print _ _)).
    intros Hr. right. exists w1. split; [reflexivity|assumption].
  - rewrite (run_seq_cons_err _ _ _ _ _ E). intros [= <- <-].
    left. exists e. split; reflexivity.
Qed.

Section MainOutput.
Context `{Zlib}.




End MainOutput.

(** ** The icons after a run of [main] that returns *)

Lemma locate_path_below (c0 : string) (comps : list string) : forall p,
  p <> "" -> Forall plain_component comps ->
  locate c0 (path_below p comps) = locate c0 p ++ comps.
Proof.
  induction comps as [|c comps IH]; intros p Hp Hc; cbn [path_below].
  - rewrite app_nil_r. reflexivity.
  - apply Forall_cons in Hc as [Hc Hcs].
    rewrite IH, locate_app by (try apply append_nonempty; assumption).
    rewrite <- app_assoc. reflexivity.
Qed.

Lemma res_components_plain : Forall plain_component res_components.
Proof. repeat constructor; apply plain_literal; reflexivity. Qed.

(** The path of an icon below the project root [r], for a root that is
    not empty and does not end in a separator. *)
Lemma join_icon_path (r bucket : string) :
  r <> "" -> ends_with_sep r = false ->
  join r ("android/app/src/main/res/" +:+ bucket +:+ "/ic_launcher.png")
  = path_below r (res_components ++ [bucket]) +:+ "/" +:+ "ic_launcher.png".
Proof.
  intros Hr He. unfold join.
  change (isabs _) with false.
  rewrite bool_decide_eq_false_2, He by assumption. cbn [orb].
  cbn [res_components app path_below].
  rewrite !append_assoc. reflexivity.
Qed.

Ltac in_list :=
  solve [repeat first [apply list_elem_of_here | apply list_elem_of_further]
        | apply not_elem_of_nil].

Section IconsWritten.
Context `{Zlib}.

Lemma locate_icon (c0 r bucket : string) :
  r <> "" -> ends_with_sep r = false -> plain_component bucket ->
  locate c0 (join r ("android/app/src/main/res/" +:+ bucket +:+ "/ic_launcher.png"))
  = locate c0 r ++ res_components ++ [bucket; "ic_launcher.png"].
Proof.
  intros Hr He Hb.
  assert (Forall plain_component (res_components ++ [bucket])) as Hplain
    by (apply Forall_app; split;
        [apply res_components_plain|apply Forall_cons; split; [assumption|apply Forall_nil_2]]).
  destruct (path_below_shape _ r Hr He Hplain) as [Hp1 Hp2].
  rewrite join_icon_path, locate_app, locate_path_below by
    (try assumption; apply plain_literal; reflexivity).
  rewrite <- !app_assoc. reflexivity.
Qed.

(** One icon more: a call of the encoder that returns puts its stream at
    the node of its path and leaves the icons written before in place. *)
Lemma icon_written_step (size : Z) (path : string) (K : list string)
    (written : list (list string * bytes)) (w w1 : world) :
  run (create_png size size (PyInt 0, PyInt 150, PyInt 136) path) w = (Ok tt, w1) ->
  locate (cwd w) path = K ->
  (forall k data, (k, data) ∈ written -> nodes w !! k = Some (File data)) ->
  K ∉ written.*1 ->
  cwd w1 = cwd w
  /\ forall k data,
       (k, data) ∈ (K, png_stream size size 0 150 136) :: written ->
       nodes w1 !! k = Some (File data).
Proof.
  intros Hrun HK HW Hnew.
  pose proof (run_cwd _ _ _ _ Hrun) as Hc.
  split; [exact Hc|].
  destruct (run_create_png_ok _ _ _ _ _ _ Hrun) as (data & Hd & Hread).
  apply png_bytes_inv in Hd as (raw & Hraw & _ & _ & _ & ->).
  rewrite raw_scanlines_ok in Hraw by lia. injection Hraw as <-.
  intros k d [[= -> ->]|Hin]%elem_of_cons.
  - unfold read_file in Hread. rewrite Hc, HK in Hread.
    destruct (nodes w1 !! K) as [[|?]|]; [discriminate| |discriminate].
    injection Hread as ->. reflexivity.
  - apply (run_create_png_frame _ _ _ _ _ _ Hrun); [|apply HW; assumption].
    rewrite HK. intros ->. apply Hnew.
    apply list_elem_of_fmap. exists (K, d). split; [reflexivity|assumption].
Qed.

(** X12.  After a run of [main] that returns, for a script whose absolute
    path is [r/d/f], each of the five icon files
    [r/android/app/src/main/res/mipmap-*/ic_launcher.png] holds the PNG
    stream of its size in the colour (0, 150, 136): a later icon does not
    disturb an earlier one. *)
Theorem main_success_leaves_icons (file r d f : string) (world world' : world) :
  script_abspath (cwd world) file = r +:+ "/" +:+ d +:+ "/" +:+ f ->
  r <> "" -> ends_with_sep r = false ->
  d <> "" -> has_sep d = false -> has_sep f = false ->
  run (main file) world = (Ok tt, world') ->
  forall size relative_path,
    (size, relative_path) ∈ icons ->
    read_file world' (r +:+ "/" +:+ relative_path)
    = Some (png_stream size size 0 150 136).
Proof.
  intros Habs Hr He Hd Hsd Hsf.
  rewrite run_main, Habs, dirname_dirname by assumption.
  unfold main_sequence.
  set (c0 := cwd world) in *. set (R := locate c0 r) in *.
  assert (forall b, plain_component b ->
            locate c0 (join r ("android/app/src/main/res/" +:+ b +:+ "/ic_launcher.png"))
            = R ++ res_components ++ [b; "ic_launcher.png"]) as Hloc
    by (intros b Hb; apply locate_icon; assumption).
  rewrite (run_seq_cons_ok _ _ _ _ (run_print _ _)).
  set (w0' := do_print _ world).
  assert (cwd w0' = c0) as C0 by reflexivity.
  assert (forall k data, (k, data) ∈ @nil (list string * bytes) ->
                         nodes w0' !! k = Some (File data)) as I0
    by (intros k data Hin; apply elem_of_nil in Hin; contradiction).
  clearbody w0'.
  intros Hrun.
  apply run_seq_cons_print in Hrun as [(e & _ & [=])|(w1 & R1 & Hrun)].
  assert (locate (cwd w0') (join r "android/app/src/main/res/mipmap-mdpi/ic_launcher.png")
          = R ++ res_components ++ ["mipmap-mdpi"; "ic_launcher.png"]) as K1
    by (rewrite C0; apply (Hloc "mipmap-mdpi"); apply plain_literal; reflexivity).
  match type of I0 with
  | forall k data, (k, data) ∈ ?wr -> _ =>
      assert (R ++ res_components ++ ["mipmap-mdpi"; "ic_launcher.png"] ∉ wr.*1) as N1
  end.
  { cbn [fmap list_fmap fst]. intros Hin.
    repeat (apply elem_of_cons in Hin as [Hin|Hin]; [apply app_inv_head in Hin; discriminate|]).
    apply elem_of_nil in Hin. contradiction. }
  destruct (icon_written_step _ _ _ _ _ _ R1 K1 I0 N1) as [C1' I1'].
  rewrite C0 in C1'. clear K1 N1.
  set (w1' := do_print _ w1) in Hrun.
  assert (cwd w1' = c0) as C1 by exact C1'.
  assert (forall k data, (k, data) ∈ _ -> nodes w1' !! k = Some (File data)) as I1
    by exact I1'.
  clearbody w1'. clear C1' I1'.
  apply run_seq_cons_print in Hrun as [(e & _ & [=])|(w2 & R2 & Hrun)].
  assert (locate (cwd w1') (join r "android/app/src/main/res/mipmap-hdpi/ic_launcher.png")
          = R ++ res_components ++ ["mipmap-hdpi"; "ic_launcher.png"]) as K2
    by (rewrite C1; apply (Hloc "mipmap-hdpi"); apply plain_literal; reflexivity).
  match type of I1 with
  | forall k data, (k, data) ∈ ?wr -> _ =>
      assert (R ++ res_components ++ ["mipmap-hdpi"; "ic_launcher.png"] ∉ wr.*1) as N2
  end.
  { cbn [fmap list_fmap fst]. intros Hin.
    repeat (apply elem_of_cons in Hin as [Hin|Hin]; [apply app_inv_head in Hin; discriminate|]).
    apply elem_of_nil in Hin. contradiction. }
  destruct (icon_written_step _ _ _ _ _ _ R2 K2 I1 N2) as [C2' I2'].
  rewrite C1 in C2'. clear K2 N2.
  set (w2' := do_print _ w2) in Hrun.
  assert (cwd w2' = c0) as C2 by exact C2'.
  assert (forall k data, (k, data) ∈ _ -> nodes w2' !! k = Some (File data)) as I2
    by exact I2'.
  clearbody w2'. clear C2' I2'.
  apply run_seq_cons_print in Hrun as [(e & _ & [=])|(w3 & R3 & Hrun)].
  assert (locate (cwd w2') (join r "android/app/src/main/res/mipmap-xhdpi/ic_launcher.png")
          = R ++ res_components ++ ["mipmap-xhdpi"; "ic_launcher.png"]) as K3
    by (rewrite C2; apply (Hloc "mipmap-xhdpi"); apply plain_literal; reflexivity).
  match type of I2 with
  | forall k data, (k, data) ∈ ?wr -> _ =>
      assert (R ++ res_components ++ ["mipmap-xhdpi"; "ic_launcher.png"] ∉ wr.*1) as N3
  end.
  { cbn [fmap list_fmap fst]. intros Hin.
    repeat (apply elem_of_cons in Hin as [Hin|Hin]; [apply app_inv_head in Hin; discriminate|]).
    apply elem_of_nil in Hin. contradiction. }
  destruct (icon_written_step _ _ _ _ _ _ R3 K3 I2 N3) as [C3' I3'].
  rewrite C2 in C3'. clear K3 N3.
  set (w3' := do_print _ w3) in Hrun.
  assert (cwd w3' = c0) as C3 by exact C3'.
  assert (forall k data, (k, data) ∈ _ -> nodes w3' !! k = Some (File data)) as I3
    by exact I3'.
  clearbody w3'. clear C3' I3'.
  apply run_seq_cons_print in Hrun as [(e & _ & [=])|(w4 & R4 & Hrun)].
  assert (locate (cwd w3') (join r "android/app/src/main/res/mipmap-xxhdpi/ic_launcher.png")
          = R ++ res_components ++ ["mipmap-xxhdpi"; "ic_launcher.png"]) as K4
    by (rewrite C3; apply (Hloc "mipmap-xxhdpi"); apply plain_literal; reflexivity).
  match type of I3 with
  | forall k data, (k, data) ∈ ?wr -> _ =>
      assert (R ++ res_components ++ ["mipmap-xxhdpi"; "ic_launcher.png"] ∉ wr.*1) as N4
  end.
  { cbn [fmap list_fmap fst]. intros Hin.
    repeat (apply elem_of_cons in Hin as [Hin|Hin]; [apply app_inv_head in Hin; discriminate|]).
    apply elem_of_nil in Hin. contradiction. }
  destruct (icon_written_step _ _ _ _ _ _ R4 K4 I3 N4) as [C4' I4'].
  rewrite C3 in C4'. clear K4 N4.
  set (w4' := do_print _ w4) in Hrun.
  assert (cwd w4' = c0) as C4 by exact C4'.
  assert (forall k data, (k, data) ∈ _ -> nodes w4' !! k = Some (File data)) as I4
    by exact I4'.
  clearbody w4'. clear C4' I4'.
  apply run_seq_cons_print in Hrun as [(e & _ & [=])|(w5 & R5 & Hrun)].
  assert (locate (cwd w4') (join r "android/app/src/main/res/mipmap-xxxhdpi/ic_launcher.png")
          = R ++ res_components ++ ["mipmap-xxxhdpi"; "ic_launcher.png"]) as K5
    by (rewrite C4; apply (Hloc "mipmap-xxxhdpi"); apply plain_literal; reflexivity).
  match type of I4 with
  | forall k data, (k, data) ∈ ?wr -> _ =>
      assert (R ++ res_components ++ ["mipmap-xxxhdpi"; "ic_launcher.png"] ∉ wr.*1) as N5
  end.
  { cbn [fmap list_fmap fst]. intros Hin.
    repeat (apply elem_of_cons in Hin as [Hin|Hin]; [apply app_inv_head in Hin; discriminate|]).
    apply elem_of_nil in Hin. contradiction. }
  destruct (icon_written_step _ _ _ _ _ _ R5 K5 I4 N5) as [C5' I5'].
  rewrite C4 in C5'. clear K5 N5.
  set (w5' := do_print _ w5) in Hrun.
  assert (cwd w5' = c0) as C5 by exact C5'.
  assert (forall k data, (k, data) ∈ _ -> nodes w5' !! k = Some (File data)) as I5
    by exact I5'.
  clearbody w5'. clear C5' I5'.
  rewrite !(run_seq_cons_ok _ _ _ _ (run_print _ _)), run_seq_nil in Hrun.
  injection Hrun as <-.
  intros size rel Hin. unfold read_file. cbn [do_print cwd nodes]. rewrite C5.
  rewrite <- (join_relative r rel) by
    (try assumption; unfold icons in Hin;
     repeat (apply elem_of_cons in Hin as [[= -> ->]|Hin]; [reflexivity|]);
     apply elem_of_nil in Hin; contradiction).
  unfold icons in Hin.
  repeat (apply elem_of_cons in Hin as [[= -> ->]|Hin]; [|]).
  6: (apply elem_of_nil in Hin; contradiction).
  - change "android/app/src/main/res/mipmap-mdpi/ic_launcher.png"
      with ("android/app/src/main/res/" +:+ "mipmap-mdpi" +:+ "/ic_launcher.png").
    rewrite (Hloc "mipmap-mdpi") by (apply plain_literal; reflexivity).
    erewrite I5; [reflexivity|]. do 4 apply list_elem_of_further. apply list_elem_of_here.
  - change "android/app/src/main/res/mipmap-hdpi/ic_launcher.png"
      with ("android/app/src/main/res/" +:+ "mipmap-hdpi" +:+ "/ic_launcher.png").
    rewrite (Hloc "mipmap-hdpi") by (apply plain_literal; reflexivity).
    erewrite I5; [reflexivity|]. do 3 apply list_elem_of_further. apply list_elem_of_here.
  - change "android/app/src/main/res/mipmap-xhdpi/ic_launcher.png"
      with ("android/app/src/main/res/" +:+ "mipmap-xhdpi" +:+ "/ic_launcher.png").
    rewrite (Hloc "mipmap-xhdpi") by (apply plain_literal; reflexivity).
    erewrite I5; [reflexivity|]. do 2 apply list_elem_of_further. apply list_elem_of_here.
  - change "android/app/src/main/res/mipmap-xxhdpi/ic_launcher.png"
      with ("android/app/src/main/res/" +:+ "mipmap-xxhdpi" +:+ "/ic_launcher.png").
    rewrite (Hloc "mipmap-xxhdpi") by (apply plain_literal; reflexivity).
    erewrite I5; [reflexivity|]. do 1 apply list_elem_of_further. apply list_elem_of_here.
  - change "android/app/src/main/res/mipmap-xxxhdpi/ic_launcher.png"
      with ("android/app/src/main/res/" +:+ "mipmap-xxxhdpi" +:+ "/ic_launcher.png").
    rewrite (Hloc "mipmap-xxxhdpi") by (apply plain_literal; reflexivity).
    erewrite I5; [reflexivity|]. apply list_elem_of_here.
Qed.

End IconsWritten.

(** ** Calling again, and what [main] can raise *)

Section Again.
Context `{Zlib}.

(** X13.  [create_png] can be called again with the same arguments: after a
    call that succeeded, the same call succeeds again, finds the directory
    in place (this is what [exist_ok=True] is for), rewrites the file with
    the same bytes and leaves every file and directory as it was. *)
Theorem create_png_again (w h : Z) (c : color) (filepath : string) (world world' : world) :
  run (create_png w h c filepath) world = (Ok tt, world') ->
  exists world'',
    run (create_png w h c filepath) world' = (Ok tt, world'')
    /\ nodes world'' = nodes world'.
Proof.
  intros Hr.
  destruct (run_again (create_png w h c filepath) world tt world' world'
              (exist_ok_create_png w h c filepath) Hr)
    as (w2 & Hr2 & Hn & _).
  - apply (run_cwd _ _ _ _ Hr).
  - intros k. apply same_kind_refl.
  - reflexivity.
  - exists w2. split; assumption.
Qed.

End Again.

Lemma never_raises_bind {A B : Type} (p : prog A) (k : A -> prog B) :
  never_raises p -> (forall a, never_raises (k a)) -> never_raises (p ≫= k).
Proof.
  intros Hp Hk. change (mbind k) with (pbind k).
  induction p as [a|e|g IH|n eo p IH|path d p IH|l p IH]; cbn [pbind never_raises] in *.
  - apply Hk.
  - contradiction.
  - intros c. apply IH, Hp.
  - apply IH, Hp.
  - apply IH, Hp.
  - apply IH, Hp.
Qed.

Lemma never_raises_for_each {X : Type} (l : list X) (body : X -> prog unit) :
  (forall x, x ∈ l -> never_raises (body x)) -> never_raises (for_each l body).
Proof.
  induction l as [|x l IH]; intros Hb; cbn [for_each]; [exact I|].
  apply never_raises_bind; [apply Hb, list_elem_of_here|]. intros _.
  apply IH. intros y Hy. apply Hb, list_elem_of_further, Hy.
Qed.

Section NeverRaises.
Context `{Zlib}.

(** X14.  When the compressed data of each of the five icons fits an IDAT
    chunk, [main] raises nothing of its own: with the sizes and the colour
    that [main] passes, every call of the encoder comes down to
    [os.makedirs] and the write of the stream, so that an exception of
    [main] can only be one that a request to the operating system
    raised. *)
Theorem main_raises_only_in_requests (file : string) :
  (forall size, size ∈ [48; 72; 96; 144; 192] ->
     Z.of_nat (length (zlib_compress (scanlines size size 0 150 136))) < 2 ^ 32) ->
  never_raises (main file)
  /\ forall size relative_path filepath,
       (size, relative_path) ∈ icons ->
       create_png size size teal filepath
       = MakeDirs (dirname filepath) true
           (WriteFile filepath (png_stream size size 0 150 136) (Return tt)).
Proof.
  intros Hz.
  assert (forall size relative_path filepath,
            (size, relative_path) ∈ icons ->
            create_png size size teal filepath
            = MakeDirs (dirname filepath) true
                (WriteFile filepath (png_stream size size 0 150 136) (Return tt))) as Hpng.
  { intros size rel filepath Hin.
    assert (size ∈ [48; 72; 96; 144; 192]) as Hs.
    { unfold icons in Hin.
      repeat (apply elem_of_cons in Hin as [[= -> ->]|Hin]; [in_list|]).
      apply elem_of_nil in Hin. contradiction. }
    assert (0 <= size < 2 ^ 32) as Hr.
    { repeat (apply elem_of_cons in Hs as [->|Hs]; [lia|]).
      apply elem_of_nil in Hs. contradiction. }
    rewrite create_png_eq. unfold teal.
    rewrite png_bytes_ok by first [assumption | lia | apply Hz; assumption].
    reflexivity. }
  split; [|exact Hpng].
  unfold main. apply never_raises_bind.
  - unfold abspath. destruct (isabs file); cbn; auto.
  - intros abs. apply never_raises_bind; [exact I|]. intros _.
    apply never_raises_bind.
    + apply never_raises_for_each. intros [size rel] Hin.
      apply never_raises_bind; [|intros _; exact I].
      rewrite (Hpng size rel _ Hin). exact I.
    + intros _. repeat (apply never_raises_bind; [exact I|]; intros _). exact I.
Qed.

End NeverRaises.

Lemma create_png_again_witness :
  exists world'',
    run (create_png (H := zlib_stored) 1 1 teal "/out/icon.png")
      (snd (run (create_png (H := zlib_stored) 1 1 teal "/out/icon.png") empty_world))
    = (Ok tt, world'')
    /\ nodes world''
       = nodes (snd (run (create_png (H := zlib_stored) 1 1 teal "/out/icon.png") empty_world)).
Proof.
  apply (create_png_again (H := zlib_stored) 1 1 teal "/out/icon.png" empty_world).
  apply run_pair. vm_compute. reflexivity.
Defined.

Lemma stored_icons_fit (size : Z) :
  size ∈ [48; 72; 96; 144; 192] ->
  Z.of_nat (length (zlib_compress (Zlib := zlib_stored) (scanlines size size 0 150 136)))
  < 2 ^ 32.
Proof.
  intros Hin.
  repeat (apply elem_of_cons in Hin as [->|Hin]; [vm_compute; reflexivity|]).
  apply elem_of_nil in Hin. contradiction.
Qed.

Lemma main_raises_only_in_requests_witness :
  never_raises (main (H := zlib_stored) "/home/dev/calorie_tracker/scripts/generate_icons.py")
  /\ create_png (H := zlib_stored) 192 192 teal "/out/icon.png"
     = MakeDirs (dirname "/out/icon.png") true
         (WriteFile "/out/icon.png" (png_stream (H := zlib_stored) 192 192 0 150 136)
            (Return tt)).
Proof.
  destruct (main_raises_only_in_requests (H := zlib_stored)
              "/home/dev/calorie_tracker/scripts/generate_icons.py" stored_icons_fit)
    as [Hmain Hpng].
  split; [exact Hmain|].
  apply (Hpng 192 "android/app/src/main/res/mipmap-xxxhdpi/ic_launcher.png").
  do 4 apply list_elem_of_further. apply list_elem_of_here.
Defined.


Lemma main_success_leaves_icons_witness :
  read_file
    (snd (run (main (H := zlib_stored) "/home/dev/calorie_tracker/scripts/generate_icons.py")
            empty_world))
    "/home/dev/calorie_tracker/android/app/src/main/res/mipmap-mdpi/ic_launcher.png"
  = Some (png_stream (H := zlib_stored) 48 48 0 150 136)
  /\ read_file
       (snd (run (main (H := zlib_stored)
                    "/home/dev/calorie_tracker/scripts/generate_icons.py")
               empty_world))
       "/home/dev/calorie_tracker/android/app/src/main/res/mipmap-xxxhdpi/ic_launcher.png"
     = Some (png_stream (H := zlib_stored) 192 192 0 150 136).
Proof.
  assert (run (main (H := zlib_stored) "/home/dev/calorie_tracker/scripts/generate_icons.py")
            empty_world
          = (Ok tt,
             snd (run (main (H := zlib_stored)
                         "/home/dev/calorie_tracker/scripts/generate_icons.py")
                    empty_world))) as Hrun.
  { apply run_pair. rewrite run_main. unfold main_sequence.
    rewrite !create_png_eq.
    rewrite !png_bytes_ok; try lia; vm_compute; reflexivity. }
  pose proof (main_success_leaves_icons (H := zlib_stored)
                "/home/dev/calorie_tracker/scripts/generate_icons.py"
                "/home/dev/calorie_tracker" "scripts" "generate_icons.py" empty_world _
                ltac:(vm_compute; reflexivity) ltac:(discriminate) eq_refl
                ltac:(discriminate) eq_refl eq_refl Hrun) as Hicons.
  split.
  - apply (Hicons 48 "android/app/src/main/res/mipmap-mdpi/ic_launcher.png").
    apply list_elem_of_here.
  - apply (Hicons 192 "android/app/src/main/res/mipmap-xxxhdpi/ic_launcher.png").
    do 4 apply list_elem_of_further. apply list_elem_of_here.
Defined.

(** ** What a run leaves alone *)

Lemma keeps_others_refl (T : list (list string)) (w : world) : keeps_others T w w.
Proof. split; [reflexivity|]. split; [auto|]. intros k _. split; auto. Qed.

Lemma keeps_others_trans (T : list (list string)) (w1 w2 w3 : world) :
  keeps_others T w1 w2 -> keeps_others T w2 w3 -> keeps_others T w1 w3.
Proof.
  intros (Hc1 & Hd1 & Hk1) (Hc2 & Hd2 & Hk2).
  split; [congruence|]. split; [auto|].
  intros k Hk. destruct (Hk1 k Hk) as [Ha1 Hb1]. destruct (Hk2 k Hk) as [Ha2 Hb2].
  split; auto.
Qed.

Lemma keeps_others_print (T : list (list string)) (line : string) (w : world) :
  keeps_others T w (do_print line w).
Proof. split; [reflexivity|]. split; [auto|]. intros k _. split; auto. Qed.

Section Frame.
Context `{Zlib}.

Lemma run_create_png_keeps (w h : Z) (c : color) (filepath : string)
    (T : list (list string)) (world world' : world) (r : result unit) :
  locate (cwd world) filepath ∈ T ->
  run (create_png w h c filepath) world = (r, world') ->
  keeps_others T world world'.
Proof.
  intros HT. rewrite create_png_eq. destruct (png_bytes w h c) as [data|e].
  - cbn [run]. destruct (do_makedirs _ _ world) as [w1|e1] eqn:Em.
    + apply do_makedirs_inv in Em as (_ & m & Hm & ->).
      destruct (do_write_file _ _ _) as [w2|e2] eqn:Ew.
      * apply do_write_file_inv in Ew as (_ & _ & _ & Hnd & _ & ->).
        cbn [cwd nodes stdout] in *. intros [= _ <-].
        split; [reflexivity|]. cbn [nodes]. split.
        -- intros k Hk. pose proof (mkdir_p_preserves _ _ _ _ _ _ Hm Hk) as Hk'.
           rewrite lookup_insert_ne; [assumption|]. intros <-. contradiction.
        -- intros k Hk.
           assert (locate (cwd world) filepath <> k) as Hne by (intros <-; contradiction).
           rewrite lookup_insert_ne by assumption. split.
           ++ intros v. apply (mkdir_p_preserves _ _ _ _ _ _ Hm).
           ++ intros d. apply (mkdir_p_files _ _ _ _ _ _ Hm).
      * intros [= _ <-]. split; [reflexivity|]. cbn [nodes]. split.
        -- intros k. apply (mkdir_p_preserves _ _ _ _ _ _ Hm).
        -- intros k _. split.
           ++ intros v. apply (mkdir_p_preserves _ _ _ _ _ _ Hm).
           ++ intros d. apply (mkdir_p_files _ _ _ _ _ _ Hm).
    + intros [= _ <-]. apply keeps_others_refl.
  - cbn [run]. intros [= _ <-]. apply keeps_others_refl.
Qed.

(** An encoder call and its progress line in a sequence: the rest of the
    sequence, if it is run at all, starts in a world that differs from
    the first at the target only. *)
Lemma run_seq_icon_keeps (w h : Z) (c : color) (filepath line : string)
    (ps : list (prog unit)) (T : list (list string)) (world world' : world)
    (r : result unit) :
  locate (cwd world) filepath ∈ T ->
  run_seq (create_png w h c filepath :: print line :: ps) world = (r, world') ->
  keeps_others T world world'
  \/ exists w1, keeps_others T world w1 /\ run_seq ps w1 = (r, world').
Proof.
  intros HT Hrun. apply run_seq_cons_print in Hrun as [(e & Hrun & _)|(w1 & Hrun & Hrest)].
  - left. apply (run_create_png_keeps _ _ _ _ _ _ _ _ HT Hrun).
  - right. exists (do_print line w1). split; [|assumption].
    apply (keeps_others_trans _ _ w1); [|apply keeps_others_print].
    apply (run_create_png_keeps _ _ _ _ _ _ _ _ HT Hrun).
Qed.

(** X15.  Whatever its outcome, a run of [main] leaves the rest of the file
    system alone: no directory is removed, and away from the five icon
    paths below the project root no entry is removed and no regular file
    is created or changed. *)
Theorem main_touches_only_icons (file : string) (world world' : world) (r : result unit) :
  run (main file) world = (r, world') ->
  let root := dirname (dirname (script_abspath (cwd world) file)) in
  (forall k, nodes world !! k = Some Dir -> nodes world' !! k = Some Dir)
  /\ forall k,
       (forall size relative_path,
           (size, relative_path) ∈ icons -> k <> locate (cwd world) (join root relative_path)) ->
       (forall v, nodes world !! k = Some v -> nodes world' !! k = Some v)
       /\ (forall d, nodes world' !! k = Some (File d) -> nodes world !! k = Some (File d)).
Proof.
  intros Hrun root.
  set (T := (fun i : Z * string => locate (cwd world) (join root (snd i))) <$> icons).
  assert (keeps_others T world world') as (_ & Hdirs & Hrest).
  { rewrite run_main in Hrun. fold root in Hrun. unfold main_sequence in Hrun.
    rewrite (run_seq_cons_ok _ _ _ _ (run_print _ _)) in Hrun.
    set (w0 := do_print _ world) in *.
    assert (keeps_others T world w0) as K0 by apply keeps_others_print.
    assert (cwd w0 = cwd world) as Hc0 by reflexivity. clearbody w0.
    apply (keeps_others_trans _ _ _ _ K0).
    do 5 (match type of Hrun with
          | run_seq (create_png _ _ _ ?p :: _) ?w = _ =>
              let HT := fresh "HT" in
              let K := fresh "K" in
              let w' := fresh "w" in
              let Hc := fresh "Hc" in
              assert (locate (cwd w) p ∈ T) as HT
                by (match goal with Hc : cwd w = cwd world |- _ => rewrite Hc end;
                    unfold T, icons; cbn [fmap list_fmap snd]; in_list);
              destruct (run_seq_icon_keeps _ _ _ _ _ _ T _ _ _ HT Hrun)
                as [Hk|(w' & K & Hrun')]; [exact Hk|];
              clear Hrun HT; rename Hrun' into Hrun;
              apply (keeps_others_trans _ _ _ _ K);
              assert (cwd w' = cwd world) as Hc
                by (match goal with Hc : cwd w = cwd world |- _ =>
                      rewrite <- Hc end; exact (proj1 K))
          end).
    rewrite !(run_seq_cons_ok _ _ _ _ (run_print _ _)), run_seq_nil in Hrun.
    injection Hrun as _ <-.
    eapply keeps_others_trans; [|apply keeps_others_print].
    eapply keeps_others_trans; [|apply keeps_others_print].
    apply keeps_others_print. }
  split; [exact Hdirs|].
  intros k Hk. apply Hrest. unfold T. intros Hin.
  apply list_elem_of_fmap in Hin as ([size rel] & Heq & Hin).
  apply (Hk size rel Hin). exact Heq.
Qed.

(** X16.  When no pixel is built (a width or a height of zero, or below), the
    colour plays no part: [create_png] behaves the same for any two
    colours, valid or not. *)
Theorem create_png_empty_image_ignores_color (w h : Z) (c c' : color) (filepath : string) :
  w <= 0 \/ h <= 0 ->
  create_png w h c filepath = create_png w h c' filepath.
Proof.
  intros Hwh. rewrite !create_png_eq. unfold png_bytes.
  destruct c as [[r g] b], c' as [[r' g'] b'].
  rewrite !raw_scanlines_empty by assumption. reflexivity.
Qed.

End Frame.

Lemma main_touches_only_icons_witness :
  nodes (snd (run (main (H := zlib_stored) "/x/scripts/generate_icons.py")
                (World "/" {[ ["x"] := Dir; ["x"; "notes.txt"] := File [x68; x69] ]} [])))
    !! ["x"; "notes.txt"]
  = Some (File [x68; x69]).
Proof.
  pose proof (main_touches_only_icons (H := zlib_stored) "/x/scripts/generate_icons.py"
                (World "/" {[ ["x"] := Dir; ["x"; "notes.txt"] := File [x68; x69] ]} [])
                _ _ (surjective_pairing _)) as [_ Hkeep].
  destruct (Hkeep ["x"; "notes.txt"]) as [Hk _].
  - intros size rel Hin. unfold icons in Hin.
    repeat (apply elem_of_cons in Hin as [[= -> ->]|Hin]; [vm_compute; discriminate|]).
    apply elem_of_nil in Hin. contradiction.
  - apply Hk. vm_compute. reflexivity.
Defined.

Lemma create_png_empty_image_ignores_color_witness :
  create_png (H := zlib_stored) 2 0 (PyNonInt, PyInt 300, PyInt (-1)) "/out/icon.png"
  = create_png (H := zlib_stored) 2 0 teal "/out/icon.png".
Proof.
  apply (create_png_empty_image_ignores_color (H := zlib_stored)). right. lia.
Defined.

(** ** The project root when the script is run as documented *)

(** X17.  Run as the script documents ([python3 scripts/generate_icons.py]
    from the project directory): when the working directory is an
    absolute path of plain components and [__file__] is a relative path
    [d/f], [os.path.abspath(__file__)] is the working directory followed
    by [/d/f], and the project root [main] computes is the working
    directory. *)
Theorem main_root_is_working_directory (cs : list string) (d f : string) (world : world) :
  cs <> [] -> Forall plain_component cs -> plain_component d -> plain_component f ->
  cwd world = path_below "" cs ->
  run (abspath (d +:+ "/" +:+ f)) world
  = (Ok (cwd world +:+ "/" +:+ d +:+ "/" +:+ f), world)
  /\ dirname (dirname (script_abspath (cwd world) (d +:+ "/" +:+ f))) = cwd world.
Proof.
  intros Hne Hcs Hd Hf Hcwd. rewrite run_abspath, Hcwd.
  assert (path_below "" cs <> "" /\ ends_with_sep (path_below "" cs) = false) as [Hc1 Hc2].
  { destruct cs as [|c cs]; [congruence|]. apply Forall_cons in Hcs as [Hc Hcs'].
    cbn [path_below]. apply path_below_shape; [discriminate| |assumption].
    apply ends_with_sep_child. assumption. }
  assert (script_abspath (path_below "" cs) (d +:+ "/" +:+ f)
          = path_below "" cs +:+ "/" +:+ d +:+ "/" +:+ f) as Habs.
  { assert (isabs (d +:+ "/" +:+ f) = false) as Hrel.
    { destruct (plain_component_head d Hd) as (a & d0 & -> & Ha). exact Ha. }
    unfold script_abspath, join.
    rewrite Hrel, bool_decide_eq_false_2, Hc2 by assumption. cbn [orb].
    replace (path_below "" cs +:+ "/" +:+ d +:+ "/" +:+ f)
      with (path_below "" (cs ++ [d; f])).
    - apply normpath_path_below.
      + destruct cs; discriminate.
      + apply Forall_app. split; [assumption|].
        apply Forall_cons. split; [assumption|].
        apply Forall_cons. split; [assumption|apply Forall_nil_2].
    - rewrite path_below_app. cbn [path_below]. rewrite !append_assoc. reflexivity. }
  split; [rewrite Habs; reflexivity|].
  rewrite Habs. apply dirname_dirname; try assumption; apply Hd || apply Hf.
Qed.

Lemma main_root_is_working_directory_witness :
  run (abspath "scripts/generate_icons.py") (World "/home/dev/calorie_tracker" ∅ [])
  = (Ok "/home/dev/calorie_tracker/scripts/generate_icons.py",
     World "/home/dev/calorie_tracker" ∅ [])
  /\ dirname (dirname (script_abspath "/home/dev/calorie_tracker" "scripts/generate_icons.py"))
     = "/home/dev/calorie_tracker".
Proof.
  apply (main_root_is_working_directory ["home"; "dev"; "calorie_tracker"]
           "scripts" "generate_icons.py" (World "/home/dev/calorie_tracker" ∅ [])).
  - discriminate.
  - repeat (apply Forall_cons; split; [apply plain_literal; reflexivity|]). apply Forall_nil_2.
  - apply plain_literal; reflexivity.
  - apply plain_literal; reflexivity.
  - reflexivity.
Defined.
